(** * Wallet ledger and investment accrual engine

    A shallow embedding of the services of the crypto-arbitrage platform:

    - [DatabaseService]   (src/lib/database.ts): the store, one list of rows
      per table, every call a round trip that may fail;
    - [WalletService]     (services/walletService.ts, whose text follows the
      SQL script in database/fix-investment-plans-table.sql): submit, the
      four transaction kinds, approval and rejection of withdrawals;
    - [InvestmentService] (services/investmentService.ts): investing,
      cancelling, the accrual sweep and plan updates.

    Modelling choices, all visible in the definitions below.

    - Amounts are the source's [number]; they are taken here as exact
      rationals [Q], compared with [==], [<] and [<=] of [QArith].  The
      rounding of binary64 is not part of the ledger model: a stored amount
      is the exact value of the expression the source evaluates.  Where a
      property turns on the rounding itself, the arithmetic is transcribed
      on binary64 numbers in [Binary64] and the property is settled there.
    - Dates are milliseconds since the epoch, in [Z]; the clock [now] is an
      argument of every operation that reads it.
    - The services are [async] code that awaits every call in turn; an
      operation is a function from world to outcome and world.  A JavaScript
      exception keeps the writes made before it, so the world is threaded
      through [Throw] as well.
    - Every method of [DatabaseService] wraps its query in [try]/[catch] and
      returns [null] (or an empty array) when the query errors.  The world
      carries a schedule of such errors, one boolean per round trip; an
      exhausted schedule means that every further call succeeds.
    - [db.createNotification] and [db.createAuditLog] write to tables that
      nothing below reads, swallow their own errors, and their results are
      discarded by every caller; they are left out. *)

From Stdlib Require Import QArith ZArith List Bool Arith Lia Lqa.
From Stdlib Require Import PrimFloat.
Import ListNotations.

Local Open Scope Q_scope.

(** ** Data model *)

Inductive Asset : Type := BTC | ETH | USDT | USDC.

Inductive TxType : Type := DEPOSIT | WITHDRAW | EXCHANGE | INVEST.

Inductive TxStatus : Type := PENDING | COMPLETED | REJECTED.

Inductive SubStatus : Type := ACTIVE | SUB_COMPLETED | CANCELLED.

Definition UserId := nat.
Definition RowId := nat.

Bind Scope nat_scope with UserId RowId.

Definition Asset_eqb (a b : Asset) : bool :=
  match a, b with
  | BTC, BTC | ETH, ETH | USDT, USDT | USDC, USDC => true
  | _, _ => false
  end.

Definition SubStatus_eqb (a b : SubStatus) : bool :=
  match a, b with
  | ACTIVE, ACTIVE | SUB_COMPLETED, SUB_COMPLETED | CANCELLED, CANCELLED => true
  | _, _ => false
  end.

Record Wallet : Type := mkWallet {
  w_id : RowId;
  w_user : UserId;
  w_asset : Asset;
  w_balance : Q
}.

Record Transaction : Type := mkTransaction {
  t_id : RowId;
  t_user : UserId;
  t_type : TxType;
  t_asset : Asset;
  t_amount : Q;
  t_status : TxStatus;
  t_from_asset : option Asset;
  t_to_asset : option Asset;
  t_plan_id : option RowId
}.

Record Plan : Type := mkPlan {
  p_id : RowId;
  p_duration_days : Z;
  p_apy : Q;
  p_min_amount : Q;
  p_max_amount : option Q;
  p_is_active : bool
}.

Record Subscription : Type := mkSubscription {
  s_id : RowId;
  s_user : UserId;
  s_plan_id : RowId;
  s_amount : Q;
  s_start_date : Z;
  s_end_date : Z;
  s_status : SubStatus;
  s_total_earned : Q
}.

(** The tables, the counter the store draws fresh row ids from, and the
    schedule of failing round trips. *)
Record World : Type := mkWorld {
  wallets : list Wallet;
  transactions : list Transaction;
  subscriptions : list Subscription;
  plans : list Plan;
  next_id : RowId;
  faults : list bool
}.

Definition setWallets (ws : list Wallet) (w : World) : World :=
  mkWorld ws (transactions w) (subscriptions w) (plans w) (next_id w) (faults w).

Definition setTransactions (ts : list Transaction) (w : World) : World :=
  mkWorld (wallets w) ts (subscriptions w) (plans w) (next_id w) (faults w).

Definition setSubscriptions (ss : list Subscription) (w : World) : World :=
  mkWorld (wallets w) (transactions w) ss (plans w) (next_id w) (faults w).

Definition setPlans (ps : list Plan) (w : World) : World :=
  mkWorld (wallets w) (transactions w) (subscriptions w) ps (next_id w) (faults w).

Definition setNextId (n : RowId) (w : World) : World :=
  mkWorld (wallets w) (transactions w) (subscriptions w) (plans w) n (faults w).

Definition setFaults (fs : list bool) (w : World) : World :=
  mkWorld (wallets w) (transactions w) (subscriptions w) (plans w) (next_id w) fs.

(** ** Comparisons of amounts, as booleans *)

Definition Qltb (x y : Q) : bool := negb (Qle_bool y x).
Definition Qgtb (x y : Q) : bool := Qltb y x.
Definition Qnonzero (x : Q) : bool := negb (Qeq_bool x 0).

(** ** The monad of the services: world passing with exceptions *)

Inductive Error : Type :=
| WalletNotFound
| InsufficientBalance
| InsufficientBalanceForFees
| FailedToUpdateWalletBalance
| MinimumAmount (a : Asset) (m : Q)
| InsufficientBalanceForInvestment
| ValidationFailed.

Inductive Outcome (A : Type) : Type :=
| Ok (a : A)
| Throw (e : Error).

Arguments Ok {A} a.
Arguments Throw {A} e.

Definition M (A : Type) : Type := World -> Outcome A * World.

Definition ret {A} (a : A) : M A := fun w => (Ok a, w).

Definition bind {A B} (m : M A) (f : A -> M B) : M B :=
  fun w =>
    match m w with
    | (Ok a, w') => f a w'
    | (Throw e, w') => (Throw e, w')
    end.

Definition throw {A} (e : Error) : M A := fun w => (Throw e, w).

Definition try_catch {A} (m : M A) (h : Error -> M A) : M A :=
  fun w =>
    match m w with
    | (Ok a, w') => (Ok a, w')
    | (Throw e, w') => h e w'
    end.

Definition gets {A} (f : World -> A) : M A := fun w => (Ok (f w), w).

Definition modify (g : World -> World) : M unit := fun w => (Ok tt, g w).

Declare Scope svc_scope.
Delimit Scope svc_scope with svc.
Notation "x <- m ;; k" := (bind m (fun x => k))
  (at level 61, m at next level, right associativity) : svc_scope.
Notation "m ;;; k" := (bind m (fun _ => k))
  (at level 61, right associativity) : svc_scope.
Local Open Scope svc_scope.

(** [for (const x of xs) { body }] *)
Fixpoint for_of {A} (xs : list A) (body : A -> M unit) : M unit :=
  match xs with
  | [] => ret tt
  | x :: rest => body x ;;; for_of rest body
  end.

(** One round trip to the store; the result is [true] when the query
    errors. *)
Definition roundTrip : M bool :=
  fun w =>
    match faults w with
    | [] => (Ok false, w)
    | f :: fs => (Ok f, setFaults fs w)
    end.

(** ** DatabaseService (src/lib/database.ts)

    Each method is [try { query; if (error) throw error; return data }
    catch { return null }]: it never throws, and an erroring round trip
    leaves the tables as they were. *)

Record TransactionInsert : Type := mkTransactionInsert {
  ti_user : UserId;
  ti_type : TxType;
  ti_asset : Asset;
  ti_amount : Q;
  ti_status : TxStatus;
  ti_from_asset : option Asset;
  ti_to_asset : option Asset;
  ti_plan_id : option RowId
}.

Record SubscriptionInsert : Type := mkSubscriptionInsert {
  si_user : UserId;
  si_plan_id : RowId;
  si_amount : Q;
  si_start_date : Z;
  si_end_date : Z;
  si_status : SubStatus;
  si_total_earned : Q
}.

(** [Partial<Subscription>] and [Partial<Plan>], for the fields the services
    update. *)
Record SubscriptionUpdate : Type := mkSubscriptionUpdate {
  su_status : option SubStatus;
  su_total_earned : option Q
}.

Record PlanUpdate : Type := mkPlanUpdate {
  pu_apy : option Q;
  pu_duration_days : option Z;
  pu_min_amount : option Q;
  pu_max_amount : option (option Q);
  pu_is_active : option bool
}.

Definition withBalance (b : Q) (x : Wallet) : Wallet :=
  mkWallet (w_id x) (w_user x) (w_asset x) b.

Definition withStatus (st : TxStatus) (t : Transaction) : Transaction :=
  mkTransaction (t_id t) (t_user t) (t_type t) (t_asset t) (t_amount t) st
    (t_from_asset t) (t_to_asset t) (t_plan_id t).

Definition orElse {A} (o : option A) (d : A) : A :=
  match o with Some a => a | None => d end.

Definition applySubscriptionUpdate (u : SubscriptionUpdate) (s : Subscription)
  : Subscription :=
  mkSubscription (s_id s) (s_user s) (s_plan_id s) (s_amount s)
    (s_start_date s) (s_end_date s)
    (orElse (su_status u) (s_status s))
    (orElse (su_total_earned u) (s_total_earned s)).

Definition applyPlanUpdate (u : PlanUpdate) (p : Plan) : Plan :=
  mkPlan (p_id p)
    (orElse (pu_duration_days u) (p_duration_days p))
    (orElse (pu_apy u) (p_apy p))
    (orElse (pu_min_amount u) (p_min_amount p))
    (orElse (pu_max_amount u) (p_max_amount p))
    (orElse (pu_is_active u) (p_is_active p)).

(** [UPDATE table SET ... WHERE id = ...]: the rows with that id are
    rewritten, the others and the order of the table are kept. *)
Definition updateWhere {A} (sel : A -> bool) (f : A -> A) (rows : list A)
  : list A :=
  map (fun r => if sel r then f r else r) rows.

(** [Database['public']['Tables']['plans']['Insert']], for the fields the
    services pass. *)
Record PlanInsert : Type := mkPlanInsert {
  pi_duration_days : Z;
  pi_apy : Q;
  pi_min_amount : Q;
  pi_max_amount : option Q;
  pi_is_active : bool
}.

(** [ORDER BY min_amount]: an insertion sort that keeps the order of the
    table among plans of equal minimum. *)
Fixpoint insertByMinAmount (p : Plan) (ps : list Plan) : list Plan :=
  match ps with
  | [] => [p]
  | q :: rest =>
      if Qle_bool (p_min_amount p) (p_min_amount q)
      then p :: q :: rest
      else q :: insertByMinAmount p rest
  end.

Definition orderByMinAmount (ps : list Plan) : list Plan :=
  fold_right insertByMinAmount [] ps.

Module db.

(** [from('wallets').select('*').eq('user_id', userId).order('asset')];
    an error gives the empty array.  The callers only search the result for
    one asset, so the ordering by asset is not modelled. *)
Definition getUserWallets (userId : UserId) : M (list Wallet) :=
  err <- roundTrip ;;
  if err then ret []
  else gets (fun w => filter (fun x => w_user x =? userId)%nat (wallets w)).

(** [update({ balance }).eq('id', id).select().single()] *)
Definition updateWalletBalance (id : RowId) (balance : Q)
  : M (option Wallet) :=
  err <- roundTrip ;;
  if err then ret None
  else
    ws <- gets wallets ;;
    match find (fun x => w_id x =? id)%nat ws with
    | None => ret None
    | Some x =>
        modify (setWallets
                  (updateWhere (fun y => w_id y =? id)%nat
                     (withBalance balance) ws)) ;;;
        ret (Some (withBalance balance x))
    end.

(** [insert(transactionData).select().single()]; the store numbers the
    row. *)
Definition createTransaction (d : TransactionInsert)
  : M (option Transaction) :=
  err <- roundTrip ;;
  if err then ret None
  else
    id <- gets next_id ;;
    let t := mkTransaction id (ti_user d) (ti_type d) (ti_asset d)
               (ti_amount d) (ti_status d) (ti_from_asset d)
               (ti_to_asset d) (ti_plan_id d) in
    modify (fun w => setNextId (S id)
                       (setTransactions (transactions w ++ [t]) w)) ;;;
    ret (Some t).

(** [update({ status }).eq('id', id).select().single()] *)
Definition updateTransactionStatus (id : RowId) (st : TxStatus)
  : M (option Transaction) :=
  err <- roundTrip ;;
  if err then ret None
  else
    ts <- gets transactions ;;
    match find (fun t => t_id t =? id)%nat ts with
    | None => ret None
    | Some t =>
        modify (setTransactions
                  (updateWhere (fun y => t_id y =? id)%nat
                     (withStatus st) ts)) ;;;
        ret (Some (withStatus st t))
    end.

(** [from('transactions').select('*').eq('id', id).single()], the query of
    [WalletService.getTransactionById]; [None] stands for an error. *)
Definition selectTransaction (id : RowId) : M (option Transaction) :=
  err <- roundTrip ;;
  if err then ret None
  else gets (fun w => find (fun t => t_id t =? id)%nat (transactions w)).

Definition updatePlan (id : RowId) (u : PlanUpdate) : M (option Plan) :=
  err <- roundTrip ;;
  if err then ret None
  else
    ps <- gets plans ;;
    match find (fun p => p_id p =? id)%nat ps with
    | None => ret None
    | Some p =>
        modify (setPlans
                  (updateWhere (fun y => p_id y =? id)%nat
                     (applyPlanUpdate u) ps)) ;;;
        ret (Some (applyPlanUpdate u p))
    end.

(** [from('plans').select('*').eq('id', planId).eq('is_active', true)
    .single()], the query of [validateInvestment]. *)
Definition selectActivePlan (planId : RowId) : M (option Plan) :=
  err <- roundTrip ;;
  if err then ret None
  else gets (fun w =>
               find (fun p => (p_id p =? planId)%nat && p_is_active p)
                 (plans w)).

Definition createSubscription (d : SubscriptionInsert)
  : M (option Subscription) :=
  err <- roundTrip ;;
  if err then ret None
  else
    id <- gets next_id ;;
    let s := mkSubscription id (si_user d) (si_plan_id d) (si_amount d)
               (si_start_date d) (si_end_date d) (si_status d)
               (si_total_earned d) in
    modify (fun w => setNextId (S id)
                       (setSubscriptions (subscriptions w ++ [s]) w)) ;;;
    ret (Some s).

Definition updateSubscription (id : RowId) (u : SubscriptionUpdate)
  : M (option Subscription) :=
  err <- roundTrip ;;
  if err then ret None
  else
    ss <- gets subscriptions ;;
    match find (fun s => s_id s =? id)%nat ss with
    | None => ret None
    | Some s =>
        modify (setSubscriptions
                  (updateWhere (fun y => s_id y =? id)%nat
                     (applySubscriptionUpdate u) ss)) ;;;
        ret (Some (applySubscriptionUpdate u s))
    end.

(** The embedded resource [plans] of a subscription row: the plan its
    [plan_id] refers to, or [null]. *)
Definition joinPlan (ps : list Plan) (s : Subscription)
  : Subscription * option Plan :=
  (s, find (fun p => p_id p =? s_plan_id s)%nat ps).

(** [from('subscriptions').select(all, plans).eq('id', subscriptionId)
    .eq('user_id', userId).single()], the query of [cancelInvestment]. *)
Definition selectUserSubscription (subscriptionId : RowId) (userId : UserId)
  : M (option (Subscription * option Plan)) :=
  err <- roundTrip ;;
  if err then ret None
  else gets (fun w =>
               option_map (joinPlan (plans w))
                 (find (fun s => (s_id s =? subscriptionId)%nat
                                 && (s_user s =? userId)%nat)
                    (subscriptions w))).

(** [from('subscriptions').select(all, plans).eq('status', 'ACTIVE')],
    the query of [processEarnings]; [None] stands for an error. *)
Definition selectActiveSubscriptions
  : M (option (list (Subscription * option Plan))) :=
  err <- roundTrip ;;
  if err then ret None
  else gets (fun w =>
               Some (map (joinPlan (plans w))
                       (filter (fun s => SubStatus_eqb (s_status s) ACTIVE)
                          (subscriptions w)))).

(** [from('plans').select('*').eq('is_active', true).order('min_amount')];
    an error gives the empty array. *)
Definition getActivePlans : M (list Plan) :=
  err <- roundTrip ;;
  if err then ret []
  else gets (fun w => orderByMinAmount (filter p_is_active (plans w))).

(** [insert(planData).select().single()]; the store numbers the row. *)
Definition createPlan (d : PlanInsert) : M (option Plan) :=
  err <- roundTrip ;;
  if err then ret None
  else
    id <- gets next_id ;;
    let p := mkPlan id (pi_duration_days d) (pi_apy d) (pi_min_amount d)
               (pi_max_amount d) (pi_is_active d) in
    modify (fun w => setNextId (S id) (setPlans (plans w ++ [p]) w)) ;;;
    ret (Some p).

(** [from('transactions').select(all, users).eq('status', 'PENDING')
    .order('created_at', { ascending: false })], the query of
    [AdminService.getPendingTransactions]; [None] stands for an error.  The
    tables keep their rows in the order of insertion, so the newest come
    first in the reversed table. *)
Definition selectPendingTransactions : M (option (list Transaction)) :=
  err <- roundTrip ;;
  if err then ret None
  else gets (fun w =>
               Some (rev (filter
                            (fun t => match t_status t with
                                      | PENDING => true
                                      | _ => false
                                      end)
                            (transactions w)))).

End db.

(** ** WalletService (services/walletService.ts) *)

Record TransactionRequest : Type := mkTransactionRequest {
  r_type : TxType;
  r_asset : Asset;
  r_amount : Q;
  r_fromAsset : option Asset;
  r_toAsset : option Asset;
  r_planId : option RowId
}.

(** [{ valid: boolean; error?: string }] *)
Inductive Validation : Type :=
| Valid
| Invalid (e : Error).

(** [wallets.find(w => w.asset === asset)] *)
Definition findAsset (a : Asset) (ws : list Wallet) : option Wallet :=
  find (fun x => Asset_eqb (w_asset x) a) ws.

(** The table [minAmounts] of [validateTransaction]. *)
Definition minAmounts (a : Asset) : Q :=
  match a with
  | BTC => 1 # 1000
  | ETH => 1 # 100
  | USDT => 10
  | USDC => 10
  end.

(** The field [amount] of [getNetworkFee(asset)]. *)
Definition getNetworkFee (a : Asset) : Q :=
  match a with
  | BTC => 1 # 10000
  | ETH => 2 # 1000
  | USDT => 1
  | USDC => 1
  end.

Section Services.

(** [cryptoAPI.convertCrypto(amount, from, to)] of src/lib/api.ts, which is
    not among the sources: the conversion is a parameter of the services. *)
Variable convertCrypto : Q -> Asset -> Asset -> Q.

Definition processDeposit (userId : UserId) (asset : Asset) (amount : Q)
  : M bool :=
  try_catch
    (ws <- db.getUserWallets userId ;;
     match findAsset asset ws with
     | None => throw WalletNotFound
     | Some wallet =>
         updatedWallet <-
           db.updateWalletBalance (w_id wallet) (w_balance wallet + amount) ;;
         match updatedWallet with
         | None => throw FailedToUpdateWalletBalance
         | Some _ => ret true
         end
     end)
    (fun _ => ret false).

(** The argument [toAddress] is not read by the source.  [totalDeduction]
    is the exact sum here; the source holds the binary64 sum, which can
    differ from it in the last place, and compares the balance with that. *)
Definition processWithdrawal (userId : UserId) (asset : Asset) (amount : Q)
  : M bool :=
  try_catch
    (ws <- db.getUserWallets userId ;;
     match findAsset asset ws with
     | None => throw WalletNotFound
     | Some wallet =>
         if Qltb (w_balance wallet) amount then throw InsufficientBalance
         else
           let networkFee := getNetworkFee asset in
           let totalDeduction := amount + networkFee in
           if Qltb (w_balance wallet) totalDeduction
           then throw InsufficientBalanceForFees
           else
             updatedWallet <-
               db.updateWalletBalance (w_id wallet)
                 (w_balance wallet - totalDeduction) ;;
             match updatedWallet with
             | None => throw FailedToUpdateWalletBalance
             | Some _ => ret true
             end
     end)
    (fun _ => ret false).

(** The two results of [db.updateWalletBalance] are dropped by the source.
    The source takes [fromAsset] and [toAsset] as strings; a string that
    names no asset finds no wallet, which is the case [None] of the caller
    below. *)
Definition processExchange (userId : UserId) (fromAsset toAsset : Asset)
    (amount : Q) : M bool :=
  try_catch
    (ws <- db.getUserWallets userId ;;
     match findAsset fromAsset ws, findAsset toAsset ws with
     | Some fromWallet, Some toWallet =>
         if Qltb (w_balance fromWallet) amount then throw InsufficientBalance
         else
           let exchangeRate := convertCrypto 1 fromAsset toAsset in
           let exchangeFee := 1 # 1000 in
           let receivedAmount := (amount * exchangeRate) * (1 - exchangeFee) in
           db.updateWalletBalance (w_id fromWallet)
             (w_balance fromWallet - amount) ;;;
           db.updateWalletBalance (w_id toWallet)
             (w_balance toWallet + receivedAmount) ;;;
           ret true
     | _, _ => throw WalletNotFound
     end)
    (fun _ => ret false).

Definition getTransactionById (transactionId : RowId)
  : M (option Transaction) :=
  db.selectTransaction transactionId.

Definition validateTransaction (userId : UserId) (request : TransactionRequest)
  : M Validation :=
  try_catch
    (ws <- db.getUserWallets userId ;;
     match r_type request with
     | WITHDRAW | EXCHANGE =>
         match findAsset (r_asset request) ws with
         | None => ret (Invalid WalletNotFound)
         | Some wallet =>
             if Qltb (w_balance wallet) (r_amount request)
             then ret (Invalid InsufficientBalance)
             else if Qltb (r_amount request) (minAmounts (r_asset request))
             then ret (Invalid (MinimumAmount (r_asset request)
                                  (minAmounts (r_asset request))))
             else ret Valid
         end
     | DEPOSIT => ret Valid
     | INVEST =>
         match findAsset (r_asset request) ws with
         | None => ret (Invalid InsufficientBalanceForInvestment)
         | Some investWallet =>
             if Qltb (w_balance investWallet) (r_amount request)
             then ret (Invalid InsufficientBalanceForInvestment)
             else ret Valid
         end
     end)
    (fun _ => ret (Invalid ValidationFailed)).

(** The tail of [processTransaction]: the status update that follows the
    [switch]. *)
Definition settle (transaction : Transaction) (success : bool) : M unit :=
  if success
  then db.updateTransactionStatus (t_id transaction) COMPLETED ;;; ret tt
  else db.updateTransactionStatus (t_id transaction) REJECTED ;;; ret tt.

Definition processTransaction (transaction : Transaction) : M unit :=
  try_catch
    (match t_type transaction with
     | DEPOSIT =>
         success <- processDeposit (t_user transaction) (t_asset transaction)
                      (t_amount transaction) ;;
         settle transaction success
     | WITHDRAW => ret tt
     | EXCHANGE =>
         match t_from_asset transaction, t_to_asset transaction with
         | Some fromAsset, Some toAsset =>
             success <- processExchange (t_user transaction) fromAsset toAsset
                          (t_amount transaction) ;;
             settle transaction success
         | _, _ => settle transaction false
         end
     | INVEST => settle transaction true
     end)
    (fun _ =>
       db.updateTransactionStatus (t_id transaction) REJECTED ;;; ret tt).

(** The method is declared [Promise<void>] and has no [return]. *)
Definition createTransaction (userId : UserId) (request : TransactionRequest)
  : M unit :=
  try_catch
    (validation <- validateTransaction userId request ;;
     match validation with
     | Invalid e => throw e
     | Valid =>
         transaction <-
           db.createTransaction
             (mkTransactionInsert userId (r_type request) (r_asset request)
                (r_amount request) PENDING (r_fromAsset request)
                (r_toAsset request) (r_planId request)) ;;
         match transaction with
         | Some t => processTransaction t
         | None => ret tt
         end
     end)
    (fun e => throw e).

Definition isPendingWithdraw (t : Transaction) : bool :=
  match t_type t, t_status t with
  | WITHDRAW, PENDING => true
  | _, _ => false
  end.

Definition approveWithdrawal (transactionId : RowId) (adminId : UserId)
  : M bool :=
  try_catch
    (transaction <- getTransactionById transactionId ;;
     match transaction with
     | None => ret false
     | Some t =>
         if negb (isPendingWithdraw t) then ret false
         else
           success <- processWithdrawal (t_user t) (t_asset t) (t_amount t) ;;
           (if success
            then db.updateTransactionStatus transactionId COMPLETED ;;; ret tt
            else ret tt) ;;;
           ret success
     end)
    (fun _ => ret false).

Definition rejectWithdrawal (transactionId : RowId) (adminId : UserId)
  : M bool :=
  try_catch
    (transaction <- getTransactionById transactionId ;;
     match transaction with
     | None => ret false
     | Some t =>
         if negb (isPendingWithdraw t) then ret false
         else
           db.updateTransactionStatus transactionId REJECTED ;;;
           ret true
     end)
    (fun _ => ret false).

(** ** InvestmentService (services/investmentService.ts) *)

Record InvestmentRequest : Type := mkInvestmentRequest {
  ir_planId : RowId;
  ir_amount : Q;
  ir_asset : Asset
}.

(** The messages the service reports in [{ success: false, error }]. *)
Inductive InvestError : Type :=
| PlanNotFoundOrInactive
| MinimumInvestmentAmount (m : Q)
| MaximumInvestmentAmount (m : Q)
| InvestmentValidationFailed
| InsufficientBalanceToInvest
| FailedToCreateInvestmentTransaction
| FailedToCreateInvestmentSubscription
| FailedToCreateInvestment
| InvestmentNotFound
| InvestmentNotActive
| FailedToCancelInvestment.

(** [{ valid; error?; plan? }] *)
Inductive InvestValidation : Type :=
| InvestValid (plan : Plan)
| InvestInvalid (e : InvestError).

(** [{ success; error?; subscriptionId? }] *)
Inductive InvestResult : Type :=
| InvestSuccess (subscriptionId : RowId)
| InvestFailure (e : InvestError).

(** [{ success; error? }] *)
Inductive CancelResult : Type :=
| CancelSuccess
| CancelFailure (e : InvestError).

Definition msPerDay : Z := 1000 * 60 * 60 * 24.

(** [plan.max_amount && request.amount > plan.max_amount]: a maximum that is
    [null] or [0] bounds nothing. *)
Definition exceedsMax (amount : Q) (max_amount : option Q) : bool :=
  match max_amount with
  | None => false
  | Some m => Qnonzero m && Qgtb amount m
  end.

Definition validateInvestment (userId : UserId) (request : InvestmentRequest)
  : M InvestValidation :=
  try_catch
    (plan <- db.selectActivePlan (ir_planId request) ;;
     match plan with
     | None => ret (InvestInvalid PlanNotFoundOrInactive)
     | Some plan =>
         if Qltb (ir_amount request) (p_min_amount plan)
         then ret (InvestInvalid (MinimumInvestmentAmount (p_min_amount plan)))
         else if exceedsMax (ir_amount request) (p_max_amount plan)
         then ret (InvestInvalid
                     (MaximumInvestmentAmount
                        (orElse (p_max_amount plan) 0)))
         else ret (InvestValid plan)
     end)
    (fun _ => ret (InvestInvalid InvestmentValidationFailed)).

(** What [await] yields for a [Promise<void>]: [undefined], whatever the
    callee did. *)
Definition awaitedVoid (_ : unit) : option Transaction := None.

(** [endDate.setDate(endDate.getDate() + plan.duration_days)], taken as
    days of 24 hours. *)
Definition addDays (date : Z) (days : Z) : Z := (date + days * msPerDay)%Z.

Definition createInvestment (userId : UserId) (request : InvestmentRequest)
    (now : Z) : M InvestResult :=
  try_catch
    (validation <- validateInvestment userId request ;;
     match validation with
     | InvestInvalid e => ret (InvestFailure e)
     | InvestValid plan =>
         ws <- db.getUserWallets userId ;;
         match findAsset (ir_asset request) ws with
         | None => ret (InvestFailure InsufficientBalanceToInvest)
         | Some wallet =>
             if Qltb (w_balance wallet) (ir_amount request)
             then ret (InvestFailure InsufficientBalanceToInvest)
             else
               done <-
                 createTransaction userId
                   (mkTransactionRequest INVEST (ir_asset request)
                      (ir_amount request) None None
                      (Some (ir_planId request))) ;;
               match awaitedVoid done with
               | None => ret (InvestFailure FailedToCreateInvestmentTransaction)
               | Some _ =>
                   let startDate := now in
                   let endDate := addDays now (p_duration_days plan) in
                   subscription <-
                     db.createSubscription
                       (mkSubscriptionInsert userId (ir_planId request)
                          (ir_amount request) startDate endDate ACTIVE 0) ;;
                   match subscription with
                   | None =>
                       ret (InvestFailure FailedToCreateInvestmentSubscription)
                   | Some subscription =>
                       db.updateWalletBalance (w_id wallet)
                         (w_balance wallet - ir_amount request) ;;;
                       ret (InvestSuccess (s_id subscription))
                   end
               end
         end
     end)
    (fun _ => ret (InvestFailure FailedToCreateInvestment)).

(** [Math.floor((now - start) / (1000 * 60 * 60 * 24))] *)
Definition daysSinceStart (now start : Z) : Z := ((now - start) / msPerDay)%Z.

(** Lines 185-192 of [cancelInvestment]: the pair of [refundAmount] and
    [penalty], in exact arithmetic; [Binary64.refundAndPenalty] is the same
    computation on the numbers of the source. *)
Definition refundAndPenalty (amount : Q) (days : Z) : Q * Q :=
  if (days <? 30)%Z
  then let penalty := amount * (5 # 100) in (amount - penalty, penalty)
  else (amount, 0).

Definition cancelInvestment (userId : UserId) (subscriptionId : RowId)
    (now : Z) : M CancelResult :=
  try_catch
    (row <- db.selectUserSubscription subscriptionId userId ;;
     match row with
     | None => ret (CancelFailure InvestmentNotFound)
     | Some (subscription, _) =>
         if negb (SubStatus_eqb (s_status subscription) ACTIVE)
         then ret (CancelFailure InvestmentNotActive)
         else
           let days := daysSinceStart now (s_start_date subscription) in
           let refundAmount :=
             fst (refundAndPenalty (s_amount subscription) days) in
           db.updateSubscription subscriptionId
             (mkSubscriptionUpdate (Some CANCELLED) None) ;;;
           ws <- db.getUserWallets userId ;;
           (match findAsset USDT ws with
            | Some usdtWallet =>
                db.updateWalletBalance (w_id usdtWallet)
                  (w_balance usdtWallet + refundAmount) ;;;
                ret tt
            | None => ret tt
            end) ;;;
           db.createTransaction
             (mkTransactionInsert userId DEPOSIT USDT refundAmount COMPLETED
                None None None) ;;;
           ret CancelSuccess
     end)
    (fun _ => ret (CancelFailure FailedToCancelInvestment)).

(** The body of the [for] loop of [processEarnings], for one row of the
    query. *)
Definition accrue (now : Z) (row : Subscription * option Plan) : M unit :=
  let (subscription, plan) := row in
  match plan with
  | None => ret tt
  | Some plan =>
      let dailyRate := p_apy plan / 365 / 100 in
      let dailyEarnings := s_amount subscription * dailyRate in
      let newTotalEarned := s_total_earned subscription + dailyEarnings in
      db.updateSubscription (s_id subscription)
        (mkSubscriptionUpdate None (Some newTotalEarned)) ;;;
      ws <- db.getUserWallets (s_user subscription) ;;
      let usdtWallet := findAsset USDT ws in
      (match usdtWallet with
       | Some x =>
           db.updateWalletBalance (w_id x) (w_balance x + dailyEarnings) ;;;
           ret tt
       | None => ret tt
       end) ;;;
      db.createTransaction
        (mkTransactionInsert (s_user subscription) DEPOSIT USDT dailyEarnings
           COMPLETED None None None) ;;;
      if (s_end_date subscription <=? now)%Z
      then
        db.updateSubscription (s_id subscription)
          (mkSubscriptionUpdate (Some SUB_COMPLETED) None) ;;;
        (match usdtWallet with
         | Some x =>
             db.updateWalletBalance (w_id x)
               (w_balance x + s_amount subscription) ;;;
             ret tt
         | None => ret tt
         end) ;;;
        db.createTransaction
          (mkTransactionInsert (s_user subscription) DEPOSIT USDT
             (s_amount subscription) COMPLETED None None None) ;;;
        ret tt
      else ret tt
  end.

Definition processEarnings (now : Z) : M unit :=
  try_catch
    (activeSubscriptions <- db.selectActiveSubscriptions ;;
     match activeSubscriptions with
     | None => ret tt
     | Some rows => for_of rows (accrue now)
     end)
    (fun _ => ret tt).

Definition updatePlan (planId : RowId) (updates : PlanUpdate)
  : M (option Plan) :=
  try_catch (db.updatePlan planId updates) (fun _ => ret None).

End Services.

(** ** WalletService: the portfolio *)

(** An entry of [cryptoAPI.getCurrentRates()]. *)
Record Rate : Type := mkRate {
  rate_price : Q;
  rate_change24h : Q
}.

(** [WalletBalance]; the receive address is not modelled. *)
Record WalletBalance : Type := mkWalletBalance {
  wb_asset : Asset;
  wb_balance : Q;
  wb_usdValue : Q;
  wb_change24h : Q
}.

Section Portfolio.

(** [cryptoAPI.getCurrentRates()] of src/lib/api.ts, which is not among the
    sources: the table of rates is a parameter; an asset may have no
    entry. *)
Variable getCurrentRates : Asset -> option Rate.

(** [rate?.price || 0] and [rate?.change24h || 0] *)
Definition priceOf (a : Asset) : Q :=
  match getCurrentRates a with
  | Some rate => rate_price rate
  | None => 0
  end.

Definition changeOf (a : Asset) : Q :=
  match getCurrentRates a with
  | Some rate => rate_change24h rate
  | None => 0
  end.

Definition getUserWalletBalances (userId : UserId) : M (list WalletBalance) :=
  try_catch
    (ws <- db.getUserWallets userId ;;
     ret (map (fun wallet =>
                 let usdValue := w_balance wallet * priceOf (w_asset wallet) in
                 mkWalletBalance (w_asset wallet) (w_balance wallet) usdValue
                   (changeOf (w_asset wallet)))
            ws))
    (fun _ => ret []).

(** [balances.reduce((total, wallet) => total + wallet.usdValue, 0)] *)
Definition getTotalPortfolioValue (userId : UserId) : M Q :=
  balances <- getUserWalletBalances userId ;;
  ret (fold_left (fun total wallet => total + wb_usdValue wallet) balances 0).

End Portfolio.

(** ** InvestmentService: plans and statistics *)

Definition getAvailablePlans : M (list Plan) :=
  try_catch db.getActivePlans (fun _ => ret []).

(** [plans.find(p => p.id === planId) || null] *)
Definition getInvestmentPlan (planId : RowId) : M (option Plan) :=
  try_catch
    (ps <- db.getActivePlans ;;
     ret (find (fun p => p_id p =? planId)%nat ps))
    (fun _ => ret None).

(** [planData] with [is_active: true]. *)
Definition createPlan (duration_days : Z) (apy min_amount : Q)
    (max_amount : option Q) : M (option Plan) :=
  try_catch
    (db.createPlan (mkPlanInsert duration_days apy min_amount max_amount true))
    (fun _ => ret None).

(** The result of [getInvestmentStats]. *)
Record InvestmentStats : Type := mkInvestmentStats {
  totalActiveInvestments : nat;
  totalInvestedAmount : Q;
  totalEarningsPaid : Q;
  averageAPY : Q
}.

(** [(sub as any).plans?.apy || 0] *)
Definition apyOf (row : Subscription * option Plan) : Q :=
  match snd row with
  | Some plan => p_apy plan
  | None => 0
  end.

(** The query is that of [processEarnings]; its error is not looked at, and
    leaves [stats] null, for which every [?.] and [||] gives 0. *)
Definition getInvestmentStats : M InvestmentStats :=
  try_catch
    (stats <- db.selectActiveSubscriptions ;;
     match stats with
     | None => ret (mkInvestmentStats 0 0 0 0)
     | Some rows =>
         let n := length rows in
         ret (mkInvestmentStats n
                (fold_left (fun sum row => sum + s_amount (fst row)) rows 0)
                (fold_left (fun sum row => sum + s_total_earned (fst row))
                   rows 0)
                (match n with
                 | O => 0
                 | S _ =>
                     fold_left (fun sum row => sum + apyOf row) rows 0
                     / inject_Z (Z.of_nat n)
                 end))
     end)
    (fun _ => ret (mkInvestmentStats 0 0 0 0)).

(** ** AdminService (services/adminService.ts) *)

(** [if (error) throw error] is caught by the method itself, which then
    returns the empty array. *)
Definition getPendingTransactions : M (list Transaction) :=
  try_catch
    (r <- db.selectPendingTransactions ;;
     match r with
     | None => ret []
     | Some ts => ret ts
     end)
    (fun _ => ret []).

Definition approveTransaction (transactionId : RowId) (adminId : UserId)
  : M bool :=
  try_catch
    (transaction <- db.selectTransaction transactionId ;;
     match transaction with
     | None => ret false
     | Some t =>
         match t_type t with
         | WITHDRAW => approveWithdrawal transactionId adminId
         | _ =>
             db.updateTransactionStatus transactionId COMPLETED ;;;
             ret true
         end
     end)
    (fun _ => ret false).

Definition rejectTransaction (transactionId : RowId) (adminId : UserId)
  : M bool :=
  try_catch
    (transaction <- db.selectTransaction transactionId ;;
     match transaction with
     | None => ret false
     | Some t =>
         match t_type t with
         | WITHDRAW => rejectWithdrawal transactionId adminId
         | _ =>
             db.updateTransactionStatus transactionId REJECTED ;;;
             ret true
         end
     end)
    (fun _ => ret false).

Inductive AdjustType : Type := ADD | SUBTRACT.

(** [Math.max(0, x)] *)
Definition max0 (x : Q) : Q := if Qltb x 0 then 0 else x.

Definition adjustUserWallet (userId : UserId) (asset : Asset) (amount : Q)
    (type : AdjustType) (adminId : UserId) : M bool :=
  try_catch
    (ws <- db.getUserWallets userId ;;
     match findAsset asset ws with
     | None => ret false
     | Some wallet =>
         let newBalance :=
           match type with
           | ADD => w_balance wallet + amount
           | SUBTRACT => max0 (w_balance wallet - amount)
           end in
         db.updateWalletBalance (w_id wallet) newBalance ;;;
         db.createTransaction
           (mkTransactionInsert userId
              (match type with ADD => DEPOSIT | SUBTRACT => WITHDRAW end)
              asset amount COMPLETED None None None) ;;;
         ret true
     end)
    (fun _ => ret false).

(** ** The arithmetic of the source on its own numbers

    A JavaScript [number] is a binary64 float, and so is [float]: the
    operations below round as the source does. *)

Module Binary64.

(** Lines 185-192 of [cancelInvestment] on binary64 numbers: the pair of
    [refundAmount] and [penalty]; [0.05] is the nearest binary64 number,
    as it is for the source. *)
#[warnings="-inexact-float"]
Definition refundAndPenalty (amount : float) (days : Z) : float * float :=
  if (days <? 30)%Z
  then let penalty := (amount * 0.05)%float in
       ((amount - penalty)%float, penalty)
  else (amount, 0%float).

End Binary64.

(** * Observations and specifications *)

(** ** Observations on a world *)

(** The wallet that [wallets.find] picks among [getUserWallets(userId)]. *)
Definition walletOf (userId : UserId) (a : Asset) (w : World) : option Wallet :=
  findAsset a (filter (fun x => w_user x =? userId)%nat (wallets w)).

(** Its balance; [0] when the user holds no wallet of that asset. *)
Definition balanceOf (userId : UserId) (a : Asset) (w : World) : Q :=
  match walletOf userId a w with
  | Some x => w_balance x
  | None => 0
  end.

(** The status of a transaction, as [getTransactionById] would read it. *)
Definition statusOf (transactionId : RowId) (w : World) : option TxStatus :=
  option_map t_status
    (find (fun t => t_id t =? transactionId)%nat (transactions w)).

(** The row of a subscription. *)
Definition subscriptionOf (subscriptionId : RowId) (w : World)
  : option Subscription :=
  find (fun s => s_id s =? subscriptionId)%nat (subscriptions w).

(** Row ids are primary keys. *)
Definition uniqueWalletIds (w : World) : Prop := NoDup (map w_id (wallets w)).

(** A world whose store answers every query. *)
Definition quiet (w : World) : Prop := faults w = [].

(** An [M]-computation that never throws. *)
Definition returns {A} (m : M A) : Prop :=
  forall w, exists a w', m w = (Ok a, w').

(** ** The ledger as a state machine *)

Inductive Op : Type :=
| Submit (userId : UserId) (request : TransactionRequest)
| Invest (userId : UserId) (request : InvestmentRequest) (now : Z)
| Approve (transactionId : RowId) (adminId : UserId)
| Reject (transactionId : RowId) (adminId : UserId)
| Sweep (now : Z)
| Cancel (userId : UserId) (subscriptionId : RowId) (now : Z).

(** The world an operation leaves, whether it returned or threw. *)
Definition perform (convertCrypto : Q -> Asset -> Asset -> Q) (op : Op)
    (w : World) : World :=
  match op with
  | Submit u request => snd (createTransaction convertCrypto u request w)
  | Invest u request now => snd (createInvestment convertCrypto u request now w)
  | Approve t admin => snd (approveWithdrawal t admin w)
  | Reject t admin => snd (rejectWithdrawal t admin w)
  | Sweep now => snd (processEarnings now w)
  | Cancel u s now => snd (cancelInvestment u s now w)
  end.

(** The worlds observed after each operation of a sequence. *)
Fixpoint observed (convertCrypto : Q -> Asset -> Asset -> Q) (ops : list Op)
    (w : World) : list World :=
  match ops with
  | [] => []
  | op :: rest =>
      perform convertCrypto op w
      :: observed convertCrypto rest (perform convertCrypto op w)
  end.

Definition nonNegativeBalances (w : World) : Prop :=
  Forall (fun x => 0 <= w_balance x) (wallets w).

(** Principals and yearly rates are not negative. *)
Definition soundTerms (w : World) : Prop :=
  Forall (fun s => 0 <= s_amount s) (subscriptions w) /\
  Forall (fun p => 0 <= p_apy p) (plans w).

Definition Inv (w : World) : Prop := nonNegativeBalances w /\ soundTerms w.

(** The one request the services do not check the sign of. *)
Definition depositNotNegative (op : Op) : Prop :=
  match op with
  | Submit _ request => r_type request = DEPOSIT -> 0 <= r_amount request
  | _ => True
  end.

(** [M]-computations that keep an invariant and whose results, when they
    return, satisfy [post]. *)
Definition keeps {A} (I : World -> Prop) (m : M A) (post : A -> Prop) : Prop :=
  forall w, I w ->
    I (snd (m w)) /\ forall a, fst (m w) = Ok a -> post a.

Definition anything {A} (_ : A) : Prop := True.

(** A row of a query on subscriptions: its principal and the rate of its
    plan are not negative. *)
Definition soundRow (row : Subscription * option Plan) : Prop :=
  0 <= s_amount (fst row) /\
  forall p, snd row = Some p -> 0 <= p_apy p.

(** ** What a sweep owes *)

(** The rows [processEarnings] iterates over. *)
Definition activeRows (w : World) : list (Subscription * option Plan) :=
  map (db.joinPlan (plans w))
    (filter (fun s => SubStatus_eqb (s_status s) ACTIVE) (subscriptions w)).

(** [dailyEarnings] of a row; a row without plan is skipped. *)
Definition dailyEarningsOf (row : Subscription * option Plan) : Q :=
  match snd row with
  | Some plan => s_amount (fst row) * (p_apy plan / 365 / 100)
  | None => 0
  end.

(** The daily earnings of the rows that belong to one user. *)
Fixpoint owed (userId : UserId) (rows : list (Subscription * option Plan))
  : Q :=
  match rows with
  | [] => 0
  | row :: rest =>
      (if (s_user (fst row) =? userId)%nat then dailyEarningsOf row else 0)
      + owed userId rest
  end.

(** No ACTIVE subscription has reached its end date. *)
Definition noneMatured (now : Z) (w : World) : Prop :=
  forall s, In s (subscriptions w) ->
            SubStatus_eqb (s_status s) ACTIVE = true ->
            (now < s_end_date s)%Z.

(** A subscription without its running total. *)
Definition forgetEarned (s : Subscription) : Subscription :=
  mkSubscription (s_id s) (s_user s) (s_plan_id s) (s_amount s)
    (s_start_date s) (s_end_date s) (s_status s) 0.

(** ** Sample data

    A conversion at par, and small worlds on which the operations are run:
    user 7 holds 100 USDT and 2 BTC, user 8 holds 3 USDT, user 9 holds BTC
    only. *)

Definition atPar (amount : Q) (_ _ : Asset) : Q := amount.

Definition day : Z := msPerDay.

Definition sampleWallets : list Wallet :=
  [ mkWallet 1 7 USDT 100; mkWallet 2 7 BTC 2; mkWallet 3 8 USDT 3;
    mkWallet 4 9 BTC 1 ].

(** A plan of 30 days at 5.5% a year for 100 to 1000, and one of 40 days at
    12.5% a year. *)
Definition starterPlan : Plan := mkPlan 1 30 5.5 100 (Some 1000) true.

Definition vipPlan : Plan := mkPlan 1 40 12.5 100 (Some 100000) true.

Definition ledger0 : World := mkWorld sampleWallets [] [] [] 10 [].

Definition ledgerWithPlan : World :=
  mkWorld sampleWallets [] [] [starterPlan] 10 [].

Definition withdraw50 : TransactionRequest :=
  mkTransactionRequest WITHDRAW USDT 50 None None None.

Definition exchange10 : TransactionRequest :=
  mkTransactionRequest EXCHANGE USDT 10 (Some USDT) (Some BTC) None.

Definition exchange5 : TransactionRequest :=
  mkTransactionRequest EXCHANGE USDT 5 (Some USDT) (Some BTC) None.

Definition depositMinus150 : TransactionRequest :=
  mkTransactionRequest DEPOSIT USDT (-150) None None None.

Definition invest500 : InvestmentRequest := mkInvestmentRequest 1 500 USDT.

(** [ledger0] after user 7 submitted [withdraw50]: transaction 10 is
    PENDING. *)
Definition ledger1 : World :=
  mkWorld sampleWallets
    [mkTransaction 10 7 WITHDRAW USDT 50 PENDING None None None] [] [] 11 [].

(** [ledger0] with a store whose third round trip errors: in
    [processExchange] that is the update of the destination wallet. *)
Definition ledgerCreditFails : World :=
  mkWorld sampleWallets [] [] [] 10 [false; false; true].

(** The same error met by a submitted EXCHANGE, whose fifth round trip is
    the update of the destination wallet. *)
Definition ledgerCreditFailsOnSubmit : World :=
  mkWorld sampleWallets [] [] [] 10 [false; false; false; false; true].

(** A day of the ledger. *)
Definition sampleDay : list Op :=
  [ Submit 7 withdraw50; Submit 7 exchange10; Approve 10 1;
    Invest 7 invest500 0; Sweep 0; Reject 10 1 ].

(** User 7 holds 1000 USDT, and nothing else is in the ledger but the
    starter plan. *)
Definition investor : World :=
  mkWorld [mkWallet 1 7 USDT 1000] [] [] [starterPlan] 10 [].

(** User 7 holds 100 USDT and a subscription of 1000 that started at 0 and
    ends after 40 days, in the plan at 12.5% a year. *)
Definition accruing : World :=
  mkWorld sampleWallets []
    [mkSubscription 1 7 1 1000 0 (40 * day) ACTIVE 0] [vipPlan] 10 [].

(** User 7 holds 100 USDT and a subscription of 1000 for 30 days at 5.5% a
    year. *)
Definition maturing : World :=
  mkWorld sampleWallets []
    [mkSubscription 1 7 1 1000 0 (30 * day) ACTIVE 0] [starterPlan] 10 [].

Definition raiseRate : PlanUpdate :=
  mkPlanUpdate (Some 25) None None None None.

(** User 9 holds BTC only and an ACTIVE subscription of 1000. *)
Definition stranded : World :=
  mkWorld sampleWallets []
    [mkSubscription 1 9 1 1000 0 (40 * day) ACTIVE 0] [vipPlan] 10 [].

(** [accruing] with a store whose second round trip errors: in
    [cancelInvestment] that is the update of the subscription. *)
Definition accruingStatusFails : World :=
  mkWorld sampleWallets []
    [mkSubscription 1 7 1 1000 0 (40 * day) ACTIVE 0] [vipPlan] 10
    [false; true].

(** ** Further observations *)

(** Two worlds with the same rows in every table; the schedule of errors
    may differ. *)
Definition sameTables (w w' : World) : Prop :=
  wallets w' = wallets w /\
  transactions w' = transactions w /\
  subscriptions w' = subscriptions w /\
  plans w' = plans w /\
  next_id w' = next_id w.

(** Row ids are primary keys in the other tables too. *)
Definition uniqueSubscriptionIds (w : World) : Prop :=
  NoDup (map s_id (subscriptions w)).

(** No row of the table has the id the store will give out next. *)
Definition freshTransactionId (w : World) : Prop :=
  find (fun t => t_id t =? next_id w)%nat (transactions w) = None.

Definition freshPlanId (w : World) : Prop :=
  forall p, In p (plans w) -> p_id p <> next_id w.

(** The value of the wallets of a user at the prices of a table of rates. *)
Definition valueOf (getCurrentRates : Asset -> option Rate)
    (ws : list Wallet) : Q :=
  fold_right
    (fun x total => w_balance x * priceOf getCurrentRates (w_asset x) + total)
    0 ws.

(** Rates for the samples: 40000 for BTC, 1 for USDT, none for the others. *)
Definition sampleRates (a : Asset) : option Rate :=
  match a with
  | BTC => Some (mkRate 40000 2)
  | USDT => Some (mkRate 1 0)
  | _ => None
  end.

(** The wallets, subscriptions and plans of a world are those given. *)
Definition fundsAre (ws : list Wallet) (ss : list Subscription)
    (ps : list Plan) (w : World) : Prop :=
  wallets w = ws /\ subscriptions w = ss /\ plans w = ps.

(** The filter of [getPendingTransactions]. *)
Definition isPending (t : Transaction) : bool :=
  match t_status t with
  | PENDING => true
  | _ => false
  end.

(** A list of plans in order of minimum amount: each plan asks for no more
    than those after it. *)
Fixpoint cheapestFirst (ps : list Plan) : Prop :=
  match ps with
  | [] => True
  | p :: rest =>
      Forall (fun q => p_min_amount p <= p_min_amount q) rest /\
      cheapestFirst rest
  end.

(** The update that takes a plan off the offer. *)
Definition deactivate : PlanUpdate := mkPlanUpdate None None None None (Some false).

(** [is the subscription ACTIVE?], the filter of the sweep. *)
Definition isActive (s : Subscription) : bool :=
  SubStatus_eqb (s_status s) ACTIVE.

(** A subscription after the sweep has visited it: with a plan, its running
    total has grown by its daily earnings. *)
Definition visited (ps : list Plan) (s : Subscription) : Subscription :=
  match snd (db.joinPlan ps s) with
  | Some plan =>
      applySubscriptionUpdate
        (mkSubscriptionUpdate None
           (Some (s_total_earned s + dailyEarningsOf (s, Some plan)))) s
  | None => s
  end.

(** A row of the table after one sweep: the ACTIVE ones have been
    visited. *)
Definition credited (ps : list Plan) (s : Subscription) : Subscription :=
  if isActive s then visited ps s else s.

(** What the sweep writes for one row. *)
Definition writeTotal (row : Subscription * option Plan)
    (ss : list Subscription) : list Subscription :=
  match snd row with
  | Some plan =>
      updateWhere (fun y => s_id y =? s_id (fst row))%nat
        (applySubscriptionUpdate
           (mkSubscriptionUpdate None
              (Some (s_total_earned (fst row) + dailyEarningsOf row)))) ss
  | None => ss
  end.

(** The table while the sweep is under way: the rows in [done] have been
    visited. *)
Definition partly (ps : list Plan) (done : list Subscription)
    (s : Subscription) : Subscription :=
  if existsb (fun r => s_id r =? s_id s)%nat done then visited ps s else s.

(** The daily earnings of all the rows together. *)
Definition dueTo (rows : list (Subscription * option Plan)) : Q :=
  fold_right (fun row total => dailyEarningsOf row + total) 0 rows.

(** User 7 holds two subscriptions in the plan at 12.5% a year, one ACTIVE
    and one CANCELLED. *)
Definition twoSubscriptions : World :=
  mkWorld sampleWallets []
    [mkSubscription 1 7 1 1000 0 (40 * day) ACTIVE 0;
     mkSubscription 2 7 1 500 0 (40 * day) CANCELLED 3] [vipPlan] 10 [].

(** An EXCHANGE of 1 USDT for BTC whose [asset] field names BTC. *)
Definition exchangeUsdtAsBtc : TransactionRequest :=
  mkTransactionRequest EXCHANGE BTC 1 (Some USDT) (Some BTC) None.

(** A principal of 12.4, as the binary64 number the source holds. *)
#[warnings="-inexact-float"]
Definition principal_12_4 : float := 12.4%float.

(** * Properties *)

(** ** Comparisons *)

Lemma Qltb_true (x y : Q) : Qltb x y = true <-> x < y.
Proof.
  unfold Qltb. rewrite negb_true_iff.
  split; intro H.
  - apply Qnot_le_lt. intro Hle. apply Qle_bool_iff in Hle. congruence.
  - destruct (Qle_bool y x) eqn:E; [|reflexivity].
    apply Qle_bool_iff in E. exfalso. apply (Qlt_not_le _ _ H E).
Qed.

Lemma Qltb_false (x y : Q) : Qltb x y = false <-> y <= x.
Proof.
  unfold Qltb. rewrite negb_false_iff. apply Qle_bool_iff.
Qed.

Lemma Asset_eqb_eq (a b : Asset) : Asset_eqb a b = true <-> a = b.
Proof. destruct a, b; simpl; split; congruence. Qed.

Lemma minAmounts_pos (a : Asset) : 0 < minAmounts a.
Proof. destruct a; reflexivity. Qed.

Lemma getNetworkFee_pos (a : Asset) : 0 < getNetworkFee a.
Proof. destruct a; reflexivity. Qed.

(** ** Tables: searching a table that an update rewrote *)

Section Tables.

Variable A : Type.
Variable sel : A -> bool.
Variable f : A -> A.

Lemma filter_updateWhere (p : A -> bool) (rows : list A) :
  (forall r, p (f r) = p r) ->
  filter p (updateWhere sel f rows) =
  map (fun r => if sel r then f r else r) (filter p rows).
Proof.
  intros Hp. unfold updateWhere.
  induction rows as [|r rows IH]; simpl; [reflexivity|].
  assert (E : p (if sel r then f r else r) = p r)
    by (destruct (sel r); [apply Hp | reflexivity]).
  rewrite E. destruct (p r); simpl; rewrite IH; reflexivity.
Qed.

Lemma find_updateWhere (p : A -> bool) (rows : list A) :
  (forall r, p (f r) = p r) ->
  find p (updateWhere sel f rows) =
  option_map (fun r => if sel r then f r else r) (find p rows).
Proof.
  intros Hp. unfold updateWhere.
  induction rows as [|r rows IH]; simpl; [reflexivity|].
  assert (E : p (if sel r then f r else r) = p r)
    by (destruct (sel r); [apply Hp | reflexivity]).
  rewrite E. destruct (p r); simpl; [reflexivity | exact IH].
Qed.

Lemma find_map_inv (p : A -> bool) (g : A -> A) (rows : list A) :
  (forall r, p (g r) = p r) ->
  find p (map g rows) = option_map g (find p rows).
Proof.
  intros Hp. induction rows as [|r rows IH]; simpl; [reflexivity|].
  rewrite Hp. destruct (p r); simpl; [reflexivity | exact IH].
Qed.

Lemma updateWhere_In (rows : list A) (r : A) :
  In r (updateWhere sel f rows) ->
  exists r0, In r0 rows /\ (r = r0 \/ r = f r0).
Proof.
  unfold updateWhere. rewrite in_map_iff. intros [r0 [E Hin]].
  exists r0. split; [exact Hin|].
  destruct (sel r0); [right | left]; congruence.
Qed.

End Tables.

Lemma walletOf_In (u : UserId) (a : Asset) (w : World) (x : Wallet) :
  walletOf u a w = Some x ->
  In x (wallets w) /\ w_user x = u /\ w_asset x = a.
Proof.
  unfold walletOf, findAsset. intros H.
  apply find_some in H. destruct H as [Hin Ha].
  apply filter_In in Hin. destruct Hin as [Hin Hu].
  apply Nat.eqb_eq in Hu. apply Asset_eqb_eq in Ha. auto.
Qed.

Lemma walletOf_find_id (u : UserId) (a : Asset) (w : World) (x : Wallet) :
  walletOf u a w = Some x ->
  exists y, find (fun z => w_id z =? w_id x)%nat (wallets w) = Some y.
Proof.
  intros H. apply walletOf_In in H. destruct H as [Hin _].
  destruct (find (fun z => w_id z =? w_id x)%nat (wallets w)) as [y|] eqn:E.
  - exists y. reflexivity.
  - exfalso. apply (find_none _ _ E) in Hin.
    rewrite Nat.eqb_refl in Hin. discriminate.
Qed.

Lemma unique_id_eq (ws : list Wallet) (x y : Wallet) :
  NoDup (map w_id ws) -> In x ws -> In y ws -> w_id x = w_id y -> x = y.
Proof.
  induction ws as [|z ws IH]; simpl; intros Hnd Hx Hy E; [contradiction|].
  inversion Hnd as [|? ? Hnotin Hnd']; subst.
  destruct Hx as [Hx|Hx], Hy as [Hy|Hy]; subst.
  - reflexivity.
  - exfalso. apply Hnotin. rewrite E. apply in_map. exact Hy.
  - exfalso. apply Hnotin. rewrite <- E. apply in_map. exact Hx.
  - apply IH; assumption.
Qed.

(** Rewriting the balance of the rows with one id: what a search by owner
    and asset finds afterwards. *)
Lemma walletOf_setBalance (u : UserId) (a : Asset) (i : RowId) (b : Q)
    (w : World) :
  walletOf u a
    (setWallets (updateWhere (fun y => w_id y =? i)%nat (withBalance b)
                   (wallets w)) w) =
  option_map (fun y => if (w_id y =? i)%nat then withBalance b y else y)
    (walletOf u a w).
Proof.
  unfold walletOf, findAsset. simpl.
  rewrite filter_updateWhere by reflexivity.
  apply find_map_inv. intros r. destruct (w_id r =? i)%nat; reflexivity.
Qed.

Lemma uniqueWalletIds_setBalance (i : RowId) (b : Q) (w : World) :
  uniqueWalletIds w ->
  uniqueWalletIds
    (setWallets (updateWhere (fun y => w_id y =? i)%nat (withBalance b)
                   (wallets w)) w).
Proof.
  unfold uniqueWalletIds, updateWhere. simpl. rewrite map_map.
  intros H. erewrite map_ext; [exact H|].
  intros r. simpl. destruct (w_id r =? i)%nat; reflexivity.
Qed.

(** ** Runs against a store that answers every query *)

Ltac unfold_db :=
  unfold db.getUserWallets, db.updateWalletBalance, db.createTransaction,
    db.updateTransactionStatus, db.selectTransaction, db.updatePlan,
    db.selectActivePlan, db.createSubscription, db.updateSubscription,
    db.selectUserSubscription, db.selectActiveSubscriptions,
    try_catch, bind, roundTrip, gets, modify, ret, throw.

(** Reduce a run, feeding it the facts at hand: the empty schedule, the
    results of searches and of comparisons. *)
Ltac run :=
  unfold_db;
  repeat (simpl;
    match goal with
    | H : quiet ?w |- context [faults ?w] => rewrite H
    | H : ?b = true |- context [?b] => rewrite H
    | H : ?b = false |- context [?b] => rewrite H
    | H : ?l = Some _ |- context [?l] => rewrite H
    | H : ?l = None |- context [?l] => rewrite H
    end).

Lemma balanceOf_setBalance (u : UserId) (a : Asset) (b : Q) (w : World)
    (x : Wallet) :
  walletOf u a w = Some x ->
  balanceOf u a
    (setWallets (updateWhere (fun y => w_id y =? w_id x)%nat (withBalance b)
                   (wallets w)) w) = b.
Proof.
  intros Hx. unfold balanceOf. rewrite walletOf_setBalance, Hx. simpl.
  rewrite Nat.eqb_refl. reflexivity.
Qed.

Lemma statusOf_setStatus (txid : RowId) (st : TxStatus) (w : World)
    (t : Transaction) :
  find (fun t => t_id t =? txid)%nat (transactions w) = Some t ->
  statusOf txid
    (setTransactions
       (updateWhere (fun y => t_id y =? txid)%nat (withStatus st)
          (transactions w)) w) = Some st.
Proof.
  intros Ht. unfold statusOf. simpl.
  rewrite find_updateWhere by reflexivity. rewrite Ht. simpl.
  apply find_some in Ht. destruct Ht as [_ Ht]. rewrite Ht. reflexivity.
Qed.

Lemma find_id_setBalance (i j : RowId) (b : Q) (ws : list Wallet) (y : Wallet) :
  find (fun z => w_id z =? j)%nat ws = Some y ->
  exists y',
    find (fun z => w_id z =? j)%nat
      (updateWhere (fun z => w_id z =? i)%nat (withBalance b) ws) = Some y'.
Proof.
  intros H. rewrite find_updateWhere by reflexivity. rewrite H. simpl. eauto.
Qed.

Lemma find_subscription_updated (i : RowId) (u : SubscriptionUpdate)
    (ss : list Subscription) (s0 : Subscription) :
  find (fun y => s_id y =? i)%nat ss = Some s0 ->
  find (fun y => s_id y =? i)%nat
    (updateWhere (fun y => s_id y =? i)%nat (applySubscriptionUpdate u) ss)
  = Some (applySubscriptionUpdate u s0).
Proof.
  intros H. rewrite find_updateWhere by reflexivity. rewrite H. simpl.
  apply find_some in H. destruct H as [_ H]. rewrite H. reflexivity.
Qed.

Lemma distinct_wallets_distinct_ids (u : UserId) (a b : Asset) (w : World)
    (x y : Wallet) :
  uniqueWalletIds w ->
  walletOf u a w = Some x ->
  walletOf u b w = Some y ->
  a <> b ->
  (w_id y =? w_id x)%nat = false.
Proof.
  intros Hu Hx Hy Hab.
  apply walletOf_In in Hx. apply walletOf_In in Hy.
  destruct Hx as [Hx [_ Hxa]]. destruct Hy as [Hy [_ Hya]].
  apply Nat.eqb_neq. intros E.
  apply Hab. rewrite <- Hxa, <- Hya.
  rewrite (unique_id_eq (wallets w) y x Hu Hy Hx E). reflexivity.
Qed.

(** ** The store never throws *)

Lemma returns_updateWalletBalance (id : RowId) (b : Q) :
  returns (db.updateWalletBalance id b).
Proof.
  intros w. unfold_db.
  destruct (faults w) as [|[|] fs]; simpl;
    try (destruct (find _ _)); simpl; eauto.
Qed.

Lemma returns_updateSubscription (id : RowId) (u : SubscriptionUpdate) :
  returns (db.updateSubscription id u).
Proof.
  intros w. unfold_db.
  destruct (faults w) as [|[|] fs]; simpl;
    try (destruct (find _ _)); simpl; eauto.
Qed.

Lemma returns_getUserWallets (u : UserId) : returns (db.getUserWallets u).
Proof.
  intros w. unfold_db. destruct (faults w) as [|[|] fs]; simpl; eauto.
Qed.

Lemma returns_db_createTransaction (d : TransactionInsert) :
  returns (db.createTransaction d).
Proof.
  intros w. unfold_db. destruct (faults w) as [|[|] fs]; simpl; eauto.
Qed.

(** A store call applied to a world returns: name its result. *)
Ltac store_returns :=
  match goal with
  | |- context [db.updateSubscription ?i ?u ?w] =>
      let E := fresh "E" in
      destruct (returns_updateSubscription i u w) as [? [? E]];
      rewrite E; clear E
  | |- context [db.getUserWallets ?u ?w] =>
      let E := fresh "E" in
      destruct (returns_getUserWallets u w) as [? [? E]];
      rewrite E; clear E
  | |- context [db.updateWalletBalance ?i ?b ?w] =>
      let E := fresh "E" in
      destruct (returns_updateWalletBalance i b w) as [? [? E]];
      rewrite E; clear E
  | |- context [db.createTransaction ?d ?w] =>
      let E := fresh "E" in
      destruct (returns_db_createTransaction d w) as [? [? E]];
      rewrite E; clear E
  end.

(** ** The accrual sweep *)

Lemma updateWhere_forgetEarned (i : RowId) (u : SubscriptionUpdate)
    (ss : list Subscription) :
  su_status u = None ->
  map forgetEarned
    (updateWhere (fun y => s_id y =? i)%nat (applySubscriptionUpdate u) ss)
  = map forgetEarned ss.
Proof.
  intros Hu. unfold updateWhere. rewrite map_map. apply map_ext.
  intros s. destruct (s_id s =? i)%nat; [|reflexivity].
  unfold forgetEarned, applySubscriptionUpdate. simpl. rewrite Hu. reflexivity.
Qed.

(** One turn of the loop for a subscription that has not reached its end:
    the daily earnings are added to the USDT wallet of its owner, and only
    the running total of the subscription changes. *)
Lemma accrue_unmatured (now : Z) (s : Subscription) (p : Plan) (w : World) :
  quiet w ->
  (s_end_date s <=? now)%Z = false ->
  exists w',
    accrue now (s, Some p) w = (Ok tt, w') /\
    quiet w' /\
    plans w' = plans w /\
    map forgetEarned (subscriptions w') = map forgetEarned (subscriptions w) /\
    wallets w' =
    match walletOf (s_user s) USDT w with
    | Some x =>
        updateWhere (fun y => w_id y =? w_id x)%nat
          (withBalance (w_balance x + dailyEarningsOf (s, Some p)))
          (wallets w)
    | None => wallets w
    end.
Proof.
  intros Hq Hend.
  destruct (walletOf (s_user s) USDT w) as [x|] eqn:Hx.
  - destruct (walletOf_find_id _ _ _ _ Hx) as [y Hy].
    unfold walletOf in Hx.
    destruct (find (fun y => s_id y =? s_id s)%nat (subscriptions w))
      as [s0|] eqn:Hs;
      unfold accrue; run; eexists; (split; [reflexivity|]); simpl;
      repeat split; try assumption; try reflexivity.
    apply updateWhere_forgetEarned. reflexivity.
  - unfold walletOf in Hx.
    destruct (find (fun y => s_id y =? s_id s)%nat (subscriptions w))
      as [s0|] eqn:Hs;
      unfold accrue; run; eexists; (split; [reflexivity|]); simpl;
      repeat split; try assumption; try reflexivity.
    apply updateWhere_forgetEarned. reflexivity.
Qed.

Lemma walletOf_same_wallets (u : UserId) (a : Asset) (w w' : World) :
  wallets w' = wallets w -> walletOf u a w' = walletOf u a w.
Proof. unfold walletOf. intros E. rewrite E. reflexivity. Qed.

Lemma other_user_other_id (u v : UserId) (a b : Asset) (w : World)
    (x y : Wallet) :
  uniqueWalletIds w ->
  walletOf u a w = Some x ->
  walletOf v b w = Some y ->
  u <> v ->
  (w_id x =? w_id y)%nat = false.
Proof.
  intros Hu Hx Hy Hne.
  apply walletOf_In in Hx. apply walletOf_In in Hy.
  destruct Hx as [Hx [Hxu _]]. destruct Hy as [Hy [Hyv _]].
  apply Nat.eqb_neq. intros E. apply Hne. rewrite <- Hxu, <- Hyv.
  rewrite (unique_id_eq (wallets w) x y Hu Hx Hy E). reflexivity.
Qed.

(** The same turn, seen from the USDT wallet of any user [u]: it gains the
    daily earnings when the subscription is theirs, and nothing otherwise. *)
Lemma accrue_step (u : UserId) (now : Z) (s : Subscription)
    (p : option Plan) (w : World) (x : Wallet) :
  quiet w ->
  uniqueWalletIds w ->
  walletOf u USDT w = Some x ->
  (s_end_date s <=? now)%Z = false ->
  exists w' x',
    accrue now (s, p) w = (Ok tt, w') /\
    quiet w' /\
    uniqueWalletIds w' /\
    plans w' = plans w /\
    map forgetEarned (subscriptions w') = map forgetEarned (subscriptions w) /\
    walletOf u USDT w' = Some x' /\
    w_balance x' ==
    w_balance x +
    (if (s_user s =? u)%nat then dailyEarningsOf (s, p) else 0).
Proof.
  intros Hq Hu Hx Hend.
  destruct p as [p|].
  2:{ exists w, x. simpl. repeat split; try assumption; try reflexivity.
      unfold dailyEarningsOf. simpl. destruct (s_user s =? u)%nat; lra. }
  destruct (accrue_unmatured now s p w Hq Hend)
    as [w' [Hrun [Hq' [Hplans [Hsubs Hwallets]]]]].
  destruct (walletOf (s_user s) USDT w) as [y|] eqn:Hy.
  - set (b := w_balance y + dailyEarningsOf (s, Some p)) in *.
    assert (Hw' : walletOf u USDT w' =
                  Some (if (w_id x =? w_id y)%nat then withBalance b x else x)).
    { rewrite (walletOf_same_wallets u USDT
                 (setWallets
                    (updateWhere (fun z => w_id z =? w_id y)%nat
                       (withBalance b) (wallets w)) w) w')
        by (rewrite Hwallets; reflexivity).
      rewrite walletOf_setBalance, Hx. reflexivity. }
    eexists w', _. split; [exact Hrun|].
    split; [exact Hq'|]. split.
    { unfold uniqueWalletIds. rewrite Hwallets.
      apply (uniqueWalletIds_setBalance (w_id y) b w Hu). }
    split; [exact Hplans|]. split; [exact Hsubs|].
    split; [exact Hw'|].
    destruct (s_user s =? u)%nat eqn:Eu.
    + apply Nat.eqb_eq in Eu. rewrite Eu in Hy. rewrite Hx in Hy.
      inversion Hy. subst y. rewrite Nat.eqb_refl. simpl.
      unfold b. reflexivity.
    + apply Nat.eqb_neq in Eu.
      rewrite (other_user_other_id u (s_user s) USDT USDT w x y Hu Hx Hy)
        by (intros E; apply Eu; symmetry; exact E).
      lra.
  - exists w', x. split; [exact Hrun|].
    split; [exact Hq'|]. split.
    { unfold uniqueWalletIds. rewrite Hwallets. exact Hu. }
    split; [exact Hplans|]. split; [exact Hsubs|].
    split.
    { rewrite (walletOf_same_wallets u USDT w w' Hwallets). exact Hx. }
    destruct (s_user s =? u)%nat eqn:Eu.
    + apply Nat.eqb_eq in Eu. rewrite Eu in Hy. congruence.
    + lra.
Qed.

(** The whole loop, over rows none of which has reached its end. *)
Lemma sweep_rows (u : UserId) (now : Z)
    (rows : list (Subscription * option Plan)) :
  forall (w : World) (x : Wallet),
    quiet w ->
    uniqueWalletIds w ->
    walletOf u USDT w = Some x ->
    (forall row, In row rows -> (s_end_date (fst row) <=? now)%Z = false) ->
    exists w' x',
      for_of rows (accrue now) w = (Ok tt, w') /\
      quiet w' /\
      uniqueWalletIds w' /\
      plans w' = plans w /\
      map forgetEarned (subscriptions w') = map forgetEarned (subscriptions w) /\
      walletOf u USDT w' = Some x' /\
      w_balance x' == w_balance x + owed u rows.
Proof.
  induction rows as [|[s p] rows IH]; intros w x Hq Hu Hx Hrows.
  - exists w, x. simpl. repeat split; try assumption; try reflexivity. lra.
  - destruct (accrue_step u now s p w x Hq Hu Hx
                (Hrows (s, p) (or_introl eq_refl)))
      as [w1 [x1 [Hrun1 [Hq1 [Hu1 [Hp1 [Hs1 [Hx1 Hb1]]]]]]]].
    destruct (IH w1 x1 Hq1 Hu1 Hx1
                (fun row Hin => Hrows row (or_intror Hin)))
      as [w2 [x2 [Hrun2 [Hq2 [Hu2 [Hp2 [Hs2 [Hx2 Hb2]]]]]]]].
    exists w2, x2. split.
    { cbn [for_of]. unfold bind at 1. rewrite Hrun1. exact Hrun2. }
    split; [exact Hq2|]. split; [exact Hu2|].
    split; [congruence|]. split; [congruence|].
    split; [exact Hx2|].
    simpl. rewrite Hb2, Hb1. lra.
Qed.

Lemma forgetEarned_fields (s s' : Subscription) :
  forgetEarned s = forgetEarned s' ->
  s_user s = s_user s' /\ s_plan_id s = s_plan_id s' /\
  s_amount s = s_amount s' /\ s_status s = s_status s' /\
  s_end_date s = s_end_date s'.
Proof.
  unfold forgetEarned. intros E. inversion E. auto.
Qed.

(** The rows of the next sweep owe what the rows of this one did, as long
    as only running totals changed. *)
Lemma owed_same_terms (u : UserId) (ps : list Plan) :
  forall ss ss' : list Subscription,
    map forgetEarned ss' = map forgetEarned ss ->
    owed u (map (db.joinPlan ps)
              (filter (fun s => SubStatus_eqb (s_status s) ACTIVE) ss')) =
    owed u (map (db.joinPlan ps)
              (filter (fun s => SubStatus_eqb (s_status s) ACTIVE) ss)).
Proof.
  induction ss as [|s ss IH]; intros [|s' ss'] E; simpl in E;
    try discriminate E; [reflexivity|].
  injection E as _ Hu Hp Ha _ _ Hst Ess.
  simpl. rewrite Hst.
  destruct (SubStatus_eqb (s_status s) ACTIVE); [|apply IH; exact Ess].
  cbn [map owed fst]. rewrite (IH ss' Ess).
  unfold dailyEarningsOf, db.joinPlan. cbn [fst snd].
  rewrite Hu, Hp, Ha. reflexivity.
Qed.

Lemma noneMatured_same_terms (now : Z) (w w' : World) :
  map forgetEarned (subscriptions w') = map forgetEarned (subscriptions w) ->
  noneMatured now w -> noneMatured now w'.
Proof.
  intros E H s' Hin Hact.
  assert (Hin' : In (forgetEarned s') (map forgetEarned (subscriptions w)))
    by (rewrite <- E; apply in_map; exact Hin).
  apply in_map_iff in Hin'. destruct Hin' as [s [Es Hs]].
  destruct (forgetEarned_fields s s' Es) as [_ [_ [_ [Hst Hend]]]].
  rewrite <- Hend. apply H; [exact Hs|]. rewrite Hst. exact Hact.
Qed.

Lemma activeRows_unmatured (now : Z) (w : World) :
  noneMatured now w ->
  forall row, In row (activeRows w) ->
              (s_end_date (fst row) <=? now)%Z = false.
Proof.
  intros H row Hin. unfold activeRows in Hin.
  apply in_map_iff in Hin. destruct Hin as [s [E Hin]]. subst row.
  apply filter_In in Hin. destruct Hin as [Hin Hact]. simpl.
  apply Z.leb_gt. apply H; assumption.
Qed.

(** One sweep, seen from the USDT wallet of any user. *)
Lemma sweep_once (u : UserId) (now : Z) (w : World) (x : Wallet) :
  quiet w ->
  uniqueWalletIds w ->
  walletOf u USDT w = Some x ->
  noneMatured now w ->
  exists w' x',
    processEarnings now w = (Ok tt, w') /\
    quiet w' /\
    uniqueWalletIds w' /\
    plans w' = plans w /\
    map forgetEarned (subscriptions w') = map forgetEarned (subscriptions w) /\
    walletOf u USDT w' = Some x' /\
    w_balance x' == w_balance x + owed u (activeRows w).
Proof.
  intros Hq Hu Hx Hm.
  destruct (sweep_rows u now (activeRows w) w x Hq Hu Hx
              (activeRows_unmatured now w Hm))
    as [w' [x' [Hrun H]]].
  exists w', x'. split; [|exact H].
  unfold processEarnings, try_catch, bind at 1.
  unfold db.selectActiveSubscriptions, bind at 1, roundTrip.
  rewrite Hq. simpl. fold (activeRows w). rewrite Hrun. reflexivity.
Qed.

(** ** C1: running the sweep twice *)

(** C1, as stated, fails: the subscription of 1000 at 12.5% a year is paid
    1000 * 12.5 / 365 / 100 by the first sweep and the same again by a
    second sweep at the same instant; nothing records that it was paid. *)
Lemma second_sweep_pays_again :
  let w1 := snd (processEarnings day accruing) in
  let w2 := snd (processEarnings day w1) in
  balanceOf 7 USDT w1 - balanceOf 7 USDT accruing == 1000 * (12.5 / 365 / 100)
  /\
  balanceOf 7 USDT w2 - balanceOf 7 USDT w1 == 1000 * (12.5 / 365 / 100) /\
  ~ balanceOf 7 USDT w2 - balanceOf 7 USDT w1 == 0.
Proof.
  repeat split; try reflexivity.
  vm_compute. discriminate.
Qed.

(** C1, as amended.  With a store that answers every query and wallets with
    unique ids, a sweep run before any ACTIVE subscription has reached its
    end credits the USDT wallet of each user with the daily earnings
    (principal * apy / 365 / 100) of each of their ACTIVE subscriptions, and
    it does so each time it runs: after two sweeps the wallet holds its
    initial balance plus twice that sum. *)
Theorem sweep_twice_pays_twice
    (u : UserId) (now1 now2 : Z) (w : World) (x : Wallet) :
  quiet w ->
  uniqueWalletIds w ->
  walletOf u USDT w = Some x ->
  noneMatured now1 w ->
  noneMatured now2 w ->
  balanceOf u USDT (snd (processEarnings now1 w)) ==
  w_balance x + owed u (activeRows w)
  /\
  balanceOf u USDT (snd (processEarnings now2 (snd (processEarnings now1 w))))
  == w_balance x + owed u (activeRows w) + owed u (activeRows w).
Proof.
  intros Hq Hu Hx Hm1 Hm2.
  destruct (sweep_once u now1 w x Hq Hu Hx Hm1)
    as [w1 [x1 [Hrun1 [Hq1 [Hu1 [Hp1 [Hs1 [Hx1 Hb1]]]]]]]].
  destruct (sweep_once u now2 w1 x1 Hq1 Hu1 Hx1
              (noneMatured_same_terms now2 w w1 Hs1 Hm2))
    as [w2 [x2 [Hrun2 [_ [_ [_ [_ [Hx2 Hb2]]]]]]]].
  rewrite Hrun1. simpl. rewrite Hrun2. simpl.
  unfold balanceOf. rewrite Hx1, Hx2.
  split; [exact Hb1|].
  rewrite Hb2, Hb1.
  unfold activeRows. rewrite Hp1.
  rewrite (owed_same_terms u (plans w) (subscriptions w) (subscriptions w1) Hs1).
  reflexivity.
Qed.

Lemma sweep_twice_pays_twice_witness :
  balanceOf 7 USDT (snd (processEarnings day accruing)) ==
  100 + owed 7 (activeRows accruing)
  /\
  balanceOf 7 USDT
    (snd (processEarnings day (snd (processEarnings day accruing))))
  == 100 + owed 7 (activeRows accruing) + owed 7 (activeRows accruing).
Proof.
  apply (sweep_twice_pays_twice 7 day day accruing (mkWallet 1 7 USDT 100)).
  - reflexivity.
  - unfold uniqueWalletIds. simpl.
    repeat (constructor;
            [simpl; intros H;
             repeat (destruct H as [H|H]; [discriminate H|]); exact H|]).
    constructor.
  - reflexivity.
  - intros s [E|[]] _. subst s. reflexivity.
  - intros s [E|[]] _. subst s. reflexivity.
Defined.

(** ** C2: no negative balance *)

Section Keeps.

Variable I : World -> Prop.

Lemma keeps_ret {A} (a : A) (post : A -> Prop) :
  post a -> keeps I (ret a) post.
Proof.
  intros Ha w Hw. simpl. split; [exact Hw|].
  intros b E. inversion E. subst. exact Ha.
Qed.

Lemma keeps_throw {A} (e : Error) (post : A -> Prop) :
  keeps I (throw e) post.
Proof.
  intros w Hw. simpl. split; [exact Hw|]. intros a E. discriminate E.
Qed.

Lemma keeps_bind {A B} (m : M A) (f : A -> M B) (mid : A -> Prop)
    (post : B -> Prop) :
  keeps I m mid ->
  (forall a, mid a -> keeps I (f a) post) ->
  keeps I (bind m f) post.
Proof.
  intros Hm Hf w Hw. unfold bind.
  destruct (Hm w Hw) as [Hw1 Hmid].
  destruct (m w) as [[a|e] w1]; simpl in *.
  - apply (Hf a (Hmid a eq_refl) w1 Hw1).
  - split; [exact Hw1|]. intros b E. discriminate E.
Qed.

Lemma keeps_try_catch {A} (m : M A) (h : Error -> M A) (post : A -> Prop) :
  keeps I m post ->
  (forall e, keeps I (h e) post) ->
  keeps I (try_catch m h) post.
Proof.
  intros Hm Hh w Hw. unfold try_catch.
  destruct (Hm w Hw) as [Hw1 Hpost].
  destruct (m w) as [[a|e] w1]; simpl in *.
  - split; [exact Hw1|]. intros b E. apply Hpost. exact E.
  - apply (Hh e w1 Hw1).
Qed.

Lemma keeps_for_of {A} (xs : list A) (body : A -> M unit) :
  (forall x, In x xs -> keeps I (body x) anything) ->
  keeps I (for_of xs body) anything.
Proof.
  induction xs as [|x xs IH]; intros Hbody; simpl.
  - apply keeps_ret. exact Logic.I.
  - apply keeps_bind with (mid := anything).
    + apply Hbody. left. reflexivity.
    + intros _ _. apply IH. intros y Hy. apply Hbody. right. exact Hy.
Qed.

End Keeps.

Lemma keeps_roundTrip : keeps Inv roundTrip anything.
Proof.
  intros w Hw. unfold roundTrip.
  destruct (faults w) as [|f fs]; simpl; split; auto;
    intros; exact Logic.I.
Qed.

Lemma keeps_gets {A} (f : World -> A) (post : A -> Prop) :
  (forall w, Inv w -> post (f w)) -> keeps Inv (gets f) post.
Proof.
  intros H w Hw. simpl. split; [exact Hw|].
  intros a E. inversion E. subst. apply H, Hw.
Qed.

(** A store call: one round trip, then either nothing or [m]. *)
Lemma keeps_call {A} (dflt : A) (m : M A) (post : A -> Prop) :
  post dflt ->
  keeps Inv m post ->
  keeps Inv (bind roundTrip (fun err => if err then ret dflt else m)) post.
Proof.
  intros Hd Hm. apply keeps_bind with (mid := anything).
  - apply keeps_roundTrip.
  - intros [|] _; [apply keeps_ret; exact Hd | exact Hm].
Qed.

Lemma Forall_filter {A} (P : A -> Prop) (p : A -> bool) (l : list A) :
  Forall P l -> Forall P (filter p l).
Proof.
  intros H. apply Forall_forall. intros x Hx.
  apply filter_In in Hx. destruct Hx as [Hx _].
  revert x Hx. apply Forall_forall. exact H.
Qed.

Lemma Forall_updateWhere {A} (P : A -> Prop) (sel : A -> bool) (f : A -> A)
    (l : list A) :
  Forall P l -> (forall x, P x -> P (f x)) -> Forall P (updateWhere sel f l).
Proof.
  intros H Hf. apply Forall_forall. intros x Hx.
  apply updateWhere_In in Hx. destruct Hx as [x0 [Hin [E|E]]]; subst.
  - revert x0 Hin. apply Forall_forall. exact H.
  - apply Hf. revert x0 Hin. apply Forall_forall. exact H.
Qed.

Lemma keeps_getUserWallets (u : UserId) :
  keeps Inv (db.getUserWallets u) (Forall (fun x => 0 <= w_balance x)).
Proof.
  unfold db.getUserWallets. apply keeps_call.
  - constructor.
  - apply keeps_gets. intros w [Hw _]. apply Forall_filter. exact Hw.
Qed.

Lemma keeps_updateWalletBalance (id : RowId) (b : Q) :
  0 <= b -> keeps Inv (db.updateWalletBalance id b) anything.
Proof.
  intros Hb. unfold db.updateWalletBalance. apply keeps_call.
  - exact Logic.I.
  - intros w Hw. unfold bind, gets, modify, ret.
    destruct (find _ (wallets w)) as [x|]; simpl.
    + split; [|intros; exact Logic.I].
      destruct Hw as [Hbal Hterms]. split; [|exact Hterms].
      unfold nonNegativeBalances. simpl.
      apply Forall_updateWhere; [exact Hbal|]. intros; exact Hb.
    + split; [exact Hw | intros; exact Logic.I].
Qed.

Lemma keeps_db_createTransaction (d : TransactionInsert) :
  keeps Inv (db.createTransaction d)
    (fun r => forall t, r = Some t ->
                        t_type t = ti_type d /\ t_amount t = ti_amount d).
Proof.
  unfold db.createTransaction. apply keeps_call.
  - intros t E. discriminate E.
  - intros w Hw. unfold bind, gets, modify, ret. simpl.
    split; [exact Hw|].
    intros a E t Et. rewrite Et in E. inversion E.
    simpl. split; reflexivity.
Qed.

Lemma keeps_updateTransactionStatus (id : RowId) (st : TxStatus) :
  keeps Inv (db.updateTransactionStatus id st) anything.
Proof.
  unfold db.updateTransactionStatus. apply keeps_call.
  - exact Logic.I.
  - intros w Hw. unfold bind, gets, modify, ret.
    destruct (find _ (transactions w)) as [x|]; simpl;
      (split; [exact Hw | intros; exact Logic.I]).
Qed.

Lemma keeps_selectTransaction (id : RowId) :
  keeps Inv (db.selectTransaction id) anything.
Proof.
  unfold db.selectTransaction. apply keeps_call.
  - exact Logic.I.
  - apply keeps_gets. intros; exact Logic.I.
Qed.

Lemma keeps_selectActivePlan (id : RowId) :
  keeps Inv (db.selectActivePlan id) anything.
Proof.
  unfold db.selectActivePlan. apply keeps_call.
  - exact Logic.I.
  - apply keeps_gets. intros; exact Logic.I.
Qed.

Lemma keeps_createSubscription (d : SubscriptionInsert) :
  0 <= si_amount d ->
  keeps Inv (db.createSubscription d) anything.
Proof.
  intros Hd. unfold db.createSubscription. apply keeps_call.
  - exact Logic.I.
  - intros w Hw. unfold bind, gets, modify, ret. simpl.
    split; [|intros; exact Logic.I].
    destruct Hw as [Hbal [Hsub Hplan]].
    split; [exact Hbal|]. split; [|exact Hplan]. simpl.
    apply Forall_app. split; [exact Hsub|].
    constructor; [exact Hd | constructor].
Qed.

Lemma keeps_updateSubscription (id : RowId) (u : SubscriptionUpdate) :
  keeps Inv (db.updateSubscription id u) anything.
Proof.
  unfold db.updateSubscription. apply keeps_call.
  - exact Logic.I.
  - intros w Hw. unfold bind, gets, modify, ret.
    destruct (find _ (subscriptions w)) as [x|]; simpl.
    + split; [|intros; exact Logic.I].
      destruct Hw as [Hbal [Hsub Hplan]].
      split; [exact Hbal|]. split; [|exact Hplan]. simpl.
      apply Forall_updateWhere; [exact Hsub|]. intros s Hs. exact Hs.
    + split; [exact Hw | intros; exact Logic.I].
Qed.

Lemma soundRow_joinPlan (ps : list Plan) (s : Subscription) :
  Forall (fun p => 0 <= p_apy p) ps ->
  0 <= s_amount s ->
  soundRow (db.joinPlan ps s).
Proof.
  intros Hps Hs. split; [exact Hs|]. simpl. intros p Hp.
  apply find_some in Hp. destruct Hp as [Hin _].
  revert p Hin. apply Forall_forall. exact Hps.
Qed.

Lemma keeps_selectUserSubscription (sid : RowId) (u : UserId) :
  keeps Inv (db.selectUserSubscription sid u)
    (fun r => forall row, r = Some row -> soundRow row).
Proof.
  unfold db.selectUserSubscription. apply keeps_call.
  - intros row E. discriminate E.
  - apply keeps_gets. intros w [_ [Hsub Hplan]] row E.
    destruct (find _ (subscriptions w)) as [s|] eqn:Es; simpl in E;
      [|discriminate E].
    inversion E. subst row. apply soundRow_joinPlan; [exact Hplan|].
    apply find_some in Es. destruct Es as [Hin _].
    clear E. revert s Hin. apply Forall_forall. exact Hsub.
Qed.

Lemma keeps_selectActiveSubscriptions :
  keeps Inv db.selectActiveSubscriptions
    (fun r => forall rows, r = Some rows -> Forall soundRow rows).
Proof.
  unfold db.selectActiveSubscriptions. apply keeps_call.
  - intros rows E. discriminate E.
  - apply keeps_gets. intros w [_ [Hsub Hplan]] rows E.
    inversion E. subst rows. apply Forall_forall. intros row Hrow.
    apply in_map_iff in Hrow. destruct Hrow as [s [Erow Hin]]. subst row.
    apply filter_In in Hin. destruct Hin as [Hin _].
    apply soundRow_joinPlan; [exact Hplan|].
    revert s Hin. apply Forall_forall. exact Hsub.
Qed.

Lemma findAsset_Forall (P : Wallet -> Prop) (a : Asset) (ws : list Wallet)
    (x : Wallet) :
  Forall P ws -> findAsset a ws = Some x -> P x.
Proof.
  intros H E. apply find_some in E. destruct E as [Hin _].
  revert x Hin. apply Forall_forall. exact H.
Qed.

Lemma dailyEarnings_nonneg (amount apy : Q) :
  0 <= amount -> 0 <= apy -> 0 <= amount * (apy / 365 / 100).
Proof.
  intros Ha Hr. apply Qmult_le_0_compat; [exact Ha|].
  unfold Qdiv. repeat apply Qmult_le_0_compat; try exact Hr;
    vm_compute; discriminate.
Qed.

Lemma refund_nonneg (amount : Q) (days : Z) :
  0 <= amount -> 0 <= fst (refundAndPenalty amount days).
Proof.
  intros Ha. unfold refundAndPenalty.
  destruct (days <? 30)%Z; simpl; lra.
Qed.

Lemma keeps_processDeposit (u : UserId) (a : Asset) (amount : Q) :
  0 <= amount -> keeps Inv (processDeposit u a amount) anything.
Proof.
  intros Ha. unfold processDeposit.
  apply keeps_try_catch; [|intros; apply keeps_ret; exact Logic.I].
  eapply keeps_bind; [apply keeps_getUserWallets|]. intros ws Hws.
  destruct (findAsset a ws) as [x|] eqn:E; [|apply keeps_throw].
  assert (Hx := findAsset_Forall _ _ _ _ Hws E). simpl in Hx.
  eapply keeps_bind; [apply keeps_updateWalletBalance; lra|].
  intros [y|] _; [apply keeps_ret; exact Logic.I | apply keeps_throw].
Qed.

Lemma keeps_processWithdrawal (u : UserId) (a : Asset) (amount : Q) :
  keeps Inv (processWithdrawal u a amount) anything.
Proof.
  unfold processWithdrawal.
  apply keeps_try_catch; [|intros; apply keeps_ret; exact Logic.I].
  eapply keeps_bind; [apply keeps_getUserWallets|]. intros ws Hws.
  destruct (findAsset a ws) as [x|] eqn:E; [|apply keeps_throw].
  destruct (Qltb (w_balance x) amount); [apply keeps_throw|].
  destruct (Qltb (w_balance x) (amount + getNetworkFee a)) eqn:E2;
    [apply keeps_throw|].
  apply Qltb_false in E2.
  eapply keeps_bind; [apply keeps_updateWalletBalance; lra|].
  intros [y|] _; [apply keeps_ret; exact Logic.I | apply keeps_throw].
Qed.

Section KeepsWithRates.

Variable convertCrypto : Q -> Asset -> Asset -> Q.
Hypothesis rates_nonneg : forall a b, 0 <= convertCrypto 1 a b.

Lemma keeps_processExchange (u : UserId) (a b : Asset) (amount : Q) :
  0 <= amount -> keeps Inv (processExchange convertCrypto u a b amount) anything.
Proof.
  intros Ha. unfold processExchange.
  apply keeps_try_catch; [|intros; apply keeps_ret; exact Logic.I].
  eapply keeps_bind; [apply keeps_getUserWallets|]. intros ws Hws.
  destruct (findAsset a ws) as [xf|] eqn:Ef; [|apply keeps_throw].
  destruct (findAsset b ws) as [xt|] eqn:Et; [|apply keeps_throw].
  destruct (Qltb (w_balance xf) amount) eqn:E; [apply keeps_throw|].
  apply Qltb_false in E.
  assert (Hf := findAsset_Forall _ _ _ _ Hws Ef).
  assert (Ht := findAsset_Forall _ _ _ _ Hws Et). simpl in Hf, Ht.
  assert (Hp : 0 <= amount * convertCrypto 1 a b)
    by (apply Qmult_le_0_compat; [exact Ha | apply rates_nonneg]).
  eapply keeps_bind; [apply keeps_updateWalletBalance; lra|]. intros _ _.
  eapply keeps_bind; [apply keeps_updateWalletBalance|].
  - set (p := amount * convertCrypto 1 a b) in *. lra.
  - intros _ _. apply keeps_ret. exact Logic.I.
Qed.

Lemma keeps_validateTransaction (u : UserId) (request : TransactionRequest) :
  keeps Inv (validateTransaction u request)
    (fun v => v = Valid -> r_type request = EXCHANGE ->
              minAmounts (r_asset request) <= r_amount request).
Proof.
  unfold validateTransaction.
  apply keeps_try_catch;
    [|intros; apply keeps_ret; intros E; discriminate E].
  eapply keeps_bind; [apply keeps_getUserWallets|]. intros ws Hws.
  destruct (r_type request).
  - apply keeps_ret. intros _ E. discriminate E.
  - destruct (findAsset _ ws) as [x|];
      [|apply keeps_ret; intros E; discriminate E].
    destruct (Qltb (w_balance x) _);
      [apply keeps_ret; intros E; discriminate E|].
    destruct (Qltb (r_amount request) _);
      apply keeps_ret; intros E; try discriminate E.
    intros E'. discriminate E'.
  - destruct (findAsset _ ws) as [x|];
      [|apply keeps_ret; intros E; discriminate E].
    destruct (Qltb (w_balance x) _);
      [apply keeps_ret; intros E; discriminate E|].
    destruct (Qltb (r_amount request) _) eqn:E2;
      apply keeps_ret; intros E; try discriminate E.
    intros _. apply Qltb_false. exact E2.
  - destruct (findAsset _ ws) as [x|]; [destruct (Qltb _ _)|];
      apply keeps_ret; intros E E'; discriminate E'.
Qed.

Lemma keeps_settle (t : Transaction) (success : bool) :
  keeps Inv (settle t success) anything.
Proof.
  unfold settle. destruct success;
    (eapply keeps_bind; [apply keeps_updateTransactionStatus|];
     intros; apply keeps_ret; exact Logic.I).
Qed.

Lemma keeps_processTransaction (t : Transaction) :
  (t_type t = DEPOSIT \/ t_type t = EXCHANGE -> 0 <= t_amount t) ->
  keeps Inv (processTransaction convertCrypto t) anything.
Proof.
  intros Hamt. unfold processTransaction.
  apply keeps_try_catch.
  - destruct (t_type t).
    + eapply keeps_bind; [apply keeps_processDeposit; auto|].
      intros; apply keeps_settle.
    + apply keeps_ret. exact Logic.I.
    + destruct (t_from_asset t) as [f|]; [|apply keeps_settle].
      destruct (t_to_asset t) as [g|]; [|apply keeps_settle].
      eapply keeps_bind; [apply keeps_processExchange; auto|].
      intros; apply keeps_settle.
    + apply keeps_settle.
  - intros _. eapply keeps_bind; [apply keeps_updateTransactionStatus|].
    intros; apply keeps_ret; exact Logic.I.
Qed.

Lemma keeps_createTransaction (u : UserId) (request : TransactionRequest) :
  (r_type request = DEPOSIT -> 0 <= r_amount request) ->
  keeps Inv (createTransaction convertCrypto u request) anything.
Proof.
  intros Hdep. unfold createTransaction.
  apply keeps_try_catch; [|intros; apply keeps_throw].
  eapply keeps_bind; [apply keeps_validateTransaction|].
  intros [|e] Hv; [|apply keeps_throw].
  eapply keeps_bind; [apply keeps_db_createTransaction|].
  intros [t|] Ht; [|apply keeps_ret; exact Logic.I].
  destruct (Ht t eq_refl) as [Hty Hamt]. simpl in Hty, Hamt.
  apply keeps_processTransaction. rewrite Hty, Hamt. intros [E|E].
  - apply Hdep. exact E.
  - assert (Hmin := Hv eq_refl E).
    assert (Hpos := minAmounts_pos (r_asset request)). lra.
Qed.

Lemma keeps_createInvestment (u : UserId) (request : InvestmentRequest)
    (now : Z) :
  keeps Inv (createInvestment convertCrypto u request now) anything.
Proof.
  unfold createInvestment.
  apply keeps_try_catch; [|intros; apply keeps_ret; exact Logic.I].
  eapply keeps_bind with (mid := anything).
  - unfold validateInvestment.
    apply keeps_try_catch; [|intros; apply keeps_ret; exact Logic.I].
    eapply keeps_bind; [apply keeps_selectActivePlan|].
    intros [p|] _; [|apply keeps_ret; exact Logic.I].
    destruct (Qltb _ _); [apply keeps_ret; exact Logic.I|].
    destruct (exceedsMax _ _); apply keeps_ret; exact Logic.I.
  - intros [plan|e] _; [|apply keeps_ret; exact Logic.I].
    eapply keeps_bind; [apply keeps_getUserWallets|]. intros ws Hws.
    destruct (findAsset _ ws) as [x|]; [|apply keeps_ret; exact Logic.I].
    destruct (Qltb _ _); [apply keeps_ret; exact Logic.I|].
    eapply keeps_bind.
    + apply keeps_createTransaction. simpl. intros E. discriminate E.
    + intros done _. simpl. apply keeps_ret. exact Logic.I.
Qed.

End KeepsWithRates.

Lemma keeps_approveWithdrawal (txid : RowId) (admin : UserId) :
  keeps Inv (approveWithdrawal txid admin) anything.
Proof.
  unfold approveWithdrawal, getTransactionById.
  apply keeps_try_catch; [|intros; apply keeps_ret; exact Logic.I].
  eapply keeps_bind; [apply keeps_selectTransaction|].
  intros [t|] _; [|apply keeps_ret; exact Logic.I].
  destruct (negb (isPendingWithdraw t)); [apply keeps_ret; exact Logic.I|].
  eapply keeps_bind; [apply keeps_processWithdrawal|].
  intros success _.
  eapply keeps_bind with (mid := anything).
  - destruct success; [|apply keeps_ret; exact Logic.I].
    eapply keeps_bind; [apply keeps_updateTransactionStatus|].
    intros; apply keeps_ret; exact Logic.I.
  - intros; apply keeps_ret; exact Logic.I.
Qed.

Lemma keeps_rejectWithdrawal (txid : RowId) (admin : UserId) :
  keeps Inv (rejectWithdrawal txid admin) anything.
Proof.
  unfold rejectWithdrawal, getTransactionById.
  apply keeps_try_catch; [|intros; apply keeps_ret; exact Logic.I].
  eapply keeps_bind; [apply keeps_selectTransaction|].
  intros [t|] _; [|apply keeps_ret; exact Logic.I].
  destruct (negb (isPendingWithdraw t)); [apply keeps_ret; exact Logic.I|].
  eapply keeps_bind; [apply keeps_updateTransactionStatus|].
  intros; apply keeps_ret; exact Logic.I.
Qed.

Lemma keeps_credit (usdtWallet : option Wallet) (amount : Q) :
  (forall x, usdtWallet = Some x -> 0 <= w_balance x) ->
  0 <= amount ->
  keeps Inv
    (match usdtWallet with
     | Some x =>
         bind (db.updateWalletBalance (w_id x) (w_balance x + amount))
           (fun _ => ret tt)
     | None => ret tt
     end) anything.
Proof.
  intros Hx Ha. destruct usdtWallet as [x|]; [|apply keeps_ret; exact Logic.I].
  assert (Hb := Hx x eq_refl).
  eapply keeps_bind; [apply keeps_updateWalletBalance; lra|].
  intros; apply keeps_ret; exact Logic.I.
Qed.

Lemma keeps_accrue (now : Z) (row : Subscription * option Plan) :
  soundRow row -> keeps Inv (accrue now row) anything.
Proof.
  destruct row as [s [p|]]; intros [Hs Hp]; simpl in *;
    [|apply keeps_ret; exact Logic.I].
  assert (He := dailyEarnings_nonneg _ _ Hs (Hp p eq_refl)).
  eapply keeps_bind; [apply keeps_updateSubscription|]. intros _ _.
  eapply keeps_bind; [apply keeps_getUserWallets|]. intros ws Hws.
  assert (Hx : forall x, findAsset USDT ws = Some x -> 0 <= w_balance x)
    by (intros x E; exact (findAsset_Forall _ _ _ _ Hws E)).
  eapply keeps_bind; [apply keeps_credit; assumption|]. intros _ _.
  eapply keeps_bind; [apply keeps_db_createTransaction|]. intros _ _.
  destruct (s_end_date s <=? now)%Z; [|apply keeps_ret; exact Logic.I].
  eapply keeps_bind; [apply keeps_updateSubscription|]. intros _ _.
  eapply keeps_bind; [apply keeps_credit; assumption|]. intros _ _.
  eapply keeps_bind; [apply keeps_db_createTransaction|]. intros _ _.
  apply keeps_ret. exact Logic.I.
Qed.

Lemma keeps_processEarnings (now : Z) :
  keeps Inv (processEarnings now) anything.
Proof.
  unfold processEarnings.
  apply keeps_try_catch; [|intros; apply keeps_ret; exact Logic.I].
  eapply keeps_bind; [apply keeps_selectActiveSubscriptions|].
  intros [rows|] Hrows; [|apply keeps_ret; exact Logic.I].
  apply keeps_for_of. intros row Hin. apply keeps_accrue.
  revert row Hin. apply Forall_forall. apply Hrows. reflexivity.
Qed.

Lemma keeps_cancelInvestment (u : UserId) (sid : RowId) (now : Z) :
  keeps Inv (cancelInvestment u sid now) anything.
Proof.
  unfold cancelInvestment.
  apply keeps_try_catch; [|intros; apply keeps_ret; exact Logic.I].
  eapply keeps_bind; [apply keeps_selectUserSubscription|].
  intros [[s p]|] Hrow; [|apply keeps_ret; exact Logic.I].
  destruct (Hrow _ eq_refl) as [Hs _]. simpl in Hs.
  destruct (negb _); [apply keeps_ret; exact Logic.I|].
  eapply keeps_bind; [apply keeps_updateSubscription|]. intros _ _.
  eapply keeps_bind; [apply keeps_getUserWallets|]. intros ws Hws.
  assert (Hx : forall x, findAsset USDT ws = Some x -> 0 <= w_balance x)
    by (intros x E; exact (findAsset_Forall _ _ _ _ Hws E)).
  eapply keeps_bind;
    [apply keeps_credit; [assumption | apply refund_nonneg; exact Hs]|].
  intros _ _.
  eapply keeps_bind; [apply keeps_db_createTransaction|]. intros _ _.
  apply keeps_ret. exact Logic.I.
Qed.

Lemma perform_keeps (convertCrypto : Q -> Asset -> Asset -> Q) (op : Op)
    (w : World) :
  (forall a b, 0 <= convertCrypto 1 a b) ->
  depositNotNegative op ->
  Inv w ->
  Inv (perform convertCrypto op w).
Proof.
  intros Hrates Hop Hw.
  destruct op as [u r|u r now|t a|t a|now|u s now]; simpl.
  - apply (keeps_createTransaction convertCrypto Hrates u r Hop w Hw).
  - apply (keeps_createInvestment convertCrypto Hrates u r now w Hw).
  - apply (keeps_approveWithdrawal t a w Hw).
  - apply (keeps_rejectWithdrawal t a w Hw).
  - apply (keeps_processEarnings now w Hw).
  - apply (keeps_cancelInvestment u s now w Hw).
Qed.

(** C2, as stated, fails: a DEPOSIT of -150 USDT is accepted and leaves the
    wallet of user 7, which held 100, at -50. *)
Lemma negative_deposit_overdraws :
  nonNegativeBalances ledger0 /\
  balanceOf 7 USDT (perform atPar (Submit 7 depositMinus150) ledger0) == -50 /\
  ~ Forall nonNegativeBalances
      (observed atPar [Submit 7 depositMinus150] ledger0).
Proof.
  split; [|split].
  - repeat constructor; vm_compute; discriminate.
  - reflexivity.
  - intros H. inversion H as [|w ws Hw _]. subst.
    inversion Hw as [|x xs Hx _]. subst.
    vm_compute in Hx. apply Hx. reflexivity.
Qed.

(** C2, as amended.  From a world whose balances, subscription principals
    and plan rates are not negative, with a conversion that is never
    negative, and for every sequence of submissions, investments, approvals,
    rejections, sweeps and cancellations in which no DEPOSIT has a negative
    amount, every balance is at least 0 after every operation, whichever
    queries of the store error. *)
Theorem no_negative_balance
    (convertCrypto : Q -> Asset -> Asset -> Q) (ops : list Op) (w : World) :
  (forall a b, 0 <= convertCrypto 1 a b) ->
  nonNegativeBalances w ->
  soundTerms w ->
  Forall depositNotNegative ops ->
  Forall nonNegativeBalances (observed convertCrypto ops w).
Proof.
  intros Hrates Hbal Hterms Hops.
  assert (Hw : Inv w) by (split; assumption). clear Hbal Hterms.
  revert w Hw. induction Hops as [|op ops Hop Hops IH]; intros w Hw; simpl.
  - constructor.
  - assert (Hw' := perform_keeps convertCrypto op w Hrates Hop Hw).
    constructor; [exact (proj1 Hw') | apply IH; exact Hw'].
Qed.

Lemma no_negative_balance_witness :
  Forall nonNegativeBalances (observed atPar sampleDay ledgerWithPlan).
Proof.
  apply no_negative_balance.
  - intros a b. vm_compute. discriminate.
  - repeat constructor; vm_compute; discriminate.
  - split; repeat constructor; vm_compute; discriminate.
  - repeat constructor; simpl; intros E; discriminate E.
Defined.

(** ** C3: the two phases of a withdrawal *)

Lemma approveWithdrawal_funded (txid : RowId) (admin : UserId) (w : World)
    (t : Transaction) (x : Wallet) :
  quiet w ->
  find (fun t => t_id t =? txid)%nat (transactions w) = Some t ->
  isPendingWithdraw t = true ->
  walletOf (t_user t) (t_asset t) w = Some x ->
  t_amount t + getNetworkFee (t_asset t) <= w_balance x ->
  approveWithdrawal txid admin w =
  (Ok true,
   setTransactions
     (updateWhere (fun y => t_id y =? txid)%nat (withStatus COMPLETED)
        (transactions w))
     (setWallets
        (updateWhere (fun y => w_id y =? w_id x)%nat
           (withBalance
              (w_balance x - (t_amount t + getNetworkFee (t_asset t))))
           (wallets w))
        w)).
Proof.
  intros Hq Ht Hp Hx Hle.
  assert (Hfee := getNetworkFee_pos (t_asset t)).
  destruct (walletOf_find_id _ _ _ _ Hx) as [y Hy].
  unfold walletOf in Hx.
  assert (H1 : Qltb (w_balance x) (t_amount t) = false)
    by (apply Qltb_false; lra).
  assert (H2 : Qltb (w_balance x) (t_amount t + getNetworkFee (t_asset t))
               = false) by (apply Qltb_false; lra).
  unfold approveWithdrawal, getTransactionById, processWithdrawal.
  run.
  reflexivity.
Qed.

Lemma createTransaction_withdraw (convertCrypto : Q -> Asset -> Asset -> Q)
    (u : UserId) (a : Asset) (amount : Q) (w : World) (x : Wallet) :
  quiet w ->
  walletOf u a w = Some x ->
  minAmounts a <= amount ->
  amount <= w_balance x ->
  createTransaction convertCrypto u
    (mkTransactionRequest WITHDRAW a amount None None None) w =
  (Ok tt,
   setNextId (S (next_id w))
     (setTransactions
        (transactions w ++
         [mkTransaction (next_id w) u WITHDRAW a amount PENDING
            None None None]) w)).
Proof.
  intros Hq Hx Hmin Hle. unfold walletOf in Hx.
  assert (H1 : Qltb (w_balance x) amount = false) by (apply Qltb_false; lra).
  assert (H2 : Qltb amount (minAmounts a) = false)
    by (apply Qltb_false; lra).
  unfold createTransaction, validateTransaction, processTransaction.
  run. reflexivity.
Qed.


Lemma rejectWithdrawal_pending (txid : RowId) (admin : UserId) (w : World)
    (t : Transaction) :
  quiet w ->
  find (fun t => t_id t =? txid)%nat (transactions w) = Some t ->
  isPendingWithdraw t = true ->
  rejectWithdrawal txid admin w =
  (Ok true,
   setTransactions
     (updateWhere (fun y => t_id y =? txid)%nat (withStatus REJECTED)
        (transactions w)) w).
Proof.
  intros Hq Ht Hp.
  unfold rejectWithdrawal, getTransactionById.
  run. reflexivity.
Qed.

(** ** C4: the two legs of an exchange *)

Lemma processExchange_both_legs (convertCrypto : Q -> Asset -> Asset -> Q)
    (u : UserId) (fromAsset toAsset : Asset) (amount : Q) (w : World)
    (xf xt : Wallet) :
  quiet w ->
  walletOf u fromAsset w = Some xf ->
  walletOf u toAsset w = Some xt ->
  amount <= w_balance xf ->
  processExchange convertCrypto u fromAsset toAsset amount w =
  (Ok true,
   setWallets
     (updateWhere (fun y => w_id y =? w_id xt)%nat
        (withBalance
           (w_balance xt +
            amount * convertCrypto 1 fromAsset toAsset * (1 - (1 # 1000))))
        (updateWhere (fun y => w_id y =? w_id xf)%nat
           (withBalance (w_balance xf - amount)) (wallets w)))
     w).
Proof.
  intros Hq Hf Ht Hle.
  destruct (walletOf_find_id _ _ _ _ Hf) as [yf Hyf].
  destruct (walletOf_find_id _ _ _ _ Ht) as [yt Hyt].
  destruct (find_id_setBalance (w_id xf) (w_id xt) (w_balance xf - amount)
              (wallets w) yt Hyt) as [yt' Hyt'].
  unfold walletOf in Hf, Ht.
  assert (H1 : Qltb (w_balance xf) amount = false) by (apply Qltb_false; lra).
  unfold processExchange.
  run. reflexivity.
Qed.

(** C4, as stated, fails: when the update of the destination wallet errors,
    the exchange of 10 USDT for BTC returns [true] with the 10 USDT debited
    and the BTC balance as it was; submitted through [createTransaction],
    the transaction is marked COMPLETED all the same. *)
Lemma exchange_debit_without_credit :
  fst (processExchange atPar 7 USDT BTC 10 ledgerCreditFails) = Ok true /\
  balanceOf 7 USDT (snd (processExchange atPar 7 USDT BTC 10 ledgerCreditFails))
  == 100 - 10 /\
  balanceOf 7 BTC (snd (processExchange atPar 7 USDT BTC 10 ledgerCreditFails))
  == 2 /\
  balanceOf 7 USDT
    (snd (createTransaction atPar 7 exchange10 ledgerCreditFailsOnSubmit))
  == 100 - 10 /\
  balanceOf 7 BTC
    (snd (createTransaction atPar 7 exchange10 ledgerCreditFailsOnSubmit))
  == 2 /\
  statusOf 10
    (snd (createTransaction atPar 7 exchange10 ledgerCreditFailsOnSubmit))
  = Some COMPLETED.
Proof.
  repeat split; reflexivity.
Qed.
(** ** C5: the sweep at maturity *)

(** One turn of the loop for a subscription that has reached its end.  The
    second update of the wallet starts from the balance read before the
    first: the wallet ends at that balance plus the principal, and the
    earnings written by the first update are lost. *)
Lemma accrue_matured (now : Z) (s : Subscription) (p : Plan) (w : World)
    (x : Wallet) (s0 : Subscription) :
  quiet w ->
  (s_end_date s <=? now)%Z = true ->
  walletOf (s_user s) USDT w = Some x ->
  subscriptionOf (s_id s) w = Some s0 ->
  exists w',
    accrue now (s, Some p) w = (Ok tt, w') /\
    balanceOf (s_user s) USDT w' = w_balance x + s_amount s /\
    option_map s_status (subscriptionOf (s_id s) w') = Some SUB_COMPLETED.
Proof.
  intros Hq Hend Hx Hs0.
  destruct (walletOf_find_id _ _ _ _ Hx) as [y Hy].
  destruct (find_id_setBalance (w_id x) (w_id x)
              (w_balance x + s_amount s * (p_apy p / 365 / 100))
              (wallets w) y Hy) as [y' Hy'].
  assert (Hs1 := find_subscription_updated (s_id s)
                   (mkSubscriptionUpdate None
                      (Some (s_total_earned s +
                             s_amount s * (p_apy p / 365 / 100))))
                   (subscriptions w) s0 Hs0).
  assert (Hx' := Hx). unfold walletOf in Hx'.
  unfold subscriptionOf in Hs0.
  unfold accrue. run.
  eexists. split; [reflexivity|]. split.
  - unfold balanceOf, walletOf. simpl.
    rewrite !filter_updateWhere by reflexivity.
    unfold findAsset.
    rewrite !find_map_inv
      by (intros r; destruct (w_id r =? w_id x)%nat; reflexivity).
    fold (findAsset USDT
            (filter (fun x0 => w_user x0 =? s_user s)%nat (wallets w))).
    rewrite Hx'. simpl. rewrite Nat.eqb_refl. simpl.
    rewrite Nat.eqb_refl. reflexivity.
  - unfold subscriptionOf. simpl.
    rewrite (find_subscription_updated (s_id s)
               (mkSubscriptionUpdate (Some SUB_COMPLETED) None) _ _ Hs1).
    reflexivity.
Qed.

(** C5 on the code.  User 7 holds 100 USDT and a subscription of 1000 for
    30 days at 5.5% a year; the sweep runs at the end date.  The
    subscription becomes COMPLETED, both deposits are recorded, 1000 * 5.5 /
    365 / 100 and 1000, and a later sweep changes no wallet; but the
    balance ends at 100 + 1000: the earnings of the day are not in it. *)
Theorem maturity_sweep_loses_earnings :
  let w1 := snd (processEarnings (30 * day) maturing) in
  balanceOf 7 USDT maturing == 100 /\
  balanceOf 7 USDT w1 == 100 + 1000 /\
  ~ balanceOf 7 USDT w1 == 100 + 1000 + 1000 * (5.5 / 365 / 100) /\
  option_map s_status (subscriptionOf 1 w1) = Some SUB_COMPLETED /\
  map t_amount (transactions w1) = [1000 * (5.5 / 365 / 100); 1000] /\
  map t_status (transactions w1) = [COMPLETED; COMPLETED] /\
  wallets (snd (processEarnings (31 * day) w1)) = wallets w1.
Proof.
  repeat split; try reflexivity.
  vm_compute. discriminate.
Qed.

(** ** C6: investing *)

(** [createInvestment] reports no success, on any input and whatever the
    store does: the value it awaits from [createTransaction] is
    [undefined], so the guard [if (!transaction)] always returns. *)
Lemma createInvestment_never_succeeds
    (convertCrypto : Q -> Asset -> Asset -> Q)
    (u : UserId) (req : InvestmentRequest) (now : Z) (w : World)
    (sid : RowId) :
  fst (createInvestment convertCrypto u req now w) <> Ok (InvestSuccess sid).
Proof.
  unfold createInvestment, try_catch, bind, ret.
  destruct (validateInvestment u req w) as [[[p|e]|e] w1]; simpl;
    try discriminate.
  destruct (db.getUserWallets u w1) as [[ws|e] w2]; simpl; try discriminate.
  destruct (findAsset (ir_asset req) ws) as [x|]; simpl; try discriminate.
  destruct (Qltb (w_balance x) (ir_amount req)); simpl; try discriminate.
  destruct (createTransaction convertCrypto u _ w2) as [[[]|e] w3]; simpl;
    discriminate.
Qed.

(** C6 on the code.  User 7 holds 1000 USDT and invests 500 in a plan that
    is active and takes 100 to 1000: the request passes every check of the
    claim, the store answers every query, yet the operation reports the
    failure to create the transaction, debits nothing and creates no
    subscription, while the INVEST transaction it did create is
    COMPLETED. *)
Theorem createInvestment_valid_request_fails :
  let r := createInvestment atPar 7 invest500 0 investor in
  fst r = Ok (InvestFailure FailedToCreateInvestmentTransaction) /\
  balanceOf 7 USDT (snd r) = 1000 /\
  subscriptions (snd r) = [] /\
  transactions (snd r) =
  [mkTransaction 10 7 INVEST USDT 500 COMPLETED None None (Some 1%nat)].
Proof.
  repeat split; reflexivity.
Qed.

(** ** C7: updating a plan that has subscriptions *)

(** C7, as stated, fails: after the rate of the plan is raised from 12.5% to
    25%, the sweep pays the existing subscription of 1000 at the new rate,
    1000 * 25 / 365 / 100 instead of 1000 * 12.5 / 365 / 100. *)
Lemma plan_update_changes_accrual :
  let unchanged := snd (processEarnings day accruing) in
  let updated :=
    snd (processEarnings day (snd (updatePlan 1 raiseRate accruing))) in
  balanceOf 7 USDT unchanged - 100 == 1000 * (12.5 / 365 / 100) /\
  balanceOf 7 USDT updated - 100 == 1000 * (25 / 365 / 100) /\
  ~ balanceOf 7 USDT updated == balanceOf 7 USDT unchanged.
Proof.
  repeat split; try reflexivity.
  vm_compute. discriminate.
Qed.

Lemma updatePlan_quiet (pid : RowId) (upd : PlanUpdate) (w : World) (p : Plan) :
  quiet w ->
  find (fun y => p_id y =? pid)%nat (plans w) = Some p ->
  updatePlan pid upd w =
  (Ok (Some (applyPlanUpdate upd p)),
   setPlans
     (updateWhere (fun y => p_id y =? pid)%nat (applyPlanUpdate upd) (plans w))
     w).
Proof.
  intros Hq Hp. unfold updatePlan. run. reflexivity.
Qed.
(** ** Cancelling a subscription *)

Lemma find_by_id_of_owner (sid : RowId) (u : UserId)
    (ss : list Subscription) (s : Subscription) :
  find (fun y => (s_id y =? sid)%nat && (s_user y =? u)%nat) ss = Some s ->
  exists s0, find (fun y => s_id y =? sid)%nat ss = Some s0.
Proof.
  intros H. apply find_some in H. destruct H as [Hin Hs].
  apply andb_true_iff in Hs. destruct Hs as [Hs _].
  destruct (find (fun y => s_id y =? sid)%nat ss) as [s0|] eqn:E.
  - exists s0. reflexivity.
  - exfalso. apply (find_none _ _ E) in Hin. simpl in Hin. congruence.
Qed.

(** Cancelling an ACTIVE subscription of the caller, with a store that
    answers every query and a USDT wallet to refund to. *)
Lemma cancelInvestment_quiet (u : UserId) (sid : RowId) (now : Z) (w : World)
    (s : Subscription) (x : Wallet) :
  quiet w ->
  find (fun y => (s_id y =? sid)%nat && (s_user y =? u)%nat) (subscriptions w)
  = Some s ->
  s_status s = ACTIVE ->
  walletOf u USDT w = Some x ->
  exists w',
    cancelInvestment u sid now w = (Ok CancelSuccess, w') /\
    balanceOf u USDT w' =
    w_balance x +
    fst (refundAndPenalty (s_amount s)
           (daysSinceStart now (s_start_date s))) /\
    option_map s_status (subscriptionOf sid w') = Some CANCELLED.
Proof.
  intros Hq Hs Hact Hx.
  destruct (find_by_id_of_owner sid u (subscriptions w) s Hs) as [s0 Hs0].
  destruct (walletOf_find_id _ _ _ _ Hx) as [y Hy].
  assert (Hx' := Hx). unfold walletOf in Hx'.
  assert (Hst : negb (SubStatus_eqb (s_status s) ACTIVE) = false)
    by (rewrite Hact; reflexivity).
  unfold cancelInvestment. run.
  eexists. split; [reflexivity|]. split.
  - unfold balanceOf, walletOf. simpl.
    rewrite filter_updateWhere by reflexivity.
    unfold findAsset.
    rewrite find_map_inv
      by (intros r; destruct (w_id r =? w_id x)%nat; reflexivity).
    fold (findAsset USDT (filter (fun x0 => w_user x0 =? u)%nat (wallets w))).
    rewrite Hx'. simpl. rewrite Nat.eqb_refl. reflexivity.
  - unfold subscriptionOf. simpl.
    rewrite (find_subscription_updated sid
               (mkSubscriptionUpdate (Some CANCELLED) None) _ _ Hs0).
    reflexivity.
Qed.
(** C9, as stated, fails.  User 9 has no USDT wallet: cancelling reports
    success and the subscription is CANCELLED, yet no wallet is credited.
    And when the store errors on the update of the subscription, cancelling
    reports success and credits the refund of 1000 while the subscription
    stays ACTIVE, so that cancelling once more credits it a second time. *)
Lemma cancel_succeeds_half_done :
  (fst (cancelInvestment 9 1 (31 * day) stranded) = Ok CancelSuccess /\
   option_map s_status
     (subscriptionOf 1 (snd (cancelInvestment 9 1 (31 * day) stranded)))
   = Some CANCELLED /\
   wallets (snd (cancelInvestment 9 1 (31 * day) stranded))
   = wallets stranded)
  /\
  (let w1 := snd (cancelInvestment 7 1 (31 * day) accruingStatusFails) in
   let w2 := snd (cancelInvestment 7 1 (31 * day) w1) in
   fst (cancelInvestment 7 1 (31 * day) accruingStatusFails)
   = Ok CancelSuccess /\
   option_map s_status (subscriptionOf 1 w1) = Some ACTIVE /\
   balanceOf 7 USDT w1 == 100 + 1000 /\
   balanceOf 7 USDT w2 == 100 + 1000 + 1000).
Proof.
  repeat split; reflexivity.
Qed.

Lemma cancelInvestment_failure_changes_nothing (u : UserId) (sid : RowId)
    (now : Z) (w : World) (e : InvestError) (w' : World) :
  cancelInvestment u sid now w = (Ok (CancelFailure e), w') ->
  subscriptions w' = subscriptions w /\ wallets w' = wallets w /\
  (e = InvestmentNotFound \/ e = InvestmentNotActive).
Proof.
  unfold cancelInvestment, db.selectUserSubscription, db.joinPlan,
    try_catch, bind, roundTrip, gets, ret.
  destruct (faults w) as [|[|] fs]; cbn beta iota;
    try (intros H; inversion H; subst; auto; fail);
    (destruct (find _ _) as [s|]; cbn beta iota delta [option_map];
     [|intros H; inversion H; subst; auto]);
    (destruct (negb (SubStatus_eqb (s_status s) ACTIVE));
     [intros H; inversion H; subst; auto|]);
    repeat (store_returns; cbn beta iota);
    try (destruct (findAsset USDT _));
    repeat (store_returns; cbn beta iota);
    intros H; discriminate H.
Qed.

(** C9, as amended.  [cancelInvestment] writes the status first and the
    refund second, without a transaction around them.  Whatever the store
    does, it reports a failure only when the subscription is not found for
    that owner or is not ACTIVE, and then no subscription and no wallet has
    changed, so that retrying is safe.  With a store that answers every
    query, an ACTIVE subscription of the caller and a USDT wallet, it
    reports success with the subscription CANCELLED and the refund
    credited. *)
Theorem cancel_outcomes (u : UserId) (sid : RowId) (now : Z) (w : World) :
  (forall e w',
      cancelInvestment u sid now w = (Ok (CancelFailure e), w') ->
      subscriptions w' = subscriptions w /\ wallets w' = wallets w /\
      (e = InvestmentNotFound \/ e = InvestmentNotActive))
  /\
  (forall s x,
      quiet w ->
      find (fun y => (s_id y =? sid)%nat && (s_user y =? u)%nat)
        (subscriptions w) = Some s ->
      s_status s = ACTIVE ->
      walletOf u USDT w = Some x ->
      exists w',
        cancelInvestment u sid now w = (Ok CancelSuccess, w') /\
        balanceOf u USDT w' =
        w_balance x +
        fst (refundAndPenalty (s_amount s)
               (daysSinceStart now (s_start_date s))) /\
        option_map s_status (subscriptionOf sid w') = Some CANCELLED).
Proof.
  split.
  - intros e w'. apply cancelInvestment_failure_changes_nothing.
  - intros s x. apply cancelInvestment_quiet.
Qed.

Lemma cancel_outcomes_witness :
  (subscriptions (snd (cancelInvestment 8 1 day accruing))
   = subscriptions accruing /\
   wallets (snd (cancelInvestment 8 1 day accruing)) = wallets accruing)
  /\
  (exists w',
      cancelInvestment 7 1 (31 * day) accruing = (Ok CancelSuccess, w') /\
      balanceOf 7 USDT w' = 100 + fst (refundAndPenalty 1000 31) /\
      option_map s_status (subscriptionOf 1 w') = Some CANCELLED).
Proof.
  split.
  - destruct (proj1 (cancel_outcomes 8 1 day accruing)
                InvestmentNotFound accruing eq_refl) as [Hs [Hw _]].
    split; [exact Hs | exact Hw].
  - exact (proj2 (cancel_outcomes 7 1 (31 * day) accruing)
             (mkSubscription 1 7 1 1000 0 (40 * day) ACTIVE 0)
             (mkWallet 1 7 USDT 100) eq_refl eq_refl eq_refl eq_refl).
Defined.

(** * Further properties of the services *)

(** [run], for the queries of the plans and of the pending transactions as
    well. *)
Ltac run_more :=
  unfold db.selectPendingTransactions, db.getActivePlans, db.createPlan;
  run.

(** ** Calls that only read *)

Lemma sameTables_refl (w : World) : sameTables w w.
Proof. repeat split. Qed.

Lemma sameTables_trans (w1 w2 w3 : World) :
  sameTables w1 w2 -> sameTables w2 w3 -> sameTables w1 w3.
Proof.
  intros [A1 [A2 [A3 [A4 A5]]]] [B1 [B2 [B3 [B4 B5]]]].
  repeat split; congruence.
Qed.

Lemma getUserWallets_reads (u : UserId) (w : World) :
  exists ws w',
    db.getUserWallets u w = (Ok ws, w') /\ sameTables w w' /\
    (quiet w ->
     w' = w /\ ws = filter (fun x => w_user x =? u)%nat (wallets w)).
Proof.
  unfold_db. unfold quiet.
  destruct (faults w) as [|[|] fs]; simpl; do 2 eexists;
    (split; [reflexivity|]); (split; [repeat split|]);
    intros H; try discriminate H; auto.
Qed.

Lemma selectTransaction_reads (txid : RowId) (w : World) :
  exists r w',
    db.selectTransaction txid w = (Ok r, w') /\ sameTables w w' /\
    (r = None \/
     r = find (fun t => t_id t =? txid)%nat (transactions w)).
Proof.
  unfold_db.
  destruct (faults w) as [|[|] fs]; simpl; do 2 eexists;
    (split; [reflexivity|]); (split; [repeat split|]); auto.
Qed.

Lemma validateTransaction_reads (u : UserId) (request : TransactionRequest)
    (w : World) :
  exists v w',
    validateTransaction u request w = (Ok v, w') /\ sameTables w w'.
Proof.
  unfold validateTransaction, try_catch. unfold bind at 1.
  destruct (getUserWallets_reads u w) as [ws [w1 [E [Hs _]]]]. rewrite E.
  destruct (r_type request); unfold ret;
    repeat match goal with
           | |- context [match findAsset ?a ?l with _ => _ end] =>
               destruct (findAsset a l)
           | |- context [if Qltb ?x ?y then _ else _] =>
               destruct (Qltb x y)
           end;
    do 2 eexists; (split; [reflexivity | exact Hs]).
Qed.

Lemma returns_updateTransactionStatus (id : RowId) (st : TxStatus) :
  returns (db.updateTransactionStatus id st).
Proof.
  intros w. unfold_db.
  destruct (faults w) as [|[|] fs]; simpl;
    try (destruct (find _ _)); simpl; eauto.
Qed.

(** [processTransaction] catches whatever it throws. *)
Lemma returns_processTransaction
    (convertCrypto : Q -> Asset -> Asset -> Q) (t : Transaction) :
  returns (processTransaction convertCrypto t).
Proof.
  intros w. unfold processTransaction, try_catch.
  match goal with
  | |- context [match ?m w with _ => _ end] =>
      destruct (m w) as [[[]|e] w1]
  end.
  - eauto.
  - unfold bind.
    destruct (returns_updateTransactionStatus (t_id t) REJECTED w1)
      as [r [w2 E]]. rewrite E. unfold ret. eauto.
Qed.

(** ** Submitting: validation comes before any write *)

(** X1: a submission that throws has written nothing: every table is as it
    was. *)
Theorem createTransaction_throw_writes_nothing
    (convertCrypto : Q -> Asset -> Asset -> Q)
    (u : UserId) (request : TransactionRequest) (w : World)
    (e : Error) (w' : World) :
  createTransaction convertCrypto u request w = (Throw e, w') ->
  sameTables w w'.
Proof.
  unfold createTransaction, try_catch. unfold bind at 1.
  destruct (validateTransaction_reads u request w) as [v [w1 [E Hs]]].
  rewrite E. destruct v as [|e0].
  - unfold bind.
    destruct (returns_db_createTransaction
                (mkTransactionInsert u (r_type request) (r_asset request)
                   (r_amount request) PENDING (r_fromAsset request)
                   (r_toAsset request) (r_planId request)) w1)
      as [[t|] [w2 E2]]; rewrite E2.
    + destruct (returns_processTransaction convertCrypto t w2)
        as [[] [w3 E3]]. rewrite E3. intros H. discriminate H.
    + unfold ret. intros H. discriminate H.
  - unfold throw. intros H. inversion H. subst. exact Hs.
Qed.

Lemma createTransaction_throw_writes_nothing_witness :
  sameTables ledger0 (snd (createTransaction atPar 8 exchange5 ledger0)).
Proof.
  apply (createTransaction_throw_writes_nothing atPar 8 exchange5 ledger0
           InsufficientBalance).
  reflexivity.
Defined.
(** ** Operations that move no funds *)

Section Funds.

Variable ws : list Wallet.
Variable ss : list Subscription.
Variable ps : list Plan.

Let F := fundsAre ws ss ps.

Lemma funds_roundTrip : keeps F roundTrip anything.
Proof.
  intros w Hw. unfold roundTrip.
  destruct (faults w) as [|f fs]; simpl; split; auto; intros; exact Logic.I.
Qed.

Lemma funds_call {A} (dflt : A) (m : M A) (post : A -> Prop) :
  post dflt ->
  keeps F m post ->
  keeps F (bind roundTrip (fun err => if err then ret dflt else m)) post.
Proof.
  intros Hd Hm. apply keeps_bind with (mid := anything).
  - apply funds_roundTrip.
  - intros [|] _; [apply keeps_ret; exact Hd | exact Hm].
Qed.

Lemma funds_gets {A} (f : World -> A) : keeps F (gets f) anything.
Proof.
  intros w Hw. simpl. split; [exact Hw | intros; exact Logic.I].
Qed.

Lemma funds_getUserWallets (u : UserId) :
  keeps F (db.getUserWallets u) anything.
Proof.
  unfold db.getUserWallets. apply funds_call; [exact Logic.I|].
  apply funds_gets.
Qed.

Lemma funds_selectTransaction (txid : RowId) :
  keeps F (db.selectTransaction txid)
    (fun r => forall t, r = Some t -> (t_id t =? txid)%nat = true).
Proof.
  unfold db.selectTransaction. apply funds_call.
  - intros t E. discriminate E.
  - intros w Hw. simpl. split; [exact Hw|].
    intros r E t Et. subst r. inversion E as [E'].
    apply find_some in E'. exact (proj2 E').
Qed.

Lemma funds_db_createTransaction (d : TransactionInsert) :
  keeps F (db.createTransaction d)
    (fun r => forall t, r = Some t -> t_type t = ti_type d).
Proof.
  unfold db.createTransaction. apply funds_call.
  - intros t E. discriminate E.
  - intros w Hw. unfold bind, gets, modify, ret. simpl.
    split; [exact Hw|].
    intros a E t Et. rewrite Et in E. inversion E. reflexivity.
Qed.

Lemma funds_updateTransactionStatus (id : RowId) (st : TxStatus) :
  keeps F (db.updateTransactionStatus id st) anything.
Proof.
  unfold db.updateTransactionStatus. apply funds_call; [exact Logic.I|].
  intros w Hw. unfold bind, gets, modify, ret.
  destruct (find _ (transactions w)) as [x|]; simpl;
    (split; [exact Hw | intros; exact Logic.I]).
Qed.

Lemma funds_validateTransaction (u : UserId) (request : TransactionRequest) :
  keeps F (validateTransaction u request) anything.
Proof.
  unfold validateTransaction.
  apply keeps_try_catch; [|intros; apply keeps_ret; exact Logic.I].
  eapply keeps_bind; [apply funds_getUserWallets|]. intros l _.
  destruct (r_type request);
    repeat match goal with
           | |- context [match findAsset ?a ?l with _ => _ end] =>
               destruct (findAsset a l)
           | |- context [if Qltb ?x ?y then _ else _] =>
               destruct (Qltb x y)
           end;
    apply keeps_ret; exact Logic.I.
Qed.

Lemma funds_settle (t : Transaction) (success : bool) :
  keeps F (settle t success) anything.
Proof.
  unfold settle. destruct success;
    (eapply keeps_bind; [apply funds_updateTransactionStatus|];
     intros; apply keeps_ret; exact Logic.I).
Qed.

Lemma funds_createTransaction (convertCrypto : Q -> Asset -> Asset -> Q)
    (u : UserId) (request : TransactionRequest) :
  r_type request = WITHDRAW \/ r_type request = INVEST ->
  keeps F (createTransaction convertCrypto u request) anything.
Proof.
  intros Hty. unfold createTransaction.
  apply keeps_try_catch; [|intros; apply keeps_throw].
  eapply keeps_bind; [apply funds_validateTransaction|].
  intros [|e] _; [|apply keeps_throw].
  eapply keeps_bind; [apply funds_db_createTransaction|].
  intros [t|] Ht; [|apply keeps_ret; exact Logic.I].
  assert (Et := Ht t eq_refl). simpl in Et.
  unfold processTransaction.
  apply keeps_try_catch.
  - rewrite Et. destruct Hty as [E|E]; rewrite E.
    + apply keeps_ret. exact Logic.I.
    + apply funds_settle.
  - intros _. eapply keeps_bind; [apply funds_updateTransactionStatus|].
    intros; apply keeps_ret; exact Logic.I.
Qed.

Lemma funds_rejectWithdrawal (txid : RowId) (admin : UserId) :
  keeps F (rejectWithdrawal txid admin) anything.
Proof.
  unfold rejectWithdrawal, getTransactionById.
  apply keeps_try_catch; [|intros; apply keeps_ret; exact Logic.I].
  eapply keeps_bind; [apply funds_selectTransaction|].
  intros [t|] _; [|apply keeps_ret; exact Logic.I].
  destruct (negb (isPendingWithdraw t)); [apply keeps_ret; exact Logic.I|].
  eapply keeps_bind; [apply funds_updateTransactionStatus|].
  intros; apply keeps_ret; exact Logic.I.
Qed.

Lemma funds_rejectTransaction (txid : RowId) (admin : UserId) :
  keeps F (rejectTransaction txid admin) anything.
Proof.
  unfold rejectTransaction.
  apply keeps_try_catch; [|intros; apply keeps_ret; exact Logic.I].
  eapply keeps_bind; [apply funds_selectTransaction|].
  intros [t|] _; [|apply keeps_ret; exact Logic.I].
  destruct (t_type t);
    try (eapply keeps_bind; [apply funds_updateTransactionStatus|];
         intros; apply keeps_ret; exact Logic.I).
  apply funds_rejectWithdrawal.
Qed.

End Funds.
(** X2: submitting a WITHDRAW or an INVEST through [createTransaction] moves
    no funds, whatever the store does and whether the request is valid or
    not: every wallet and every subscription is as it was.  (For INVEST the
    transaction is nevertheless marked COMPLETED.) *)
Theorem submit_withdraw_or_invest_moves_no_funds
    (convertCrypto : Q -> Asset -> Asset -> Q)
    (u : UserId) (request : TransactionRequest) (w : World) :
  r_type request = WITHDRAW \/ r_type request = INVEST ->
  wallets (snd (createTransaction convertCrypto u request w)) = wallets w /\
  subscriptions (snd (createTransaction convertCrypto u request w))
  = subscriptions w.
Proof.
  intros Hty.
  destruct (funds_createTransaction (wallets w) (subscriptions w) (plans w)
              convertCrypto u request Hty w) as [[Hw [Hs _]] _].
  - repeat split.
  - split; assumption.
Qed.

Lemma submit_withdraw_or_invest_moves_no_funds_witness :
  wallets
    (snd (createTransaction atPar 7
            (mkTransactionRequest INVEST USDT 60 None None (Some 1%nat))
            ledgerCreditFails))
  = sampleWallets /\
  statusOf 10
    (snd (createTransaction atPar 7
            (mkTransactionRequest INVEST USDT 60 None None (Some 1%nat))
            ledger0))
  = Some COMPLETED.
Proof.
  split; [|reflexivity].
  exact (proj1 (submit_withdraw_or_invest_moves_no_funds atPar 7
                  (mkTransactionRequest INVEST USDT 60 None None (Some 1%nat))
                  ledgerCreditFails (or_intror eq_refl))).
Defined.

(** X3: rejecting never moves funds, by [rejectWithdrawal] or by the
    administrator's [rejectTransaction], on any transaction and whatever
    the store does: rejecting a deposit or an exchange that was already
    credited takes nothing back. *)
Theorem rejecting_moves_no_funds (txid : RowId) (admin : UserId) (w : World) :
  wallets (snd (rejectWithdrawal txid admin w)) = wallets w /\
  wallets (snd (rejectTransaction txid admin w)) = wallets w.
Proof.
  split.
  - destruct (funds_rejectWithdrawal (wallets w) (subscriptions w) (plans w)
                txid admin w) as [[Hw _] _]; [repeat split | exact Hw].
  - destruct (funds_rejectTransaction (wallets w) (subscriptions w) (plans w)
                txid admin w) as [[Hw _] _]; [repeat split | exact Hw].
Qed.

(** ** Decisions on transactions that are not pending withdrawals *)

(** X4: [approveWithdrawal] and [rejectWithdrawal] act on PENDING WITHDRAW
    transactions only.  For an unknown id, another kind of transaction or a
    withdrawal already COMPLETED or REJECTED they return [false] and write
    nothing, whatever the store does. *)
Theorem decision_needs_pending_withdrawal
    (txid : RowId) (admin : UserId) (w : World) :
  (forall t, find (fun t => t_id t =? txid)%nat (transactions w) = Some t ->
             isPendingWithdraw t = false) ->
  (exists w', approveWithdrawal txid admin w = (Ok false, w') /\
              sameTables w w') /\
  (exists w', rejectWithdrawal txid admin w = (Ok false, w') /\
              sameTables w w').
Proof.
  intros Hnp.
  destruct (selectTransaction_reads txid w) as [r [w1 [E [Hs Hr]]]].
  assert (Hcase : r = None \/
                  exists t, r = Some t /\ isPendingWithdraw t = false).
  { destruct Hr as [Hr|Hr]; [left; exact Hr|].
    destruct r as [t|]; [|left; reflexivity].
    right. exists t. split; [reflexivity|]. apply Hnp. symmetry. exact Hr. }
  split; exists w1;
    unfold approveWithdrawal, rejectWithdrawal, getTransactionById, try_catch;
    unfold bind at 1; rewrite E;
    destruct Hcase as [Hr'|[t [Hr' Hp]]]; subst r; simpl;
    try rewrite Hp; simpl; split; auto.
Qed.

Lemma decision_needs_pending_withdrawal_witness :
  (exists w', approveWithdrawal 99 1 ledger1 = (Ok false, w') /\
              sameTables ledger1 w') /\
  (exists w', rejectWithdrawal 99 1 ledger1 = (Ok false, w') /\
              sameTables ledger1 w').
Proof.
  apply decision_needs_pending_withdrawal.
  intros t E. discriminate E.
Defined.

Lemma approveWithdrawal_settled (txid : RowId) (admin : UserId) (w : World)
    (t : Transaction) :
  quiet w ->
  find (fun t => t_id t =? txid)%nat (transactions w) = Some t ->
  isPendingWithdraw t = false ->
  approveWithdrawal txid admin w = (Ok false, w) /\
  rejectWithdrawal txid admin w = (Ok false, w).
Proof.
  intros Hq Ht Hp.
  unfold approveWithdrawal, rejectWithdrawal, getTransactionById.
  split; run; reflexivity.
Qed.

Lemma find_setStatus (txid : RowId) (st : TxStatus) (ts : list Transaction)
    (t : Transaction) :
  find (fun t => t_id t =? txid)%nat ts = Some t ->
  find (fun t => t_id t =? txid)%nat
    (updateWhere (fun y => t_id y =? txid)%nat (withStatus st) ts)
  = Some (withStatus st t).
Proof.
  intros Ht. rewrite find_updateWhere by reflexivity. rewrite Ht. simpl.
  apply find_some in Ht. destruct Ht as [_ Ht]. rewrite Ht. reflexivity.
Qed.

(** X5: a decision is final for the two withdrawal operations.  With a store
    that answers every query, once a pending withdrawal has been approved
    (the balance covering amount and fee) or rejected, approving or
    rejecting it again returns [false] and leaves the world as it is: the
    wallet is debited once, and a rejected withdrawal cannot be paid
    later. *)
Theorem withdrawal_decision_is_final
    (txid : RowId) (admin : UserId) (w : World) (t : Transaction)
    (x : Wallet) :
  quiet w ->
  find (fun t => t_id t =? txid)%nat (transactions w) = Some t ->
  isPendingWithdraw t = true ->
  walletOf (t_user t) (t_asset t) w = Some x ->
  t_amount t + getNetworkFee (t_asset t) <= w_balance x ->
  (exists w2,
      approveWithdrawal txid admin w = (Ok true, w2) /\
      approveWithdrawal txid admin w2 = (Ok false, w2) /\
      rejectWithdrawal txid admin w2 = (Ok false, w2)) /\
  (exists w3,
      rejectWithdrawal txid admin w = (Ok true, w3) /\
      approveWithdrawal txid admin w3 = (Ok false, w3) /\
      rejectWithdrawal txid admin w3 = (Ok false, w3)).
Proof.
  intros Hq Ht Hp Hx Hle. split.
  - eexists. split.
    + apply approveWithdrawal_funded with (t := t) (x := x); assumption.
    + apply approveWithdrawal_settled with (t := withStatus COMPLETED t).
      * exact Hq.
      * simpl. apply find_setStatus. exact Ht.
      * unfold isPendingWithdraw. simpl. destruct (t_type t); reflexivity.
  - eexists. split.
    + apply rejectWithdrawal_pending with (t := t); assumption.
    + apply approveWithdrawal_settled with (t := withStatus REJECTED t).
      * exact Hq.
      * simpl. apply find_setStatus. exact Ht.
      * unfold isPendingWithdraw. simpl. destruct (t_type t); reflexivity.
Qed.

Lemma withdrawal_decision_is_final_witness :
  (exists w2,
      approveWithdrawal 10 1 ledger1 = (Ok true, w2) /\
      approveWithdrawal 10 1 w2 = (Ok false, w2) /\
      rejectWithdrawal 10 1 w2 = (Ok false, w2)) /\
  (exists w3,
      rejectWithdrawal 10 1 ledger1 = (Ok true, w3) /\
      approveWithdrawal 10 1 w3 = (Ok false, w3) /\
      rejectWithdrawal 10 1 w3 = (Ok false, w3)).
Proof.
  apply (withdrawal_decision_is_final 10 1 ledger1
           (mkTransaction 10 7 WITHDRAW USDT 50 PENDING None None None)
           (mkWallet 1 7 USDT 100)); try reflexivity.
  vm_compute. intros E. discriminate E.
Defined.
(** ** Deposits *)

Lemma find_fresh_app {A} (p : A -> bool) (l : list A) (x : A) :
  find p l = None -> p x = true -> find p (l ++ [x]) = Some x.
Proof.
  intros Hn Hx. induction l as [|y l IH]; simpl in *.
  - rewrite Hx. reflexivity.
  - destruct (p y); [discriminate Hn | apply IH; exact Hn].
Qed.

(** X6: a DEPOSIT submitted for a user who holds a wallet of the asset, with
    a store that answers every query, credits that wallet with exactly the
    amount and records one transaction, under the next row id, marked
    COMPLETED. *)
Theorem deposit_credits_amount
    (convertCrypto : Q -> Asset -> Asset -> Q)
    (u : UserId) (a : Asset) (amount : Q) (w : World) (x : Wallet) :
  quiet w ->
  freshTransactionId w ->
  walletOf u a w = Some x ->
  exists w',
    createTransaction convertCrypto u
      (mkTransactionRequest DEPOSIT a amount None None None) w = (Ok tt, w') /\
    balanceOf u a w' = w_balance x + amount /\
    statusOf (next_id w) w' = Some COMPLETED /\
    length (transactions w') = S (length (transactions w)).
Proof.
  intros Hq Hfresh Hx.
  destruct (walletOf_find_id _ _ _ _ Hx) as [y Hy].
  assert (Hx' := Hx). unfold walletOf in Hx'.
  assert (Ht := find_fresh_app (fun t => t_id t =? next_id w)%nat
                  (transactions w)
                  (mkTransaction (next_id w) u DEPOSIT a amount PENDING
                     None None None) Hfresh (Nat.eqb_refl _)).
  eexists. split.
  - unfold createTransaction, validateTransaction, processTransaction,
      processDeposit, settle. run. reflexivity.
  - split; [|split].
    + unfold balanceOf, walletOf. simpl.
      rewrite filter_updateWhere by reflexivity. unfold findAsset.
      rewrite find_map_inv
        by (intros r; destruct (w_id r =? w_id x)%nat; reflexivity).
      fold (findAsset a (filter (fun x0 => w_user x0 =? u)%nat (wallets w))).
      rewrite Hx'. simpl. rewrite Nat.eqb_refl. reflexivity.
    + unfold statusOf. simpl.
      rewrite (find_setStatus (next_id w) COMPLETED _ _ Ht). reflexivity.
    + simpl. unfold updateWhere. rewrite length_map, length_app. simpl. lia.
Qed.

Lemma deposit_credits_amount_witness :
  exists w',
    createTransaction atPar 7
      (mkTransactionRequest DEPOSIT USDT 25 None None None) ledger0
    = (Ok tt, w') /\
    balanceOf 7 USDT w' = 100 + 25 /\
    statusOf 10 w' = Some COMPLETED /\
    length (transactions w') = 1%nat.
Proof.
  exact (deposit_credits_amount atPar 7 USDT 25 ledger0
           (mkWallet 1 7 USDT 100) eq_refl eq_refl eq_refl).
Defined.

(** X7: a DEPOSIT submitted for a user who holds no wallet of the asset is
    not refused by the validation: with a store that answers every query
    the call returns normally, the transaction is recorded and marked
    REJECTED, and no wallet changes. *)
Theorem deposit_without_wallet_is_rejected
    (convertCrypto : Q -> Asset -> Asset -> Q)
    (u : UserId) (a : Asset) (amount : Q) (w : World) :
  quiet w ->
  freshTransactionId w ->
  walletOf u a w = None ->
  exists w',
    createTransaction convertCrypto u
      (mkTransactionRequest DEPOSIT a amount None None None) w = (Ok tt, w') /\
    wallets w' = wallets w /\
    statusOf (next_id w) w' = Some REJECTED.
Proof.
  intros Hq Hfresh Hx. unfold walletOf in Hx.
  assert (Ht := find_fresh_app (fun t => t_id t =? next_id w)%nat
                  (transactions w)
                  (mkTransaction (next_id w) u DEPOSIT a amount PENDING
                     None None None) Hfresh (Nat.eqb_refl _)).
  eexists. split.
  - unfold createTransaction, validateTransaction, processTransaction,
      processDeposit, settle. run. reflexivity.
  - split; [reflexivity|].
    unfold statusOf. simpl.
    rewrite (find_setStatus (next_id w) REJECTED _ _ Ht). reflexivity.
Qed.

Lemma deposit_without_wallet_is_rejected_witness :
  exists w',
    createTransaction atPar 9
      (mkTransactionRequest DEPOSIT USDT 25 None None None) ledger0
    = (Ok tt, w') /\
    wallets w' = wallets ledger0 /\
    statusOf 10 w' = Some REJECTED.
Proof.
  exact (deposit_without_wallet_is_rejected atPar 9 USDT 25 ledger0
           eq_refl eq_refl eq_refl).
Defined.
(** ** Exchanges *)

(** X8: exchanging an asset for itself credits without debiting.  Both legs
    are computed from the one balance read at the start, and the credit is
    written last: with a store that answers every query the wallet ends at
    its balance plus the converted amount less the fee, the debit being
    overwritten. *)
Theorem exchange_into_same_asset_overwrites_debit
    (convertCrypto : Q -> Asset -> Asset -> Q)
    (u : UserId) (a : Asset) (amount : Q) (w : World) (x : Wallet) :
  quiet w ->
  walletOf u a w = Some x ->
  amount <= w_balance x ->
  exists w',
    processExchange convertCrypto u a a amount w = (Ok true, w') /\
    balanceOf u a w' =
    w_balance x + amount * convertCrypto 1 a a * (1 - (1 # 1000)).
Proof.
  intros Hq Hx Hle.
  destruct (walletOf_find_id _ _ _ _ Hx) as [y Hy].
  destruct (find_id_setBalance (w_id x) (w_id x) (w_balance x - amount)
              (wallets w) y Hy) as [y' Hy'].
  assert (Hx' := Hx). unfold walletOf in Hx'.
  assert (H1 : Qltb (w_balance x) amount = false) by (apply Qltb_false; lra).
  eexists. split.
  - unfold processExchange. run. reflexivity.
  - unfold balanceOf, walletOf. simpl.
    rewrite !filter_updateWhere by reflexivity. unfold findAsset.
    rewrite !find_map_inv
      by (intros r; destruct (w_id r =? w_id x)%nat; reflexivity).
    fold (findAsset a (filter (fun x0 => w_user x0 =? u)%nat (wallets w))).
    rewrite Hx'. simpl. rewrite Nat.eqb_refl. simpl.
    rewrite Nat.eqb_refl. reflexivity.
Qed.

Lemma exchange_into_same_asset_overwrites_debit_witness :
  exists w',
    processExchange atPar 7 USDT USDT 40 ledger0 = (Ok true, w') /\
    balanceOf 7 USDT w' = 100 + 40 * atPar 1 USDT USDT * (1 - (1 # 1000)).
Proof.
  apply (exchange_into_same_asset_overwrites_debit atPar 7 USDT 40 ledger0
           (mkWallet 1 7 USDT 100)); try reflexivity.
  vm_compute. intros E. discriminate E.
Defined.

(** X9: an EXCHANGE submitted through [createTransaction] with a store that
    answers every query, between two different assets of which the user
    holds wallets, for an amount of at least the minimum of the source asset
    and at most its balance: the source is debited by the amount, the
    destination credited by the converted amount less 0.1%, and the
    transaction recorded under the next row id is COMPLETED. *)
Theorem exchange_submission_completes
    (convertCrypto : Q -> Asset -> Asset -> Q)
    (u : UserId) (fromAsset toAsset : Asset) (amount : Q) (w : World)
    (xf xt : Wallet) :
  quiet w ->
  uniqueWalletIds w ->
  freshTransactionId w ->
  fromAsset <> toAsset ->
  walletOf u fromAsset w = Some xf ->
  walletOf u toAsset w = Some xt ->
  minAmounts fromAsset <= amount ->
  amount <= w_balance xf ->
  exists w',
    createTransaction convertCrypto u
      (mkTransactionRequest EXCHANGE fromAsset amount (Some fromAsset)
         (Some toAsset) None) w = (Ok tt, w') /\
    balanceOf u fromAsset w' = w_balance xf - amount /\
    balanceOf u toAsset w' =
    w_balance xt + amount * convertCrypto 1 fromAsset toAsset * (1 - (1 # 1000))
    /\
    statusOf (next_id w) w' = Some COMPLETED.
Proof.
  intros Hq Hu Hfresh Hne Hf Ht Hmin Hle.
  destruct (walletOf_find_id _ _ _ _ Hf) as [yf Hyf].
  destruct (walletOf_find_id _ _ _ _ Ht) as [yt Hyt].
  destruct (find_id_setBalance (w_id xf) (w_id xt) (w_balance xf - amount)
              (wallets w) yt Hyt) as [yt' Hyt'].
  assert (Hft := distinct_wallets_distinct_ids u fromAsset toAsset w
                   xf xt Hu Hf Ht Hne).
  assert (Htf : (w_id xf =? w_id xt)%nat = false)
    by (rewrite Nat.eqb_sym; exact Hft).
  assert (Hf' := Hf). assert (Ht' := Ht). unfold walletOf in Hf', Ht'.
  assert (H1 : Qltb (w_balance xf) amount = false) by (apply Qltb_false; lra).
  assert (H2 : Qltb amount (minAmounts fromAsset) = false)
    by (apply Qltb_false; lra).
  assert (Htx := find_fresh_app (fun t => t_id t =? next_id w)%nat
                   (transactions w)
                   (mkTransaction (next_id w) u EXCHANGE fromAsset amount
                      PENDING (Some fromAsset) (Some toAsset) None)
                   Hfresh (Nat.eqb_refl _)).
  eexists. split.
  - unfold createTransaction, validateTransaction, processTransaction,
      processExchange, settle. run. reflexivity.
  - unfold balanceOf, walletOf, statusOf. simpl.
    rewrite !filter_updateWhere by reflexivity. unfold findAsset.
    rewrite !find_map_inv
      by (intros r; destruct (w_id r =? w_id xf)%nat;
          destruct (w_id r =? w_id xt)%nat; reflexivity).
    fold (findAsset fromAsset
            (filter (fun x0 => w_user x0 =? u)%nat (wallets w))).
    fold (findAsset toAsset
            (filter (fun x0 => w_user x0 =? u)%nat (wallets w))).
    rewrite Hf', Ht'. simpl.
    rewrite !Nat.eqb_refl. simpl. rewrite Htf, Hft. simpl.
    rewrite ?Nat.eqb_refl.
    split; [reflexivity|]. split; [reflexivity|].
    rewrite (find_setStatus (next_id w) COMPLETED _ _ Htx). reflexivity.
Qed.

Lemma NoDup_sampleWallets : NoDup (map w_id sampleWallets).
Proof.
  simpl.
  repeat (constructor;
          [simpl; intros H;
           repeat (destruct H as [H|H]; [discriminate H|]); exact H|]).
  constructor.
Defined.

Lemma exchange_submission_completes_witness :
  exists w',
    createTransaction atPar 7 exchange10 ledger0 = (Ok tt, w') /\
    balanceOf 7 USDT w' = 100 - 10 /\
    balanceOf 7 BTC w' = 2 + 10 * atPar 1 USDT BTC * (1 - (1 # 1000)) /\
    statusOf 10 w' = Some COMPLETED.
Proof.
  apply (exchange_submission_completes atPar 7 USDT BTC 10 ledger0
           (mkWallet 1 7 USDT 100) (mkWallet 2 7 BTC 2));
    try reflexivity.
  - exact NoDup_sampleWallets.
  - intros E. discriminate E.
  - vm_compute. intros E. discriminate E.
  - vm_compute. intros E. discriminate E.
Defined.

(** X10: an EXCHANGE submitted without its source or its destination asset
    passes the validation, which looks at [request.asset] only: with a store
    that answers every query the call returns normally, the transaction is
    recorded and marked REJECTED, and no wallet changes. *)
Theorem exchange_without_assets_is_rejected
    (convertCrypto : Q -> Asset -> Asset -> Q)
    (u : UserId) (request : TransactionRequest) (w : World) (x : Wallet) :
  quiet w ->
  freshTransactionId w ->
  r_type request = EXCHANGE ->
  r_fromAsset request = None \/ r_toAsset request = None ->
  walletOf u (r_asset request) w = Some x ->
  minAmounts (r_asset request) <= r_amount request ->
  r_amount request <= w_balance x ->
  exists w',
    createTransaction convertCrypto u request w = (Ok tt, w') /\
    wallets w' = wallets w /\
    statusOf (next_id w) w' = Some REJECTED.
Proof.
  intros Hq Hfresh Hty Hnone Hx Hmin Hle.
  destruct request as [ty a amount fa ta pl]. simpl in *. subst ty.
  unfold walletOf in Hx.
  assert (H1 : Qltb (w_balance x) amount = false) by (apply Qltb_false; lra).
  assert (H2 : Qltb amount (minAmounts a) = false)
    by (apply Qltb_false; lra).
  assert (Htx := find_fresh_app (fun t => t_id t =? next_id w)%nat
                   (transactions w)
                   (mkTransaction (next_id w) u EXCHANGE a amount PENDING
                      fa ta pl)
                   Hfresh (Nat.eqb_refl _)).
  assert (Hcases : fa = None \/ exists f, fa = Some f /\ ta = None).
  { destruct fa as [f|]; [right | left; reflexivity].
    destruct Hnone as [E|E]; [discriminate E|]. eauto. }
  destruct Hcases as [E|[f [E1 E2]]]; subst;
    (eexists; split;
     [unfold createTransaction, validateTransaction, processTransaction,
        settle; run; reflexivity
     |split; [reflexivity|];
      unfold statusOf; simpl;
      rewrite (find_setStatus (next_id w) REJECTED _ _ Htx); reflexivity]).
Qed.

Lemma exchange_without_assets_is_rejected_witness :
  exists w',
    createTransaction atPar 7
      (mkTransactionRequest EXCHANGE USDT 10 None (Some BTC) None) ledger0
    = (Ok tt, w') /\
    wallets w' = wallets ledger0 /\
    statusOf 10 w' = Some REJECTED.
Proof.
  apply (exchange_without_assets_is_rejected atPar 7
           (mkTransactionRequest EXCHANGE USDT 10 None (Some BTC) None)
           ledger0 (mkWallet 1 7 USDT 100)); try reflexivity.
  - left. reflexivity.
  - vm_compute. intros E. discriminate E.
  - vm_compute. intros E. discriminate E.
Defined.
(** ** The value of a portfolio *)

Lemma fold_left_usdValue (getCurrentRates : Asset -> option Rate)
    (ws : list Wallet) :
  forall acc,
    fold_left (fun total wallet => total + wb_usdValue wallet)
      (map (fun wallet =>
              mkWalletBalance (w_asset wallet) (w_balance wallet)
                (w_balance wallet * priceOf getCurrentRates (w_asset wallet))
                (changeOf getCurrentRates (w_asset wallet))) ws) acc
    == acc + valueOf getCurrentRates ws.
Proof.
  induction ws as [|x ws IH]; intros acc; simpl.
  - lra.
  - rewrite IH. lra.
Qed.

Lemma getTotalPortfolioValue_quiet (getCurrentRates : Asset -> option Rate)
    (u : UserId) (w : World) :
  quiet w ->
  exists v,
    getTotalPortfolioValue getCurrentRates u w = (Ok v, w) /\
    v == valueOf getCurrentRates
           (filter (fun x => w_user x =? u)%nat (wallets w)).
Proof.
  intros Hq. eexists. split.
  - unfold getTotalPortfolioValue, getUserWalletBalances. run. reflexivity.
  - rewrite fold_left_usdValue. lra.
Qed.

Lemma map_untouched (i : RowId) (b : Q) (l : list Wallet) :
  (forall r, In r l -> w_id r <> i) ->
  map (fun r => if (w_id r =? i)%nat then withBalance b r else r) l = l.
Proof.
  induction l as [|y l IH]; intros H; simpl; [reflexivity|].
  rewrite (proj2 (Nat.eqb_neq _ _) (H y (or_introl eq_refl))).
  rewrite IH; [reflexivity|]. intros r Hr. apply H. right. exact Hr.
Qed.

Lemma valueOf_setBalance (getCurrentRates : Asset -> option Rate) (b : Q)
    (x : Wallet) (l : list Wallet) :
  NoDup (map w_id l) ->
  In x l ->
  valueOf getCurrentRates
    (map (fun r => if (w_id r =? w_id x)%nat then withBalance b r else r) l)
  == valueOf getCurrentRates l
     + (b - w_balance x) * priceOf getCurrentRates (w_asset x).
Proof.
  induction l as [|y l IH]; intros Hnd Hin; [contradiction|].
  inversion Hnd as [|? ? Hnotin Hnd']; subst.
  destruct (w_id y =? w_id x)%nat eqn:E.
  - apply Nat.eqb_eq in E.
    assert (Hxy : x = y).
    { destruct Hin as [Hin|Hin]; [symmetry; exact Hin|].
      exfalso. apply Hnotin. rewrite E. apply in_map. exact Hin. }
    subst y. cbn [map]. rewrite Nat.eqb_refl.
    rewrite map_untouched.
    + simpl. lra.
    + intros r Hr Er. apply Hnotin. rewrite <- Er. apply in_map. exact Hr.
  - assert (Hin' : In x l).
    { destruct Hin as [Hin|Hin]; [|exact Hin].
      subst y. rewrite Nat.eqb_refl in E. discriminate E. }
    cbn [map]. rewrite E. simpl. rewrite (IH Hnd' Hin'). lra.
Qed.

(** The wallets of one user have unique ids when all the wallets have. *)
Lemma uniqueWalletIds_of_user (u : UserId) (ws : list Wallet) :
  NoDup (map w_id ws) ->
  NoDup (map w_id (filter (fun x => w_user x =? u)%nat ws)).
Proof.
  intros Hnd. induction ws as [|x ws IH]; [exact Hnd|].
  apply NoDup_cons_iff in Hnd. destruct Hnd as [Hfresh Hrest].
  cbn [filter]. destruct (w_user x =? u)%nat; [|exact (IH Hrest)].
  cbn [map]. apply NoDup_cons; [|exact (IH Hrest)].
  intros Hin. apply Hfresh.
  apply in_map_iff in Hin. destruct Hin as [z [Ez Hz]].
  apply in_map_iff. exists z. split; [exact Ez|].
  exact (proj1 (proj1 (filter_In _ _ _) Hz)).
Qed.

(** X11: a deposit raises the value of the portfolio by the amount at the
    price of the asset.  With a store that answers every query and wallets
    with unique ids, [getTotalPortfolioValue] after a DEPOSIT of [amount]
    in an asset the user holds is its value before plus [amount] times the
    price of that asset, an asset without rate counting for 0. *)
Theorem deposit_raises_portfolio_value
    (getCurrentRates : Asset -> option Rate)
    (convertCrypto : Q -> Asset -> Asset -> Q)
    (u : UserId) (a : Asset) (amount : Q) (w : World) (x : Wallet) :
  quiet w ->
  uniqueWalletIds w ->
  freshTransactionId w ->
  walletOf u a w = Some x ->
  exists w' v v',
    createTransaction convertCrypto u
      (mkTransactionRequest DEPOSIT a amount None None None) w = (Ok tt, w') /\
    getTotalPortfolioValue getCurrentRates u w = (Ok v, w) /\
    getTotalPortfolioValue getCurrentRates u w' = (Ok v', w') /\
    v' == v + amount * priceOf getCurrentRates a.
Proof.
  intros Hq Hu Hfresh Hx.
  destruct (walletOf_find_id _ _ _ _ Hx) as [y Hy].
  assert (Hx' := Hx). unfold walletOf in Hx'.
  assert (Ht := find_fresh_app (fun t => t_id t =? next_id w)%nat
                  (transactions w)
                  (mkTransaction (next_id w) u DEPOSIT a amount PENDING
                     None None None) Hfresh (Nat.eqb_refl _)).
  destruct (getTotalPortfolioValue_quiet getCurrentRates u w Hq)
    as [v [Hv Ev]].
  eexists. exists v.
  match goal with
  | |- exists v', ?run = (Ok tt, ?w') /\ _ =>
      assert (Hrun : run = (Ok tt, w'))
  end.
  { unfold createTransaction, validateTransaction, processTransaction,
      processDeposit, settle. run. reflexivity. }
  match type of Hrun with
  | _ = (Ok tt, ?w') =>
      destruct (getTotalPortfolioValue_quiet getCurrentRates u w' Hq)
        as [v' [Hv' Ev']]
  end.
  exists v'. split; [exact Hrun|]. split; [exact Hv|]. split; [exact Hv'|].
  rewrite Ev', Ev. simpl.
  rewrite filter_updateWhere by reflexivity.
  destruct (walletOf_In _ _ _ _ Hx) as [Hin [Hxu Hxa]].
  rewrite valueOf_setBalance.
  - rewrite Hxa. lra.
  - apply uniqueWalletIds_of_user. exact Hu.
  - apply filter_In. split; [exact Hin|]. apply Nat.eqb_eq. exact Hxu.
Qed.

Lemma deposit_raises_portfolio_value_witness :
  exists w' v v',
    createTransaction atPar 7
      (mkTransactionRequest DEPOSIT BTC 3 None None None) ledger0
    = (Ok tt, w') /\
    getTotalPortfolioValue sampleRates 7 ledger0 = (Ok v, ledger0) /\
    getTotalPortfolioValue sampleRates 7 w' = (Ok v', w') /\
    v' == v + 3 * priceOf sampleRates BTC.
Proof.
  exact (deposit_raises_portfolio_value sampleRates atPar 7 BTC 3 ledger0
           (mkWallet 2 7 BTC 2) eq_refl NoDup_sampleWallets eq_refl eq_refl).
Defined.
(** ** The administrator's decisions *)

Lemma returns_approveWithdrawal (txid : RowId) (admin : UserId) :
  returns (approveWithdrawal txid admin).
Proof.
  intros w. unfold approveWithdrawal, try_catch.
  match goal with
  | |- context [match ?m w with _ => _ end] => destruct (m w) as [[b|e] w1]
  end; unfold ret; eauto.
Qed.

Lemma returns_rejectWithdrawal (txid : RowId) (admin : UserId) :
  returns (rejectWithdrawal txid admin).
Proof.
  intros w. unfold rejectWithdrawal, try_catch.
  match goal with
  | |- context [match ?m w with _ => _ end] => destruct (m w) as [[b|e] w1]
  end; unfold ret; eauto.
Qed.

(** X12: on a withdrawal, the administrator's [approveTransaction] and
    [rejectTransaction] are [approveWithdrawal] and [rejectWithdrawal]:
    with a store that answers every query they return the same result and
    leave the same world. *)
Theorem admin_decision_on_withdrawal
    (txid : RowId) (admin : UserId) (w : World) (t : Transaction) :
  quiet w ->
  find (fun t => t_id t =? txid)%nat (transactions w) = Some t ->
  t_type t = WITHDRAW ->
  approveTransaction txid admin w = approveWithdrawal txid admin w /\
  rejectTransaction txid admin w = rejectWithdrawal txid admin w.
Proof.
  intros Hq Ht Hty. split.
  - destruct (returns_approveWithdrawal txid admin w) as [b [w1 E]].
    unfold approveTransaction, try_catch, bind, db.selectTransaction,
      bind, roundTrip, gets, ret.
    rewrite Hq. simpl. rewrite Ht, Hty, E. reflexivity.
  - destruct (returns_rejectWithdrawal txid admin w) as [b [w1 E]].
    unfold rejectTransaction, try_catch, bind, db.selectTransaction,
      bind, roundTrip, gets, ret.
    rewrite Hq. simpl. rewrite Ht, Hty, E. reflexivity.
Qed.

Lemma admin_decision_on_withdrawal_witness :
  approveTransaction 10 1 ledger1 = approveWithdrawal 10 1 ledger1 /\
  rejectTransaction 10 1 ledger1 = rejectWithdrawal 10 1 ledger1.
Proof.
  exact (admin_decision_on_withdrawal 10 1 ledger1
           (mkTransaction 10 7 WITHDRAW USDT 50 PENDING None None None)
           eq_refl eq_refl eq_refl).
Defined.

(** X13: on any other kind of transaction the administrator's decision only
    rewrites the status, whatever it was.  With a store that answers every
    query, [approveTransaction] marks a DEPOSIT, EXCHANGE or INVEST
    transaction COMPLETED and [rejectTransaction] marks it REJECTED, also
    when it had already been COMPLETED or REJECTED, and no wallet
    changes. *)
Theorem admin_decision_overwrites_status
    (txid : RowId) (admin : UserId) (w : World) (t : Transaction) :
  quiet w ->
  find (fun t => t_id t =? txid)%nat (transactions w) = Some t ->
  t_type t <> WITHDRAW ->
  (exists w',
      approveTransaction txid admin w = (Ok true, w') /\
      statusOf txid w' = Some COMPLETED /\ wallets w' = wallets w) /\
  (exists w',
      rejectTransaction txid admin w = (Ok true, w') /\
      statusOf txid w' = Some REJECTED /\ wallets w' = wallets w).
Proof.
  intros Hq Ht Hty.
  split; eexists; (split; [|split; [apply (statusOf_setStatus txid _ w t Ht)
                                   |reflexivity]]);
    unfold approveTransaction, rejectTransaction;
    destruct (t_type t) eqn:E; try (exfalso; apply Hty; reflexivity);
    run; rewrite E; run; reflexivity.
Qed.

Lemma admin_decision_overwrites_status_witness :
  let settled :=
    mkWorld sampleWallets
      [mkTransaction 10 9 DEPOSIT USDT 25 REJECTED None None None] [] [] 11 []
  in
  (exists w',
      approveTransaction 10 1 settled = (Ok true, w') /\
      statusOf 10 w' = Some COMPLETED /\ wallets w' = wallets settled) /\
  (exists w',
      rejectTransaction 10 1 settled = (Ok true, w') /\
      statusOf 10 w' = Some REJECTED /\ wallets w' = wallets settled).
Proof.
  apply (admin_decision_overwrites_status 10 1 _
           (mkTransaction 10 9 DEPOSIT USDT 25 REJECTED None None None));
    try reflexivity.
  intros E. discriminate E.
Defined.
(** ** Adjusting a wallet *)

Lemma max0_nonneg (x : Q) : 0 <= max0 x.
Proof.
  unfold max0. destruct (Qltb x 0) eqn:E; [lra|].
  apply Qltb_false in E. exact E.
Qed.

(** X14: [adjustUserWallet] keeps the invariant of the ledger when it
    subtracts, whatever the amount and whatever the store does, because the
    new balance is clamped at 0; when it adds, it keeps it for amounts that
    are not negative. *)
Theorem adjustUserWallet_keeps_balances_non_negative
    (u : UserId) (a : Asset) (amount : Q) (type : AdjustType)
    (admin : UserId) (w : World) :
  type = SUBTRACT \/ 0 <= amount ->
  Inv w ->
  Inv (snd (adjustUserWallet u a amount type admin w)).
Proof.
  intros Hok Hw.
  assert (H : keeps Inv (adjustUserWallet u a amount type admin) anything).
  { unfold adjustUserWallet.
    apply keeps_try_catch; [|intros; apply keeps_ret; exact Logic.I].
    eapply keeps_bind; [apply keeps_getUserWallets|]. intros l Hl.
    destruct (findAsset a l) as [x|] eqn:E; [|apply keeps_ret; exact Logic.I].
    assert (Hx := findAsset_Forall _ _ _ _ Hl E). simpl in Hx.
    eapply keeps_bind.
    - apply keeps_updateWalletBalance.
      destruct type; [|apply max0_nonneg].
      destruct Hok as [Hok|Hok]; [discriminate Hok | lra].
    - intros _ _. eapply keeps_bind; [apply keeps_db_createTransaction|].
      intros _ _. apply keeps_ret. exact Logic.I. }
  exact (proj1 (H w Hw)).
Qed.

Lemma adjustUserWallet_keeps_balances_non_negative_witness :
  Inv (snd (adjustUserWallet 7 USDT 250 SUBTRACT 1 ledgerCreditFails)).
Proof.
  apply adjustUserWallet_keeps_balances_non_negative.
  - left. reflexivity.
  - split; [|split; constructor].
    repeat constructor; vm_compute; discriminate.
Defined.

(** X15: a subtraction larger than the balance empties the wallet and is
    recorded in full.  With a store that answers every query,
    [adjustUserWallet] with SUBTRACT leaves [max(0, balance - amount)] in
    the wallet, reports success and records a COMPLETED WITHDRAW
    transaction of the whole [amount], also when less than [amount] was
    there to take. *)
Theorem adjustUserWallet_subtract_clamps
    (u : UserId) (a : Asset) (amount : Q) (admin : UserId) (w : World)
    (x : Wallet) :
  quiet w ->
  walletOf u a w = Some x ->
  exists w',
    adjustUserWallet u a amount SUBTRACT admin w = (Ok true, w') /\
    balanceOf u a w' = max0 (w_balance x - amount) /\
    (w_balance x < amount -> balanceOf u a w' = 0) /\
    transactions w' =
    transactions w ++
    [mkTransaction (next_id w) u WITHDRAW a amount COMPLETED None None None].
Proof.
  intros Hq Hx.
  destruct (walletOf_find_id _ _ _ _ Hx) as [y Hy].
  assert (Hx' := Hx). unfold walletOf in Hx'.
  eexists. split.
  - unfold adjustUserWallet. run. reflexivity.
  - assert (Hb : balanceOf u a
                   (setWallets
                      (updateWhere (fun y0 => w_id y0 =? w_id x)%nat
                         (withBalance (max0 (w_balance x - amount)))
                         (wallets w)) w)
                 = max0 (w_balance x - amount))
      by (apply balanceOf_setBalance; exact Hx).
    unfold balanceOf, walletOf in *. simpl in *.
    split; [exact Hb|]. split; [|reflexivity].
    intros Hlt. rewrite Hb. unfold max0.
    assert (E : Qltb (w_balance x - amount) 0 = true)
      by (apply Qltb_true; lra).
    rewrite E. reflexivity.
Qed.

Lemma adjustUserWallet_subtract_clamps_witness :
  exists w',
    adjustUserWallet 7 USDT 250 SUBTRACT 1 ledger0 = (Ok true, w') /\
    balanceOf 7 USDT w' = max0 (100 - 250) /\
    (100 < 250 -> balanceOf 7 USDT w' = 0) /\
    transactions w' =
    [mkTransaction 10 7 WITHDRAW USDT 250 COMPLETED None None None].
Proof.
  exact (adjustUserWallet_subtract_clamps 7 USDT 250 1 ledger0
           (mkWallet 1 7 USDT 100) eq_refl eq_refl).
Defined.

(** X16: adjusting the wallet of a user who holds none of the asset returns
    [false] and writes nothing, whatever the store does. *)
Theorem adjustUserWallet_without_wallet
    (u : UserId) (a : Asset) (amount : Q) (type : AdjustType)
    (admin : UserId) (w : World) :
  walletOf u a w = None ->
  exists w',
    adjustUserWallet u a amount type admin w = (Ok false, w') /\
    sameTables w w'.
Proof.
  intros Hx. unfold walletOf in Hx.
  unfold adjustUserWallet, db.getUserWallets, try_catch, bind, roundTrip,
    gets, ret.
  destruct (faults w) as [|[|] fs]; simpl; try rewrite Hx;
    eexists; (split; [reflexivity | repeat split]).
Qed.

Lemma adjustUserWallet_without_wallet_witness :
  exists w',
    adjustUserWallet 9 USDT 5 ADD 1 ledger0 = (Ok false, w') /\
    sameTables ledger0 w'.
Proof.
  exact (adjustUserWallet_without_wallet 9 USDT 5 ADD 1 ledger0 eq_refl).
Defined.

(** ** The queue of pending transactions *)

Lemma getPendingTransactions_quiet (w : World) :
  quiet w ->
  getPendingTransactions w
  = (Ok (rev (filter isPending (transactions w))), w).
Proof.
  intros Hq. unfold getPendingTransactions. run_more. reflexivity.
Qed.

Lemma filter_pending_setStatus (txid : RowId) (st : TxStatus)
    (ts : list Transaction) :
  st <> PENDING ->
  filter isPending
    (updateWhere (fun y => t_id y =? txid)%nat (withStatus st) ts)
  = filter (fun t => negb (t_id t =? txid)%nat) (filter isPending ts).
Proof.
  intros Hst. unfold updateWhere.
  induction ts as [|t ts IH]; simpl; [reflexivity|].
  destruct (t_id t =? txid)%nat eqn:E.
  - unfold isPending at 1. simpl.
    destruct st; [exfalso; apply Hst; reflexivity| |];
      (rewrite IH; destruct (isPending t); simpl; [rewrite E|]; reflexivity).
  - rewrite IH. destruct (isPending t); simpl; [rewrite E|]; reflexivity.
Qed.

Lemma filter_absent_id (i : RowId) (ts : list Transaction) :
  find (fun t => t_id t =? i)%nat ts = None ->
  filter (fun t => negb (t_id t =? i)%nat) (filter isPending ts)
  = filter isPending ts.
Proof.
  induction ts as [|t ts IH]; simpl; intros H; [reflexivity|].
  destruct (t_id t =? i)%nat eqn:E; [discriminate H|].
  destruct (isPending t); simpl; [rewrite E|]; rewrite (IH H); reflexivity.
Qed.

(** X17: the queue of [getPendingTransactions] follows the two phases of a
    withdrawal.  With a store that answers every query: a valid WITHDRAW
    submission puts its transaction at the head of the queue, before all
    those that were pending; approving it (the balance covering amount and
    fee) or rejecting it removes the rows of that id from the queue and
    leaves the others in place. *)
Theorem pending_queue_follows_withdrawals
    (convertCrypto : Q -> Asset -> Asset -> Q)
    (u : UserId) (a : Asset) (amount : Q) (admin : UserId) (w : World)
    (x : Wallet) :
  quiet w ->
  freshTransactionId w ->
  walletOf u a w = Some x ->
  minAmounts a <= amount ->
  amount + getNetworkFee a <= w_balance x ->
  exists queue w1 w2 w3,
    getPendingTransactions w = (Ok queue, w) /\
    createTransaction convertCrypto u
      (mkTransactionRequest WITHDRAW a amount None None None) w = (Ok tt, w1)
    /\
    getPendingTransactions w1 =
    (Ok (mkTransaction (next_id w) u WITHDRAW a amount PENDING None None None
         :: queue), w1) /\
    approveWithdrawal (next_id w) admin w1 = (Ok true, w2) /\
    getPendingTransactions w2 = (Ok queue, w2) /\
    rejectWithdrawal (next_id w) admin w1 = (Ok true, w3) /\
    getPendingTransactions w3 = (Ok queue, w3).
Proof.
  intros Hq Hfresh Hx Hmin Hfunded.
  assert (Hfee := getNetworkFee_pos a).
  set (t := mkTransaction (next_id w) u WITHDRAW a amount PENDING
              None None None).
  set (w1 := setNextId (S (next_id w))
               (setTransactions (transactions w ++ [t]) w)).
  assert (Ht : find (fun t0 => t_id t0 =? next_id w)%nat (transactions w1)
               = Some t)
    by (apply find_fresh_app; [exact Hfresh | apply Nat.eqb_refl]).
  assert (Hq1 : quiet w1) by exact Hq.
  assert (Hx1 : walletOf (t_user t) (t_asset t) w1 = Some x) by exact Hx.
  assert (Hold := filter_absent_id (next_id w) (transactions w) Hfresh).
  assert (Hqueue : forall st, st <> PENDING ->
            rev (filter isPending
                   (updateWhere (fun y => t_id y =? next_id w)%nat
                      (withStatus st) (transactions w1)))
            = rev (filter isPending (transactions w))).
  { intros st Hst. rewrite filter_pending_setStatus by exact Hst.
    unfold w1. simpl. rewrite !filter_app. simpl.
    rewrite Nat.eqb_refl. simpl. rewrite app_nil_r. rewrite Hold.
    reflexivity. }
  exists (rev (filter isPending (transactions w))), w1.
  eexists. eexists.
  split; [apply getPendingTransactions_quiet; exact Hq|].
  split; [apply createTransaction_withdraw with (x := x);
          [exact Hq | exact Hx | exact Hmin | lra]|].
  split.
  { rewrite (getPendingTransactions_quiet w1 Hq1). unfold w1. simpl.
    rewrite filter_app, rev_app_distr. reflexivity. }
  split; [apply approveWithdrawal_funded with (t := t) (x := x);
          [exact Hq1 | exact Ht | reflexivity | exact Hx1 | exact Hfunded]|].
  split.
  { rewrite getPendingTransactions_quiet by exact Hq.
    apply (f_equal (fun q => (Ok q, _))).
    apply (Hqueue COMPLETED). discriminate. }
  split; [apply rejectWithdrawal_pending with (t := t);
          [exact Hq1 | exact Ht | reflexivity]|].
  rewrite getPendingTransactions_quiet by exact Hq.
  apply (f_equal (fun q => (Ok q, _))).
  apply (Hqueue REJECTED). discriminate.
Qed.

Lemma pending_queue_follows_withdrawals_witness :
  exists queue w1 w2 w3,
    getPendingTransactions ledger0 = (Ok queue, ledger0) /\
    createTransaction atPar 7 withdraw50 ledger0 = (Ok tt, w1) /\
    getPendingTransactions w1 =
    (Ok (mkTransaction 10 7 WITHDRAW USDT 50 PENDING None None None :: queue),
     w1) /\
    approveWithdrawal 10 1 w1 = (Ok true, w2) /\
    getPendingTransactions w2 = (Ok queue, w2) /\
    rejectWithdrawal 10 1 w1 = (Ok true, w3) /\
    getPendingTransactions w3 = (Ok queue, w3).
Proof.
  apply (pending_queue_follows_withdrawals atPar 7 USDT 50 1 ledger0
           (mkWallet 1 7 USDT 100)); try reflexivity.
  - vm_compute. intros E. discriminate E.
  - vm_compute. intros E. discriminate E.
Defined.
(** ** Refused investments *)

Lemma validateInvestment_reads (u : UserId) (request : InvestmentRequest)
    (w : World) :
  exists v w',
    validateInvestment u request w = (Ok v, w') /\ sameTables w w'.
Proof.
  unfold validateInvestment, db.selectActivePlan, try_catch, bind, roundTrip,
    gets, ret.
  destruct (faults w) as [|[|] fs]; simpl;
    try (destruct (find _ _) as [p|]);
    try (destruct (Qltb (ir_amount request) (p_min_amount p)));
    try (destruct (exceedsMax (ir_amount request) (p_max_amount p)));
    do 2 eexists; (split; [reflexivity | repeat split]).
Qed.

(** X18: an investment refused by the checks has written nothing.  Whatever
    the store does, when [createInvestment] reports a failure other than
    the two that follow the creation of the transaction, every table is as
    it was. *)
Theorem createInvestment_refusal_writes_nothing
    (convertCrypto : Q -> Asset -> Asset -> Q)
    (u : UserId) (request : InvestmentRequest) (now : Z) (w : World)
    (e : InvestError) (w' : World) :
  createInvestment convertCrypto u request now w = (Ok (InvestFailure e), w') ->
  e <> FailedToCreateInvestmentTransaction ->
  e <> FailedToCreateInvestment ->
  sameTables w w'.
Proof.
  intros Hrun Hne1 Hne2. revert Hrun.
  unfold createInvestment, try_catch. unfold bind at 1.
  destruct (validateInvestment_reads u request w) as [v [w1 [E1 Hs1]]].
  rewrite E1. destruct v as [plan|e0].
  - unfold bind at 1.
    destruct (getUserWallets_reads u w1) as [l [w2 [E2 [Hs2 _]]]].
    rewrite E2.
    assert (Hs : sameTables w w2) by (apply (sameTables_trans w w1 w2); auto).
    destruct (findAsset (ir_asset request) l) as [x|].
    + destruct (Qltb (w_balance x) (ir_amount request)).
      * unfold ret. intros H. inversion H. subst. exact Hs.
      * unfold bind.
        destruct (createTransaction convertCrypto u _ w2) as [[[]|e1] w3];
          simpl; unfold ret; intros H; inversion H; subst; congruence.
    + unfold ret. intros H. inversion H. subst. exact Hs.
  - unfold ret. intros H. inversion H. subst. exact Hs1.
Qed.

Lemma createInvestment_refusal_writes_nothing_witness :
  sameTables ledgerWithPlan
    (snd (createInvestment atPar 7 (mkInvestmentRequest 1 50 USDT) 0
            ledgerWithPlan)).
Proof.
  apply (createInvestment_refusal_writes_nothing atPar 7
           (mkInvestmentRequest 1 50 USDT) 0 ledgerWithPlan
           (MinimumInvestmentAmount 100)).
  - reflexivity.
  - intros E. discriminate E.
  - intros E. discriminate E.
Defined.

Lemma createInvestment_without_plan
    (convertCrypto : Q -> Asset -> Asset -> Q)
    (u : UserId) (request : InvestmentRequest) (now : Z) (w : World) :
  quiet w ->
  find (fun p => (p_id p =? ir_planId request)%nat && p_is_active p)
    (plans w) = None ->
  createInvestment convertCrypto u request now w
  = (Ok (InvestFailure PlanNotFoundOrInactive), w).
Proof.
  intros Hq Hp. unfold createInvestment, validateInvestment. run.
  reflexivity.
Qed.

(** X19: the reason [createInvestment] reports.  With a store that answers
    every query, in this order: no active plan of that id gives "Plan not
    found or inactive"; an amount below the minimum of the plan gives the
    minimum; an amount above a maximum that is neither null nor 0 gives the
    maximum; a missing wallet or a balance below the amount gives
    "Insufficient balance".  The bounds themselves are accepted, and in
    each case the world is left as it was. *)
Theorem createInvestment_reports_reason
    (convertCrypto : Q -> Asset -> Asset -> Q)
    (u : UserId) (request : InvestmentRequest) (now : Z) (w : World) :
  quiet w ->
  let found :=
    find (fun p => (p_id p =? ir_planId request)%nat && p_is_active p)
      (plans w) in
  (found = None ->
   createInvestment convertCrypto u request now w
   = (Ok (InvestFailure PlanNotFoundOrInactive), w)) /\
  (forall p,
      found = Some p ->
      ir_amount request < p_min_amount p ->
      createInvestment convertCrypto u request now w
      = (Ok (InvestFailure (MinimumInvestmentAmount (p_min_amount p))), w)) /\
  (forall p m,
      found = Some p ->
      p_min_amount p <= ir_amount request ->
      p_max_amount p = Some m ->
      ~ m == 0 ->
      m < ir_amount request ->
      createInvestment convertCrypto u request now w
      = (Ok (InvestFailure (MaximumInvestmentAmount m)), w)) /\
  (forall p,
      found = Some p ->
      p_min_amount p <= ir_amount request ->
      (forall m, p_max_amount p = Some m -> ~ m == 0 ->
                 ir_amount request <= m) ->
      (forall x, walletOf u (ir_asset request) w = Some x ->
                 w_balance x < ir_amount request) ->
      createInvestment convertCrypto u request now w
      = (Ok (InvestFailure InsufficientBalanceToInvest), w)).
Proof.
  intros Hq found. unfold found. clear found.
  split; [|split; [|split]].
  - apply createInvestment_without_plan. exact Hq.
  - intros p Hp Hlt. apply Qltb_true in Hlt.
    unfold createInvestment, validateInvestment. run. reflexivity.
  - intros p m Hp Hmin Hmax Hnz Hgt.
    assert (H1 : Qltb (ir_amount request) (p_min_amount p) = false)
      by (apply Qltb_false; exact Hmin).
    assert (H2 : exceedsMax (ir_amount request) (p_max_amount p) = true).
    { rewrite Hmax. unfold exceedsMax, Qnonzero, Qgtb.
      apply andb_true_iff. split.
      - apply negb_true_iff. destruct (Qeq_bool m 0) eqn:E; [|reflexivity].
        exfalso. apply Hnz. apply Qeq_bool_iff. exact E.
      - apply Qltb_true. exact Hgt. }
    unfold createInvestment, validateInvestment. run. reflexivity.
  - intros p Hp Hmin Hmax Hbal.
    assert (H1 : Qltb (ir_amount request) (p_min_amount p) = false)
      by (apply Qltb_false; exact Hmin).
    assert (H2 : exceedsMax (ir_amount request) (p_max_amount p) = false).
    { unfold exceedsMax. destruct (p_max_amount p) as [m|]; [|reflexivity].
      unfold Qnonzero, Qgtb.
      destruct (Qeq_bool m 0) eqn:E; [reflexivity|]. simpl.
      apply Qltb_false. apply (Hmax m eq_refl).
      intros Em. apply Qeq_bool_iff in Em. congruence. }
    unfold walletOf in Hbal.
    unfold createInvestment, validateInvestment. run.
    destruct (findAsset (ir_asset request) _) as [x|] eqn:Ex;
      [|reflexivity].
    assert (H3 : Qltb (w_balance x) (ir_amount request) = true)
      by (apply Qltb_true; apply Hbal; reflexivity).
    rewrite H3. reflexivity.
Qed.

Lemma createInvestment_reports_reason_witness :
  createInvestment atPar 7 (mkInvestmentRequest 2 500 USDT) 0 ledgerWithPlan
  = (Ok (InvestFailure PlanNotFoundOrInactive), ledgerWithPlan) /\
  createInvestment atPar 7 (mkInvestmentRequest 1 50 USDT) 0 ledgerWithPlan
  = (Ok (InvestFailure (MinimumInvestmentAmount 100)), ledgerWithPlan) /\
  createInvestment atPar 7 (mkInvestmentRequest 1 5000 USDT) 0 ledgerWithPlan
  = (Ok (InvestFailure (MaximumInvestmentAmount 1000)), ledgerWithPlan) /\
  createInvestment atPar 7 (mkInvestmentRequest 1 1000 USDT) 0 ledgerWithPlan
  = (Ok (InvestFailure InsufficientBalanceToInvest), ledgerWithPlan).
Proof.
  split; [|split; [|split]].
  - apply (proj1 (createInvestment_reports_reason atPar 7
                    (mkInvestmentRequest 2 500 USDT) 0 ledgerWithPlan
                    eq_refl)).
    reflexivity.
  - apply (proj1 (proj2 (createInvestment_reports_reason atPar 7
                           (mkInvestmentRequest 1 50 USDT) 0 ledgerWithPlan
                           eq_refl)) starterPlan);
      reflexivity.
  - apply (proj1 (proj2 (proj2 (createInvestment_reports_reason atPar 7
                           (mkInvestmentRequest 1 5000 USDT) 0 ledgerWithPlan
                           eq_refl))) starterPlan 1000);
      try reflexivity; vm_compute; intros E; discriminate E.
  - apply (proj2 (proj2 (proj2 (createInvestment_reports_reason atPar 7
                           (mkInvestmentRequest 1 1000 USDT) 0 ledgerWithPlan
                           eq_refl))) starterPlan).
    + reflexivity.
    + vm_compute. intros E. discriminate E.
    + intros m Em _. inversion Em. subst m. vm_compute. intros E.
      discriminate E.
    + intros x Ex. inversion Ex. subst x. reflexivity.
Defined.
(** ** Plans *)

Lemma In_insertByMinAmount (p q : Plan) (ps : list Plan) :
  In q (insertByMinAmount p ps) <-> q = p \/ In q ps.
Proof.
  induction ps as [|r ps IH]; simpl.
  - split; intros [H|H]; auto.
  - destruct (Qle_bool (p_min_amount p) (p_min_amount r)); simpl.
    + split; intros [H|H]; auto.
    + rewrite IH. split; intros H; intuition.
Qed.

Lemma In_orderByMinAmount (q : Plan) (ps : list Plan) :
  In q (orderByMinAmount ps) <-> In q ps.
Proof.
  induction ps as [|p ps IH]; simpl; [reflexivity|].
  rewrite In_insertByMinAmount, IH. split; intros [H|H]; auto.
Qed.

Lemma find_the_only {A} (f : A -> bool) (l : list A) (x : A) :
  In x l -> f x = true ->
  (forall y, In y l -> f y = true -> y = x) ->
  find f l = Some x.
Proof.
  intros Hin Hx Honly.
  destruct (find f l) as [y|] eqn:E.
  - apply find_some in E. destruct E as [Hy Hfy].
    rewrite (Honly y Hy Hfy). reflexivity.
  - exfalso. apply (find_none _ _ E) in Hin. congruence.
Qed.

Lemma find_nowhere {A} (f : A -> bool) (l : list A) :
  (forall y, In y l -> f y = false) -> find f l = None.
Proof.
  intros H. destruct (find f l) as [y|] eqn:E; [|reflexivity].
  apply find_some in E. destruct E as [Hy Hfy].
  rewrite (H y Hy) in Hfy. discriminate Hfy.
Qed.

(** X20: [getInvestmentPlan] returns plans on offer only.  Whatever the store
    does, a plan it returns is a row of the table of plans, has the id
    asked for, and is active. *)
Theorem getInvestmentPlan_returns_active_plan
    (planId : RowId) (w : World) (p : Plan) (w' : World) :
  getInvestmentPlan planId w = (Ok (Some p), w') ->
  In p (plans w) /\ p_id p = planId /\ p_is_active p = true.
Proof.
  assert (Hfound : forall ps,
            find (fun q => p_id q =? planId)%nat
              (orderByMinAmount (filter p_is_active ps)) = Some p ->
            In p ps /\ p_id p = planId /\ p_is_active p = true).
  { intros ps E. apply find_some in E. destruct E as [Hin Hid].
    apply (proj1 (In_orderByMinAmount _ _)) in Hin. apply filter_In in Hin.
    destruct Hin as [Hin Hact]. apply Nat.eqb_eq in Hid. auto. }
  unfold getInvestmentPlan, db.getActivePlans, try_catch, bind, roundTrip,
    gets, ret.
  destruct (faults w) as [|[|] fs]; simpl; intros H.
  - apply Hfound. congruence.
  - discriminate H.
  - apply Hfound. congruence.
Qed.

Lemma getInvestmentPlan_returns_active_plan_witness :
  In starterPlan (plans ledgerWithPlan) /\
  p_id starterPlan = 1%nat /\ p_is_active starterPlan = true.
Proof.
  exact (getInvestmentPlan_returns_active_plan 1 ledgerWithPlan starterPlan
           ledgerWithPlan eq_refl).
Defined.

(** X21: a plan that was created can be looked up.  With a store that answers
    every query and no plan yet under the next row id, [createPlan] returns
    an active plan with the terms given, numbered with that id, and
    [getInvestmentPlan] of that id then returns this very plan. *)
Theorem created_plan_is_on_offer
    (duration : Z) (apy min_amount : Q) (max_amount : option Q) (w : World) :
  quiet w ->
  freshPlanId w ->
  let p := mkPlan (next_id w) duration apy min_amount max_amount true in
  exists w',
    createPlan duration apy min_amount max_amount w = (Ok (Some p), w') /\
    getInvestmentPlan (next_id w) w' = (Ok (Some p), w').
Proof.
  intros Hq Hfresh p. eexists. split.
  - unfold createPlan. run_more. reflexivity.
  - unfold getInvestmentPlan. run_more.
    rewrite (find_the_only (fun q => p_id q =? next_id w)%nat _ p).
    + reflexivity.
    + apply In_orderByMinAmount. apply filter_In. split; [|reflexivity].
      apply in_or_app. right. left. reflexivity.
    + apply Nat.eqb_refl.
    + intros q Hq' Hid. apply (proj1 (In_orderByMinAmount _ _)) in Hq'.
      apply filter_In in Hq'. destruct Hq' as [Hq' _].
      apply in_app_or in Hq'. destruct Hq' as [Hq'|[Hq'|[]]].
      * exfalso. apply (Hfresh q Hq'). apply Nat.eqb_eq. exact Hid.
      * symmetry. exact Hq'.
Qed.

Lemma created_plan_is_on_offer_witness :
  exists w',
    createPlan 35 8.2 1000 (Some 10000) ledger0
    = (Ok (Some (mkPlan 10 35 8.2 1000 (Some 10000) true)), w') /\
    getInvestmentPlan 10 w'
    = (Ok (Some (mkPlan 10 35 8.2 1000 (Some 10000) true)), w').
Proof.
  apply (created_plan_is_on_offer 35 8.2 1000 (Some 10000) ledger0).
  - reflexivity.
  - intros p [].
Defined.

(** The list of plans, cheapest first. *)
Lemma insertByMinAmount_sorted (p : Plan) (ps : list Plan) :
  cheapestFirst ps -> cheapestFirst (insertByMinAmount p ps).
Proof.
  induction ps as [|q ps IH]; intros Hs; simpl.
  - split; constructor.
  - destruct Hs as [Hall Hs'].
    destruct (Qle_bool (p_min_amount p) (p_min_amount q)) eqn:E.
    + apply Qle_bool_iff in E. split; [|split; assumption].
      constructor; [exact E|].
      apply Forall_forall. intros r Hr.
      apply (Qle_trans _ (p_min_amount q)); [exact E|].
      revert r Hr. apply Forall_forall. exact Hall.
    + assert (Hqp : p_min_amount q <= p_min_amount p).
      { destruct (Qlt_le_dec (p_min_amount q) (p_min_amount p)) as [H|H];
          [apply Qlt_le_weak; exact H|].
        apply Qle_bool_iff in H. congruence. }
      simpl. split; [|apply IH; exact Hs'].
      apply Forall_forall. intros r Hr.
      apply (proj1 (In_insertByMinAmount _ _ _)) in Hr.
      destruct Hr as [Hr|Hr].
      * subst r. exact Hqp.
      * revert r Hr. apply Forall_forall. exact Hall.
Qed.

Lemma insertByMinAmount_length (p : Plan) (ps : list Plan) :
  length (insertByMinAmount p ps) = S (length ps).
Proof.
  induction ps as [|q ps IH]; simpl; [reflexivity|].
  destruct (Qle_bool _ _); simpl; [reflexivity | rewrite IH; reflexivity].
Qed.

(** X22: [getAvailablePlans] lists the plans on offer, cheapest first.  It
    never throws; every plan it lists is an active row of the table, and
    the list is in order of minimum amount.  When the query succeeds the
    list holds every active plan of the table, as many as there are; when
    the query errors the list is empty. *)
Theorem getAvailablePlans_lists_active_plans (w : World) :
  exists l w',
    getAvailablePlans w = (Ok l, w') /\
    (forall p, In p l -> In p (plans w) /\ p_is_active p = true) /\
    cheapestFirst l /\
    (hd false (faults w) = false ->
     (forall p, In p (plans w) -> p_is_active p = true -> In p l) /\
     length l = length (filter p_is_active (plans w))) /\
    (hd false (faults w) = true -> l = []).
Proof.
  assert (Hsorted : forall ps, cheapestFirst (orderByMinAmount ps)).
  { induction ps as [|p ps IH]; simpl; [exact Logic.I|].
    apply insertByMinAmount_sorted. exact IH. }
  assert (Hlen : forall ps, length (orderByMinAmount ps) = length ps).
  { induction ps as [|p ps IH]; simpl; [reflexivity|].
    rewrite insertByMinAmount_length, IH. reflexivity. }
  assert (Hactive : forall p,
            In p (orderByMinAmount (filter p_is_active (plans w))) ->
            In p (plans w) /\ p_is_active p = true).
  { intros p Hp. apply (proj1 (In_orderByMinAmount _ _)) in Hp.
    apply filter_In in Hp. exact Hp. }
  assert (Hall : forall p, In p (plans w) -> p_is_active p = true ->
            In p (orderByMinAmount (filter p_is_active (plans w)))).
  { intros p Hin Hact. apply In_orderByMinAmount. apply filter_In. auto. }
  unfold getAvailablePlans, db.getActivePlans, try_catch, bind, roundTrip,
    gets, ret.
  destruct (faults w) as [|[|] fs]; simpl.
  - do 2 eexists. split; [reflexivity|].
    split; [exact Hactive|]. split; [apply Hsorted|]. split.
    + intros _. split; [exact Hall | apply Hlen].
    + intros H. discriminate H.
  - do 2 eexists. split; [reflexivity|].
    split; [intros p []|]. split; [exact Logic.I|]. split.
    + intros H. discriminate H.
    + intros _. reflexivity.
  - do 2 eexists. split; [reflexivity|].
    split; [exact Hactive|]. split; [apply Hsorted|]. split.
    + intros _. split; [exact Hall | apply Hlen].
    + intros H. discriminate H.
Qed.

Lemma getAvailablePlans_lists_active_plans_witness :
  (exists l w',
      getAvailablePlans ledgerWithPlan = (Ok l, w') /\
      length l = 1%nat) /\
  (exists w',
      getAvailablePlans (setFaults [true] ledgerWithPlan) = (Ok [], w')).
Proof.
  split.
  - destruct (getAvailablePlans_lists_active_plans ledgerWithPlan)
      as [l [w' [E [_ [_ [H _]]]]]].
    exists l, w'. split; [exact E|]. exact (proj2 (H eq_refl)).
  - destruct (getAvailablePlans_lists_active_plans
                (setFaults [true] ledgerWithPlan))
      as [l [w' [E [_ [_ [_ H]]]]]].
    exists w'. rewrite <- (H eq_refl). exact E.
Defined.

Lemma deactivated_nowhere (pid : RowId) (ps : list Plan) (q : Plan) :
  In q (updateWhere (fun y => p_id y =? pid)%nat (applyPlanUpdate deactivate)
          ps) ->
  p_is_active q = true ->
  (p_id q =? pid)%nat = false.
Proof.
  unfold updateWhere. rewrite in_map_iff. intros [q0 [E Hin]] Hact.
  destruct (p_id q0 =? pid)%nat eqn:Eid; subst q.
  - simpl in Hact. discriminate Hact.
  - exact Eid.
Qed.

Lemma owed_after_deactivation (u : UserId) (pid : RowId) (ps : list Plan)
    (ss : list Subscription) :
  owed u
    (map (db.joinPlan
            (updateWhere (fun y => p_id y =? pid)%nat
               (applyPlanUpdate deactivate) ps)) ss)
  = owed u (map (db.joinPlan ps) ss).
Proof.
  induction ss as [|s ss IH]; simpl; [reflexivity|].
  rewrite IH. f_equal.
  destruct (s_user s =? u)%nat; [|reflexivity].
  unfold dailyEarningsOf, db.joinPlan. simpl.
  rewrite find_updateWhere by reflexivity.
  destruct (find _ ps) as [q|]; simpl; [|reflexivity].
  destruct (p_id q =? pid)%nat; reflexivity.
Qed.

(** X23: taking a plan off the offer stops new investments and nothing else.
    With a store that answers every query, after [updatePlan] has set
    [is_active] to false on a plan: [getInvestmentPlan] no longer finds it,
    every [createInvestment] in it is refused as "Plan not found or
    inactive" without a write, and the sweep goes on paying the
    subscriptions of that plan what it paid before. *)
Theorem deactivated_plan_keeps_paying
    (convertCrypto : Q -> Asset -> Asset -> Q)
    (pid : RowId) (w : World) (p : Plan) (u : UserId) (now : Z) (x : Wallet) :
  quiet w ->
  uniqueWalletIds w ->
  find (fun y => p_id y =? pid)%nat (plans w) = Some p ->
  walletOf u USDT w = Some x ->
  noneMatured now w ->
  exists w',
    updatePlan pid deactivate w = (Ok (Some (applyPlanUpdate deactivate p)), w')
    /\
    getInvestmentPlan pid w' = (Ok None, w') /\
    (forall u' request now',
        ir_planId request = pid ->
        createInvestment convertCrypto u' request now' w'
        = (Ok (InvestFailure PlanNotFoundOrInactive), w')) /\
    balanceOf u USDT (snd (processEarnings now w')) ==
    w_balance x + owed u (activeRows w).
Proof.
  intros Hq Hu Hp Hx Hm.
  eexists. split; [apply updatePlan_quiet; assumption|].
  set (ps' := updateWhere (fun y => p_id y =? pid)%nat
                (applyPlanUpdate deactivate) (plans w)).
  set (w' := setPlans ps' w).
  assert (Hq' : quiet w') by exact Hq.
  split; [|split].
  - unfold getInvestmentPlan. run_more.
    rewrite find_nowhere; [reflexivity|].
    intros q Hin. apply (proj1 (In_orderByMinAmount _ _)) in Hin.
    apply filter_In in Hin. destruct Hin as [Hin Hact].
    apply (deactivated_nowhere pid (plans w) q Hin Hact).
  - intros u' request now' Hid.
    apply (createInvestment_without_plan convertCrypto u' request now' w'
             Hq').
    apply find_nowhere. intros q Hin. simpl in Hin.
    destruct (p_is_active q) eqn:Hact; [|apply andb_false_r].
    rewrite Hid. rewrite (deactivated_nowhere pid (plans w) q Hin Hact).
    reflexivity.
  - destruct (sweep_once u now w' x Hq' Hu Hx Hm)
      as [w1 [x1 [Hrun [_ [_ [_ [_ [Hx1 Hb1]]]]]]]].
    rewrite Hrun. simpl. unfold balanceOf. rewrite Hx1, Hb1.
    unfold activeRows, w'. simpl. unfold ps'.
    rewrite owed_after_deactivation. reflexivity.
Qed.

Lemma deactivated_plan_keeps_paying_witness :
  exists w',
    updatePlan 1 deactivate accruing
    = (Ok (Some (applyPlanUpdate deactivate vipPlan)), w') /\
    getInvestmentPlan 1 w' = (Ok None, w') /\
    (forall u' request now',
        ir_planId request = 1%nat ->
        createInvestment atPar u' request now' w'
        = (Ok (InvestFailure PlanNotFoundOrInactive), w')) /\
    balanceOf 7 USDT (snd (processEarnings day w')) ==
    100 + owed 7 (activeRows accruing).
Proof.
  apply (deactivated_plan_keeps_paying atPar 1 accruing vipPlan 7 day
           (mkWallet 1 7 USDT 100)); try reflexivity.
  - exact NoDup_sampleWallets.
  - intros s [E|[]] _. subst s. reflexivity.
Defined.

(** ** The sweep and the running totals *)

Lemma unique_subscription (ss : list Subscription) (a b : Subscription) :
  NoDup (map s_id ss) -> In a ss -> In b ss -> s_id a = s_id b -> a = b.
Proof.
  induction ss as [|z ss IH]; simpl; intros Hnd Ha Hb E; [contradiction|].
  inversion Hnd as [|? ? Hnotin Hnd']; subst.
  destruct Ha as [Ha|Ha], Hb as [Hb|Hb]; subst.
  - reflexivity.
  - exfalso. apply Hnotin. rewrite E. apply in_map. exact Hb.
  - exfalso. apply Hnotin. rewrite <- E. apply in_map. exact Ha.
  - apply IH; assumption.
Qed.

Lemma updateWhere_nothing {A} (sel : A -> bool) (f : A -> A) (l : list A) :
  find sel l = None -> updateWhere sel f l = l.
Proof.
  unfold updateWhere. induction l as [|a l IH]; simpl; [reflexivity|].
  destruct (sel a); [discriminate|]. intros H. rewrite IH by exact H.
  reflexivity.
Qed.

Lemma accrue_subscriptions (now : Z) (s : Subscription) (p : option Plan)
    (w : World) :
  quiet w ->
  (s_end_date s <=? now)%Z = false ->
  exists w',
    accrue now (s, p) w = (Ok tt, w') /\
    quiet w' /\
    plans w' = plans w /\
    subscriptions w' = writeTotal (s, p) (subscriptions w).
Proof.
  intros Hq Hend. destruct p as [p|].
  2:{ exists w. repeat split; assumption || reflexivity. }
  unfold writeTotal. simpl snd. simpl fst.
  destruct (find (fun y => s_id y =? s_id s)%nat (subscriptions w))
    as [s0|] eqn:Hs.
  - destruct (findAsset USDT
                (filter (fun x => w_user x =? s_user s)%nat (wallets w)))
      as [x|] eqn:Hx.
    + destruct (find (fun z => w_id z =? w_id x)%nat (wallets w))
        as [y|] eqn:Hy;
        unfold accrue; run; eexists; (split; [reflexivity|]); simpl;
        repeat split; try assumption; reflexivity.
    + unfold accrue; run; eexists; (split; [reflexivity|]); simpl;
        repeat split; try assumption; reflexivity.
  - rewrite (updateWhere_nothing _ _ _ Hs).
    destruct (findAsset USDT
                (filter (fun x => w_user x =? s_user s)%nat (wallets w)))
      as [x|] eqn:Hx.
    + destruct (find (fun z => w_id z =? w_id x)%nat (wallets w))
        as [y|] eqn:Hy;
        unfold accrue; run; eexists; (split; [reflexivity|]); simpl;
        repeat split; try assumption; reflexivity.
    + unfold accrue; run; eexists; (split; [reflexivity|]); simpl;
        repeat split; try assumption; reflexivity.
Qed.

Lemma sweep_subscriptions_rows (now : Z)
    (rows : list (Subscription * option Plan)) :
  forall w : World,
    quiet w ->
    (forall row, In row rows -> (s_end_date (fst row) <=? now)%Z = false) ->
    exists w',
      for_of rows (accrue now) w = (Ok tt, w') /\
      quiet w' /\
      plans w' = plans w /\
      subscriptions w' =
      fold_left (fun ss row => writeTotal row ss) rows (subscriptions w).
Proof.
  induction rows as [|[s p] rows IH]; intros w Hq Hrows.
  - exists w. repeat split; assumption || reflexivity.
  - destruct (accrue_subscriptions now s p w Hq
                (Hrows (s, p) (or_introl eq_refl)))
      as [w1 [Hrun1 [Hq1 [Hp1 Hs1]]]].
    destruct (IH w1 Hq1 (fun row Hin => Hrows row (or_intror Hin)))
      as [w2 [Hrun2 [Hq2 [Hp2 Hs2]]]].
    exists w2. split.
    { cbn [for_of]. unfold bind at 1. rewrite Hrun1. exact Hrun2. }
    split; [exact Hq2|]. split; [congruence|].
    rewrite Hs2, Hs1. reflexivity.
Qed.

Lemma visited_id (ps : list Plan) (s : Subscription) :
  s_id (visited ps s) = s_id s.
Proof. unfold visited. destruct (snd _); reflexivity. Qed.

Lemma partly_id (ps : list Plan) (done : list Subscription)
    (s : Subscription) :
  s_id (partly ps done s) = s_id s.
Proof.
  unfold partly. destruct (existsb _ _); [apply visited_id | reflexivity].
Qed.

Lemma writeTotal_one (ps : list Plan) (ss done : list Subscription)
    (r : Subscription) :
  NoDup (map s_id ss) ->
  In r ss ->
  writeTotal (db.joinPlan ps r) (map (partly ps done) ss)
  = map (partly ps (done ++ [r])) ss.
Proof.
  intros Hnd Hr. unfold writeTotal.
  destruct (snd (db.joinPlan ps r)) as [p|] eqn:Hp.
  - unfold updateWhere. rewrite map_map. apply map_ext_in. intros s Hs.
    rewrite partly_id. simpl fst. unfold partly at 3.
    rewrite existsb_app. simpl existsb. rewrite orb_false_r.
    rewrite (Nat.eqb_sym (s_id r) (s_id s)).
    destruct (s_id s =? s_id r)%nat eqn:E.
    + apply Nat.eqb_eq in E.
      assert (s = r) by (apply (unique_subscription ss); assumption).
      subst s. rewrite orb_true_r.
      unfold partly, visited, dailyEarningsOf. rewrite Hp.
      destruct (existsb _ done); reflexivity.
    + rewrite orb_false_r. reflexivity.
  - apply map_ext_in. intros s Hs. unfold partly.
    rewrite existsb_app. simpl existsb. rewrite orb_false_r.
    destruct (existsb _ done); [reflexivity|]. simpl.
    destruct (s_id r =? s_id s)%nat eqn:E; [|reflexivity].
    apply Nat.eqb_eq in E.
    assert (r = s) by (apply (unique_subscription ss); assumption).
    subst s. unfold visited. rewrite Hp. reflexivity.
Qed.

Lemma writeTotal_all (ps : list Plan) (ss : list Subscription) :
  NoDup (map s_id ss) ->
  forall rs done,
    incl rs ss ->
    fold_left (fun acc row => writeTotal row acc) (map (db.joinPlan ps) rs)
      (map (partly ps done) ss)
    = map (partly ps (done ++ rs)) ss.
Proof.
  intros Hnd. induction rs as [|r rs IH]; intros done Hincl.
  - rewrite app_nil_r. reflexivity.
  - cbn [map fold_left].
    rewrite (writeTotal_one ps ss done r Hnd (Hincl r (or_introl eq_refl))).
    rewrite IH by (intros a Ha; apply Hincl; right; exact Ha).
    rewrite <- app_assoc. reflexivity.
Qed.

Lemma partly_active (ps : list Plan) (ss : list Subscription) :
  NoDup (map s_id ss) ->
  map (partly ps (filter isActive ss)) ss = map (credited ps) ss.
Proof.
  intros Hnd. apply map_ext_in. intros s Hs. unfold partly, credited.
  destruct (isActive s) eqn:Ha.
  - assert (E : existsb (fun r => s_id r =? s_id s)%nat (filter isActive ss)
                = true).
    { apply existsb_exists. exists s. split.
      - apply filter_In. split; assumption.
      - apply Nat.eqb_refl. }
    rewrite E. reflexivity.
  - destruct (existsb (fun r => s_id r =? s_id s)%nat (filter isActive ss))
      eqn:E; [|reflexivity].
    apply existsb_exists in E. destruct E as [r [Hr E]].
    apply filter_In in Hr. destruct Hr as [Hr Hact].
    apply Nat.eqb_eq in E.
    assert (r = s) by (apply (unique_subscription ss); assumption).
    subst r. rewrite Ha in Hact. discriminate Hact.
Qed.

(** The subscriptions after a sweep. *)
Lemma sweep_subscriptions (now : Z) (w : World) :
  quiet w ->
  uniqueSubscriptionIds w ->
  noneMatured now w ->
  exists w',
    processEarnings now w = (Ok tt, w') /\
    quiet w' /\
    plans w' = plans w /\
    subscriptions w' = map (credited (plans w)) (subscriptions w).
Proof.
  intros Hq Hu Hm.
  destruct (sweep_subscriptions_rows now (activeRows w) w Hq
              (activeRows_unmatured now w Hm))
    as [w' [Hrun [Hq' [Hp Hs]]]].
  exists w'. split; [|split; [exact Hq'|split; [exact Hp|]]].
  - unfold processEarnings, try_catch, bind at 1.
    unfold db.selectActiveSubscriptions, bind at 1, roundTrip.
    rewrite Hq. simpl. fold (activeRows w). rewrite Hrun. reflexivity.
  - rewrite Hs. unfold activeRows. fold isActive.
    assert (E : subscriptions w = map (partly (plans w) []) (subscriptions w)).
    { unfold partly. simpl. symmetry. apply map_id. }
    rewrite E at 2.
    rewrite (writeTotal_all (plans w) (subscriptions w) Hu
               (filter isActive (subscriptions w)) []).
    + simpl. apply partly_active. exact Hu.
    + intros a Ha. apply filter_In in Ha. apply Ha.
Qed.

Lemma subscriptionOf_credited (ps : list Plan) (ss : list Subscription)
    (s : Subscription) :
  NoDup (map s_id ss) ->
  In s ss ->
  find (fun y => s_id y =? s_id s)%nat (map (credited ps) ss)
  = Some (credited ps s).
Proof.
  intros Hnd Hin.
  assert (Hid : forall y, s_id (credited ps y) = s_id y).
  { intros y. unfold credited. destruct (isActive y);
      [apply visited_id | reflexivity]. }
  induction ss as [|a ss IH]; [contradiction|].
  simpl. rewrite Hid.
  destruct (s_id a =? s_id s)%nat eqn:E.
  - apply Nat.eqb_eq in E.
    rewrite (unique_subscription (a :: ss) a s Hnd (or_introl eq_refl) Hin E).
    reflexivity.
  - destruct Hin as [Hin|Hin].
    + subst a. rewrite Nat.eqb_refl in E. discriminate E.
    + apply IH; [|exact Hin]. inversion Hnd. assumption.
Qed.

(** X24: the sweep records what it pays. With a store that answers every
    query, subscription ids that are unique and no ACTIVE subscription at
    its end date, one run of [processEarnings] leaves every subscription as
    it was but for the running total of the ACTIVE ones that have a plan,
    which grows by [amount * apy / 365 / 100]; a subscription that is not
    ACTIVE is not touched. *)
Theorem sweep_records_daily_earnings (now : Z) (w : World) :
  quiet w ->
  uniqueSubscriptionIds w ->
  noneMatured now w ->
  exists w',
    processEarnings now w = (Ok tt, w') /\
    plans w' = plans w /\
    length (subscriptions w') = length (subscriptions w) /\
    forall s,
      In s (subscriptions w) ->
      (forall p,
          isActive s = true ->
          find (fun p => p_id p =? s_plan_id s)%nat (plans w) = Some p ->
          subscriptionOf (s_id s) w'
          = Some (mkSubscription (s_id s) (s_user s) (s_plan_id s)
                    (s_amount s) (s_start_date s) (s_end_date s) (s_status s)
                    (s_total_earned s + s_amount s * (p_apy p / 365 / 100))))
      /\
      (isActive s = false \/
       find (fun p => p_id p =? s_plan_id s)%nat (plans w) = None ->
       subscriptionOf (s_id s) w' = Some s).
Proof.
  intros Hq Hu Hm.
  destruct (sweep_subscriptions now w Hq Hu Hm) as [w' [Hrun [_ [Hp Hs]]]].
  exists w'. split; [exact Hrun|]. split; [exact Hp|].
  split; [rewrite Hs; apply length_map|].
  intros s Hin. unfold subscriptionOf. rewrite Hs.
  rewrite (subscriptionOf_credited (plans w) (subscriptions w) s Hu Hin).
  unfold credited, visited, db.joinPlan. simpl snd. split.
  - intros p Ha Hfind. rewrite Ha, Hfind. reflexivity.
  - intros [Ha|Hfind].
    + rewrite Ha. reflexivity.
    + rewrite Hfind. destruct (isActive s); reflexivity.
Qed.

Lemma NoDup_twoSubscriptions : uniqueSubscriptionIds twoSubscriptions.
Proof.
  unfold uniqueSubscriptionIds. simpl.
  constructor; [simpl; intros [H|[]]; discriminate H|].
  constructor; [simpl; intros []|]. constructor.
Defined.

Lemma noneMatured_twoSubscriptions : noneMatured day twoSubscriptions.
Proof.
  intros s [E|[E|[]]] H; subst s; [reflexivity | discriminate H].
Defined.

Lemma sweep_records_daily_earnings_witness :
  exists w',
    processEarnings day twoSubscriptions = (Ok tt, w') /\
    subscriptionOf 1 w'
    = Some (mkSubscription 1 7 1 1000 0 (40 * day) ACTIVE
              (0 + 1000 * (p_apy vipPlan / 365 / 100))) /\
    subscriptionOf 2 w'
    = Some (mkSubscription 2 7 1 500 0 (40 * day) CANCELLED 3).
Proof.
  destruct (sweep_records_daily_earnings day twoSubscriptions eq_refl
              NoDup_twoSubscriptions noneMatured_twoSubscriptions)
    as [w' [Hrun [_ [_ H]]]].
  exists w'. split; [exact Hrun|]. split.
  - apply (proj1 (H (mkSubscription 1 7 1 1000 0 (40 * day) ACTIVE 0)
                    (or_introl eq_refl)) vipPlan); reflexivity.
  - apply (proj2 (H (mkSubscription 2 7 1 500 0 (40 * day) CANCELLED 3)
                    (or_intror (or_introl eq_refl)))).
    left. reflexivity.
Defined.

(** ** The statistics of the investments *)

Lemma getInvestmentStats_quiet (w : World) :
  quiet w ->
  getInvestmentStats w
  = (Ok (mkInvestmentStats (length (activeRows w))
           (fold_left (fun sum row => sum + s_amount (fst row))
              (activeRows w) 0)
           (fold_left (fun sum row => sum + s_total_earned (fst row))
              (activeRows w) 0)
           (match length (activeRows w) with
            | O => 0
            | S _ =>
                fold_left (fun sum row => sum + apyOf row) (activeRows w) 0
                / inject_Z (Z.of_nat (length (activeRows w)))
            end)), w).
Proof.
  intros Hq. unfold getInvestmentStats, try_catch, bind at 1.
  unfold db.selectActiveSubscriptions, bind at 1, roundTrip.
  rewrite Hq. simpl. reflexivity.
Qed.

Lemma credited_status (ps : list Plan) (s : Subscription) :
  isActive (credited ps s) = isActive s.
Proof.
  unfold credited, visited. destruct (isActive s) eqn:E; [|exact E].
  destruct (snd _); [|exact E]. exact E.
Qed.

Lemma filter_credited (ps : list Plan) (ss : list Subscription) :
  filter isActive (map (credited ps) ss)
  = map (visited ps) (filter isActive ss).
Proof.
  induction ss as [|s ss IH]; simpl; [reflexivity|].
  rewrite credited_status. destruct (isActive s) eqn:E; [|exact IH].
  simpl. rewrite IH. unfold credited. rewrite E. reflexivity.
Qed.

Lemma joinPlan_visited (ps : list Plan) (s : Subscription) :
  db.joinPlan ps (visited ps s) = (visited ps s, snd (db.joinPlan ps s)).
Proof.
  unfold visited, db.joinPlan. simpl.
  destruct (find (fun p => p_id p =? s_plan_id s)%nat ps) eqn:E;
    simpl; rewrite E; reflexivity.
Qed.

Lemma sum_unchanged (f : Subscription * option Plan -> Q) (ps : list Plan)
    (l : list Subscription) :
  (forall s, f (db.joinPlan ps (visited ps s)) = f (db.joinPlan ps s)) ->
  forall acc,
    fold_left (fun sum row => sum + f row)
      (map (db.joinPlan ps) (map (visited ps) l)) acc
    = fold_left (fun sum row => sum + f row) (map (db.joinPlan ps) l) acc.
Proof.
  intros Hf. induction l as [|s l IH]; intros acc; simpl; [reflexivity|].
  rewrite Hf. apply IH.
Qed.

Lemma sum_is (f : Subscription * option Plan -> Q)
    (rows : list (Subscription * option Plan)) :
  forall acc,
    fold_left (fun sum row => sum + f row) rows acc
    == acc + fold_right (fun row total => f row + total) 0 rows.
Proof.
  induction rows as [|r rows IH]; intros acc; simpl.
  - lra.
  - rewrite IH. lra.
Qed.

Lemma earned_after_visit (ps : list Plan) (l : list Subscription) :
  fold_right (fun row total => s_total_earned (fst row) + total) 0
    (map (db.joinPlan ps) (map (visited ps) l))
  == fold_right (fun row total => s_total_earned (fst row) + total) 0
       (map (db.joinPlan ps) l)
     + dueTo (map (db.joinPlan ps) l).
Proof.
  induction l as [|s l IH]; simpl.
  - lra.
  - rewrite IH. unfold visited, dailyEarningsOf, db.joinPlan. simpl.
    destruct (find _ ps); simpl; lra.
Qed.

(** X25: the statistics after a sweep. Under the conditions of the sweep
    above, [getInvestmentStats] reports after the sweep the same number of
    active investments, the same invested amount and the same average APY
    as before it, and earnings paid that have grown by the daily earnings
    of all the active subscriptions. *)
Theorem stats_after_sweep (now : Z) (w : World) :
  quiet w ->
  uniqueSubscriptionIds w ->
  noneMatured now w ->
  exists w' before after,
    processEarnings now w = (Ok tt, w') /\
    getInvestmentStats w = (Ok before, w) /\
    getInvestmentStats w' = (Ok after, w') /\
    totalActiveInvestments after = totalActiveInvestments before /\
    totalInvestedAmount after = totalInvestedAmount before /\
    averageAPY after = averageAPY before /\
    totalEarningsPaid after ==
    totalEarningsPaid before + dueTo (activeRows w).
Proof.
  intros Hq Hu Hm.
  destruct (sweep_subscriptions now w Hq Hu Hm) as [w' [Hrun [Hq' [Hp Hs]]]].
  exists w'. do 2 eexists.
  split; [exact Hrun|].
  split; [apply getInvestmentStats_quiet; exact Hq|].
  split; [apply getInvestmentStats_quiet; exact Hq'|].
  assert (Hrows : activeRows w'
                  = map (db.joinPlan (plans w))
                      (map (visited (plans w))
                         (filter isActive (subscriptions w)))).
  { unfold activeRows. rewrite Hp, Hs. fold isActive.
    rewrite filter_credited. reflexivity. }
  assert (Hlen : length (activeRows w') = length (activeRows w)).
  { rewrite Hrows. unfold activeRows. rewrite !length_map. reflexivity. }
  assert (Hapy : fold_left (fun sum row => sum + apyOf row) (activeRows w') 0
                 = fold_left (fun sum row => sum + apyOf row)
                     (activeRows w) 0).
  { rewrite Hrows. apply sum_unchanged. intros s.
    rewrite joinPlan_visited. reflexivity. }
  simpl. split; [exact Hlen|]. split; [|split].
  - rewrite Hrows.
    apply (sum_unchanged (fun row => s_amount (fst row))). intros s.
    rewrite joinPlan_visited. unfold visited, db.joinPlan. simpl.
    destruct (find _ (plans w)); reflexivity.
  - rewrite Hlen, Hapy. reflexivity.
  - rewrite (sum_is (fun row => s_total_earned (fst row)) (activeRows w') 0).
    rewrite (sum_is (fun row => s_total_earned (fst row)) (activeRows w) 0).
    rewrite Hrows. rewrite earned_after_visit. unfold activeRows.
    fold isActive. lra.
Qed.

Lemma stats_after_sweep_witness :
  exists w' before after,
    processEarnings day twoSubscriptions = (Ok tt, w') /\
    getInvestmentStats twoSubscriptions = (Ok before, twoSubscriptions) /\
    getInvestmentStats w' = (Ok after, w') /\
    totalActiveInvestments after = totalActiveInvestments before /\
    totalInvestedAmount after = totalInvestedAmount before /\
    averageAPY after = averageAPY before /\
    totalEarningsPaid after ==
    totalEarningsPaid before + dueTo (activeRows twoSubscriptions).
Proof.
  apply (stats_after_sweep day twoSubscriptions).
  - reflexivity.
  - exact NoDup_twoSubscriptions.
  - exact noneMatured_twoSubscriptions.
Defined.

(** * Withdrawals, exchanges, plan updates, cancellations and minimum
      amounts: the claims as the code has them *)

(** ** C3: the outcomes of an approval *)






(** ** C4: the cases of an exchange *)

(** The update of the destination wallet errors: the source stays debited
    and the call returns [true]. *)
Lemma processExchange_credit_fails (convertCrypto : Q -> Asset -> Asset -> Q)
    (u : UserId) (fromAsset toAsset : Asset) (amount : Q) (w : World)
    (xf xt : Wallet) (fs : list bool) :
  faults w = false :: false :: true :: fs ->
  walletOf u fromAsset w = Some xf ->
  walletOf u toAsset w = Some xt ->
  amount <= w_balance xf ->
  exists w',
    processExchange convertCrypto u fromAsset toAsset amount w
    = (Ok true, w') /\
    wallets w' =
    wallets (setWallets
               (updateWhere (fun y => w_id y =? w_id xf)%nat
                  (withBalance (w_balance xf - amount)) (wallets w)) w).
Proof.
  intros Hfaults Hf Ht Hle.
  destruct (walletOf_find_id _ _ _ _ Hf) as [yf Hyf].
  unfold walletOf in Hf, Ht.
  assert (H1 : Qltb (w_balance xf) amount = false) by (apply Qltb_false; lra).
  unfold processExchange. unfold_db. rewrite Hfaults. run.
  eexists. split; reflexivity.
Qed.

(** C4, as amended.  [processExchange] has no rollback.  Whatever the store
    does, when it returns [false] every wallet is as it was.  With a source
    balance that covers the amount, and wallets whose ids are unique:
    between two different assets of which the user holds wallets, and with
    a store that answers every query, it returns [true] with both legs
    applied, the source debited by the amount and the destination credited
    by the amount converted, less the fee of 0.1%; when instead the update
    of the destination wallet errors, it returns [true] all the same, with
    the source debited and the destination as it was; and from an asset
    into itself, with a store that answers every query, it returns [true]
    with the credit alone, which overwrites the debit. *)
Theorem exchange_legs
    (convertCrypto : Q -> Asset -> Asset -> Q)
    (u : UserId) (fromAsset toAsset : Asset) (amount : Q) (w : World) :
  (forall w', processExchange convertCrypto u fromAsset toAsset amount w
              = (Ok false, w') ->
              wallets w' = wallets w)
  /\
  (forall xf xt,
      quiet w ->
      uniqueWalletIds w ->
      fromAsset <> toAsset ->
      walletOf u fromAsset w = Some xf ->
      walletOf u toAsset w = Some xt ->
      amount <= w_balance xf ->
      exists w',
        processExchange convertCrypto u fromAsset toAsset amount w
        = (Ok true, w') /\
        balanceOf u fromAsset w' == w_balance xf - amount /\
        balanceOf u toAsset w' ==
        w_balance xt +
        amount * convertCrypto 1 fromAsset toAsset * (1 - (1 # 1000)))
  /\
  (forall xf xt fs,
      faults w = false :: false :: true :: fs ->
      uniqueWalletIds w ->
      fromAsset <> toAsset ->
      walletOf u fromAsset w = Some xf ->
      walletOf u toAsset w = Some xt ->
      amount <= w_balance xf ->
      exists w',
        processExchange convertCrypto u fromAsset toAsset amount w
        = (Ok true, w') /\
        balanceOf u fromAsset w' == w_balance xf - amount /\
        balanceOf u toAsset w' == w_balance xt)
  /\
  (forall x,
      quiet w ->
      fromAsset = toAsset ->
      walletOf u fromAsset w = Some x ->
      amount <= w_balance x ->
      exists w',
        processExchange convertCrypto u fromAsset toAsset amount w
        = (Ok true, w') /\
        balanceOf u fromAsset w' ==
        w_balance x +
        amount * convertCrypto 1 fromAsset toAsset * (1 - (1 # 1000))).
Proof.
  split; [|split; [|split]].
  - intros w'.
    unfold processExchange, db.getUserWallets, try_catch, bind, roundTrip,
      gets, ret, throw.
    destruct (faults w) as [|[|] fs]; simpl;
      try (intros H; inversion H; reflexivity);
      (destruct (findAsset fromAsset _) as [xf|]; simpl;
       [destruct (findAsset toAsset _) as [xt|]; simpl;
        [destruct (Qltb (w_balance xf) amount); simpl|]|];
       try (intros H; inversion H; reflexivity)).
    + destruct (returns_updateWalletBalance (w_id xf) (w_balance xf - amount) w)
        as [r1 [w1 E1]]. rewrite E1.
      destruct (returns_updateWalletBalance (w_id xt)
                  (w_balance xt +
                   amount * convertCrypto 1 fromAsset toAsset *
                   (1 - (1 # 1000))) w1) as [r2 [w2 E2]]. rewrite E2.
      discriminate.
    + destruct (returns_updateWalletBalance (w_id xf) (w_balance xf - amount)
                  (setFaults fs w)) as [r1 [w1 E1]]. rewrite E1.
      destruct (returns_updateWalletBalance (w_id xt)
                  (w_balance xt +
                   amount * convertCrypto 1 fromAsset toAsset *
                   (1 - (1 # 1000))) w1) as [r2 [w2 E2]]. rewrite E2.
      discriminate.
  - intros xf xt Hq Hu Hne Hf Ht Hle.
    eexists. split.
    + apply processExchange_both_legs; eassumption.
    + assert (Hft := distinct_wallets_distinct_ids u fromAsset toAsset w
                       xf xt Hu Hf Ht Hne).
      assert (Htf : (w_id xf =? w_id xt)%nat = false)
        by (rewrite Nat.eqb_sym; exact Hft).
      unfold balanceOf.
      change (setWallets
                (updateWhere (fun y => w_id y =? w_id xt)%nat ?f
                   (updateWhere (fun y => w_id y =? w_id xf)%nat ?g
                      (wallets w))) w)
        with (setWallets
                (updateWhere (fun y => w_id y =? w_id xt)%nat f
                   (wallets (setWallets
                      (updateWhere (fun y => w_id y =? w_id xf)%nat g
                         (wallets w)) w)))
                (setWallets
                   (updateWhere (fun y => w_id y =? w_id xf)%nat g
                      (wallets w)) w)).
      rewrite !walletOf_setBalance, Hf, Ht. simpl.
      rewrite !Nat.eqb_refl. simpl. rewrite Htf, Hft. simpl.
      rewrite Nat.eqb_refl. simpl. split; reflexivity.
  - intros xf xt fs Hfaults Hu Hne Hf Ht Hle.
    destruct (processExchange_credit_fails convertCrypto u fromAsset toAsset
                amount w xf xt fs Hfaults Hf Ht Hle) as [w' [Hrun Hw]].
    exists w'. split; [exact Hrun|].
    assert (Hft := distinct_wallets_distinct_ids u fromAsset toAsset w
                     xf xt Hu Hf Ht Hne).
    unfold balanceOf.
    rewrite !(walletOf_same_wallets _ _ _ w' Hw).
    rewrite !walletOf_setBalance, Hf, Ht. simpl.
    rewrite Nat.eqb_refl, Hft. simpl. split; reflexivity.
  - intros x Hq Hsame Hx Hle. subst toAsset.
    eexists. split.
    + apply processExchange_both_legs; eassumption.
    + unfold balanceOf.
      change (setWallets
                (updateWhere (fun y => w_id y =? w_id x)%nat ?f
                   (updateWhere (fun y => w_id y =? w_id x)%nat ?g
                      (wallets w))) w)
        with (setWallets
                (updateWhere (fun y => w_id y =? w_id x)%nat f
                   (wallets (setWallets
                      (updateWhere (fun y => w_id y =? w_id x)%nat g
                         (wallets w)) w)))
                (setWallets
                   (updateWhere (fun y => w_id y =? w_id x)%nat g
                      (wallets w)) w)).
      rewrite !walletOf_setBalance, Hx. simpl.
      rewrite !Nat.eqb_refl. simpl. reflexivity.
Qed.

Lemma exchange_legs_witness :
  (exists w',
      processExchange atPar 7 USDT BTC 10 ledger0 = (Ok true, w') /\
      balanceOf 7 USDT w' == 100 - 10 /\
      balanceOf 7 BTC w' == 2 + 10 * atPar 1 USDT BTC * (1 - (1 # 1000))) /\
  (exists w',
      processExchange atPar 7 USDT BTC 10 ledgerCreditFails = (Ok true, w') /\
      balanceOf 7 USDT w' == 100 - 10 /\
      balanceOf 7 BTC w' == 2) /\
  (exists w',
      processExchange atPar 7 USDT USDT 10 ledger0 = (Ok true, w') /\
      balanceOf 7 USDT w' ==
      100 + 10 * atPar 1 USDT USDT * (1 - (1 # 1000))).
Proof.
  assert (Hle : 10 <= 100) by (vm_compute; discriminate).
  split; [|split].
  - apply (proj1 (proj2 (exchange_legs atPar 7 USDT BTC 10 ledger0))
             (mkWallet 1 7 USDT 100) (mkWallet 2 7 BTC 2)).
    + reflexivity.
    + exact NoDup_sampleWallets.
    + intros E. discriminate E.
    + reflexivity.
    + reflexivity.
    + exact Hle.
  - apply (proj1 (proj2 (proj2
             (exchange_legs atPar 7 USDT BTC 10 ledgerCreditFails)))
             (mkWallet 1 7 USDT 100) (mkWallet 2 7 BTC 2) []).
    + reflexivity.
    + exact NoDup_sampleWallets.
    + intros E. discriminate E.
    + reflexivity.
    + reflexivity.
    + exact Hle.
  - apply (proj2 (proj2 (proj2 (exchange_legs atPar 7 USDT USDT 10 ledger0)))
             (mkWallet 1 7 USDT 100)).
    + reflexivity.
    + reflexivity.
    + reflexivity.
    + exact Hle.
Defined.

(** ** C7: the sweep after an update of the plan *)

(** C7, as amended.  A subscription row stores its end date and no rate, and
    updating a plan rewrites no subscription, whatever the store does.  The
    rate is read from the plan at each sweep.  With a store that answers
    every query, ids that are unique among the subscriptions, and no ACTIVE
    subscription at its end date: after the [apy] of a plan is set to [r],
    the next sweep adds principal * r / 365 / 100 to the running total of
    every ACTIVE subscription of that plan and changes nothing else in the
    row, its end date included; a subscription of the plan that is not
    ACTIVE is left as it is; and, the ids of the wallets being unique, the
    USDT wallet of a user who holds one is credited with the daily earnings
    of their ACTIVE subscriptions at the rates the plans have after the
    update. *)
Theorem plan_update_effect (pid : RowId) (upd : PlanUpdate) (w : World) :
  subscriptions (snd (updatePlan pid upd w)) = subscriptions w
  /\
  forall (p : Plan) (r : Q) (now : Z),
    quiet w ->
    uniqueSubscriptionIds w ->
    find (fun y => p_id y =? pid)%nat (plans w) = Some p ->
    pu_apy upd = Some r ->
    noneMatured now w ->
    exists w1 w2,
      updatePlan pid upd w = (Ok (Some (applyPlanUpdate upd p)), w1) /\
      processEarnings now w1 = (Ok tt, w2) /\
      (forall s,
          In s (subscriptions w) ->
          s_plan_id s = pid ->
          (isActive s = true ->
           subscriptionOf (s_id s) w2
           = Some (mkSubscription (s_id s) (s_user s) (s_plan_id s)
                     (s_amount s) (s_start_date s) (s_end_date s)
                     (s_status s)
                     (s_total_earned s + s_amount s * (r / 365 / 100))))
          /\
          (isActive s = false -> subscriptionOf (s_id s) w2 = Some s))
      /\
      (forall (u : UserId) (x : Wallet),
          uniqueWalletIds w ->
          walletOf u USDT w = Some x ->
          balanceOf u USDT w2 == w_balance x + owed u (activeRows w1)).
Proof.
  split.
  { unfold updatePlan, db.updatePlan, try_catch, bind, roundTrip, gets,
      modify, ret.
    destruct (faults w) as [|[|] fs]; simpl;
      try (destruct (find _ (plans w))); reflexivity. }
  intros p r now Hq Hus Hp Hr Hm.
  set (ps := updateWhere (fun y => p_id y =? pid)%nat (applyPlanUpdate upd)
               (plans w)).
  set (w1 := setPlans ps w).
  assert (Hq1 : quiet w1) by exact Hq.
  destruct (sweep_subscriptions now w1 Hq1 Hus Hm)
    as [w2 [Hrun [_ [_ Hsubs]]]].
  exists w1, w2.
  split; [apply updatePlan_quiet; assumption|].
  split; [exact Hrun|]. split.
  - intros s Hin Hpid. unfold subscriptionOf. rewrite Hsubs.
    change (subscriptions w1) with (subscriptions w).
    rewrite (subscriptionOf_credited (plans w1) (subscriptions w) s Hus Hin).
    unfold credited. split; intros Ha; rewrite Ha; [|reflexivity].
    assert (Hfind : find (fun y => p_id y =? s_plan_id s)%nat (plans w1)
                    = Some (applyPlanUpdate upd p)).
    { rewrite Hpid. change (plans w1) with ps. unfold ps.
      rewrite find_updateWhere by reflexivity. rewrite Hp. simpl.
      apply find_some in Hp. destruct Hp as [_ Hp]. rewrite Hp.
      reflexivity. }
    unfold visited, db.joinPlan. simpl snd.
    change (plans w1) with ps in Hfind. rewrite Hfind.
    unfold applySubscriptionUpdate, dailyEarningsOf. simpl. rewrite Hr.
    reflexivity.
  - intros u x Huw Hx.
    destruct (sweep_once u now w1 x Hq1 Huw Hx Hm)
      as [w2' [x1 [Hrun' [_ [_ [_ [_ [Hx1 Hb1]]]]]]]].
    assert (E : w2' = w2) by congruence. subst w2'.
    unfold balanceOf. rewrite Hx1. exact Hb1.
Qed.

Lemma plan_update_effect_witness :
  exists w1 w2,
    updatePlan 1 raiseRate twoSubscriptions
    = (Ok (Some (applyPlanUpdate raiseRate vipPlan)), w1) /\
    subscriptions w1 = subscriptions twoSubscriptions /\
    processEarnings day w1 = (Ok tt, w2) /\
    subscriptionOf 1 w2
    = Some (mkSubscription 1 7 1 1000 0 (40 * day) ACTIVE
              (0 + 1000 * (25 / 365 / 100))) /\
    subscriptionOf 2 w2
    = Some (mkSubscription 2 7 1 500 0 (40 * day) CANCELLED 3) /\
    balanceOf 7 USDT w2 == 100 + owed 7 (activeRows w1).
Proof.
  destruct (plan_update_effect 1 raiseRate twoSubscriptions)
    as [Hsame Hsweep].
  destruct (Hsweep vipPlan 25 day eq_refl NoDup_twoSubscriptions
              eq_refl eq_refl noneMatured_twoSubscriptions)
    as [w1 [w2 [Hupd [Hrun [Hrows Hpaid]]]]].
  exists w1, w2.
  split; [exact Hupd|].
  split.
  { replace w1 with (snd (updatePlan 1 raiseRate twoSubscriptions))
      by (rewrite Hupd; reflexivity).
    exact Hsame. }
  split; [exact Hrun|].
  split; [|split].
  - apply (proj1 (Hrows (mkSubscription 1 7 1 1000 0 (40 * day) ACTIVE 0)
                    (or_introl eq_refl) eq_refl)).
    reflexivity.
  - apply (proj2 (Hrows (mkSubscription 2 7 1 500 0 (40 * day) CANCELLED 3)
                    (or_intror (or_introl eq_refl)) eq_refl)).
    reflexivity.
  - exact (Hpaid 7%nat (mkWallet 1 7 USDT 100) NoDup_sampleWallets eq_refl).
Defined.

(** ** C8: the penalty for an early cancellation *)

(** Whole days since the start, in milliseconds: fewer than 30 days have
    passed when fewer than 30 * 86 400 000 ms have. *)
Lemma daysSinceStart_before_30 (now start : Z) :
  (now - start < 30 * (1000 * 60 * 60 * 24))%Z ->
  (daysSinceStart now start <? 30)%Z = true.
Proof.
  intros H. apply Z.ltb_lt. unfold daysSinceStart, msPerDay.
  apply Z.div_lt_upper_bound; lia.
Qed.

Lemma daysSinceStart_from_30 (now start : Z) :
  (30 * (1000 * 60 * 60 * 24) <= now - start)%Z ->
  (daysSinceStart now start <? 30)%Z = false.
Proof.
  intros H. apply Z.ltb_ge. unfold daysSinceStart, msPerDay.
  apply Z.div_le_lower_bound; lia.
Qed.

(** C8, as stated, fails on its last clause.  The source computes the
    penalty and the refund on binary64 numbers: for a principal of 12.4
    cancelled on day 29 the penalty is 0.6200000000000001 and the refund
    11.780000000000001, which add up to 12.400000000000002 and not to the
    principal. *)
#[warnings="-inexact-float"]
Lemma refund_plus_penalty_misses_principal :
  let refund :=
    fst (Binary64.refundAndPenalty principal_12_4
           (daysSinceStart (29 * day) 0)) in
  let penalty :=
    snd (Binary64.refundAndPenalty principal_12_4
           (daysSinceStart (29 * day) 0)) in
  daysSinceStart (29 * day) 0 = 29%Z /\
  penalty = 0.6200000000000001%float /\
  refund = 11.780000000000001%float /\
  (refund + penalty)%float = 12.400000000000002%float /\
  (refund + penalty =? principal_12_4)%float = false.
Proof.
  vm_compute. repeat split.
Qed.

(** C8, as amended.  With a store that answers every query, cancelling an
    ACTIVE subscription whose owner holds a USDT wallet succeeds and credits
    the refund to that wallet.  When fewer than 30 days of 86 400 000 ms
    have passed since the start date, day 29 included, the penalty is the
    principal times 0.05 and the refund is the principal less the penalty;
    from 30 days on, day 30 and day 31 included, the penalty is 0 and the
    refund is the principal.  The amounts are those of the ledger model,
    exact; the source rounds them as above. *)
Theorem cancellation_penalty_boundary
    (u : UserId) (sid : RowId) (now : Z) (w : World) (s : Subscription)
    (x : Wallet) :
  quiet w ->
  find (fun y => (s_id y =? sid)%nat && (s_user y =? u)%nat) (subscriptions w)
  = Some s ->
  s_status s = ACTIVE ->
  walletOf u USDT w = Some x ->
  exists w',
    cancelInvestment u sid now w = (Ok CancelSuccess, w') /\
    option_map s_status (subscriptionOf sid w') = Some CANCELLED /\
    ((now - s_start_date s < 30 * (1000 * 60 * 60 * 24))%Z ->
     snd (refundAndPenalty (s_amount s)
            (daysSinceStart now (s_start_date s)))
     = s_amount s * (5 # 100) /\
     balanceOf u USDT w'
     = w_balance x + (s_amount s - s_amount s * (5 # 100))) /\
    ((30 * (1000 * 60 * 60 * 24) <= now - s_start_date s)%Z ->
     snd (refundAndPenalty (s_amount s)
            (daysSinceStart now (s_start_date s)))
     = 0 /\
     balanceOf u USDT w' = w_balance x + s_amount s).
Proof.
  intros Hq Hs Hact Hx.
  destruct (cancelInvestment_quiet u sid now w s x Hq Hs Hact Hx)
    as [w' [Hrun [Hbal Hst]]].
  exists w'. split; [exact Hrun|]. split; [exact Hst|].
  rewrite Hbal. unfold refundAndPenalty. split; intros Hd.
  - rewrite (daysSinceStart_before_30 now (s_start_date s) Hd).
    split; reflexivity.
  - rewrite (daysSinceStart_from_30 now (s_start_date s) Hd).
    split; reflexivity.
Qed.

Lemma cancellation_penalty_boundary_witness :
  (exists w',
      cancelInvestment 7 1 (29 * day + 5) accruing = (Ok CancelSuccess, w') /\
      balanceOf 7 USDT w' = 100 + (1000 - 1000 * (5 # 100))) /\
  (exists w',
      cancelInvestment 7 1 (30 * day) accruing = (Ok CancelSuccess, w') /\
      balanceOf 7 USDT w' = 100 + 1000) /\
  (exists w',
      cancelInvestment 7 1 (31 * day) accruing = (Ok CancelSuccess, w') /\
      balanceOf 7 USDT w' = 100 + 1000).
Proof.
  split; [|split].
  - destruct (cancellation_penalty_boundary 7 1 (29 * day + 5) accruing
                (mkSubscription 1 7 1 1000 0 (40 * day) ACTIVE 0)
                (mkWallet 1 7 USDT 100) eq_refl eq_refl eq_refl eq_refl)
      as [w' [Hrun [_ [Hearly _]]]].
    exists w'. split; [exact Hrun|]. apply Hearly. reflexivity.
  - destruct (cancellation_penalty_boundary 7 1 (30 * day) accruing
                (mkSubscription 1 7 1 1000 0 (40 * day) ACTIVE 0)
                (mkWallet 1 7 USDT 100) eq_refl eq_refl eq_refl eq_refl)
      as [w' [Hrun [_ [_ Hlate]]]].
    exists w'. split; [exact Hrun|]. apply Hlate.
    intros E. discriminate E.
  - destruct (cancellation_penalty_boundary 7 1 (31 * day) accruing
                (mkSubscription 1 7 1 1000 0 (40 * day) ACTIVE 0)
                (mkWallet 1 7 USDT 100) eq_refl eq_refl eq_refl eq_refl)
      as [w' [Hrun [_ [_ Hlate]]]].
    exists w'. split; [exact Hrun|]. apply Hlate.
    intros E. discriminate E.
Defined.

(** ** C10: the minimum amounts and EXCHANGE *)

(** C10, as stated, fails twice.  On the kind of error: user 8 holds 3 USDT
    and submits an EXCHANGE of 5 USDT, below the minimum of 10; the request
    is refused for an insufficient balance, which is checked before the
    minimum.  On the asset: user 7 submits an EXCHANGE of 1 from USDT to
    BTC whose [asset] field is BTC; the amount is below the minimum of the
    source asset, 10 USDT, but it is compared with the minimum of
    [request.asset], 0.001 BTC, and the exchange is carried out: 1 USDT is
    debited and the transaction is COMPLETED. *)
Lemma exchange_minimum_is_not_on_source_asset :
  (r_type exchange5 = EXCHANGE /\
   r_amount exchange5 < minAmounts (r_asset exchange5) /\
   createTransaction atPar 8 exchange5 ledger0
   = (Throw InsufficientBalance, ledger0)) /\
  (r_type exchangeUsdtAsBtc = EXCHANGE /\
   r_fromAsset exchangeUsdtAsBtc = Some USDT /\
   r_amount exchangeUsdtAsBtc < minAmounts USDT /\
   fst (createTransaction atPar 7 exchangeUsdtAsBtc ledger0) = Ok tt /\
   balanceOf 7 USDT (snd (createTransaction atPar 7 exchangeUsdtAsBtc ledger0))
   == 100 - 1 /\
   statusOf 10 (snd (createTransaction atPar 7 exchangeUsdtAsBtc ledger0))
   = Some COMPLETED).
Proof.
  repeat split; reflexivity.
Qed.

(** C10, as amended.  The minimum amounts are enforced on EXCHANGE as on
    WITHDRAW, looked up by [request.asset].  An EXCHANGE or a WITHDRAW whose
    amount is below that minimum is refused by [createTransaction] whatever
    the store does: the call throws, no transaction row is written and no
    wallet or subscription changes.  The error follows the order of the
    checks: it is "Wallet not found" when the query of the wallets errors or
    the user holds no wallet of [request.asset]; "Insufficient balance" when
    that wallet holds less than the amount; and the minimum-amount error
    only when the wallet covers the amount. *)
Theorem exchange_below_minimum_rejected
    (convertCrypto : Q -> Asset -> Asset -> Q)
    (u : UserId) (req : TransactionRequest) (w : World) :
  r_type req = EXCHANGE \/ r_type req = WITHDRAW ->
  r_amount req < minAmounts (r_asset req) ->
  exists e w',
    createTransaction convertCrypto u req w = (Throw e, w') /\
    wallets w' = wallets w /\
    transactions w' = transactions w /\
    subscriptions w' = subscriptions w /\
    (hd false (faults w) = true \/ walletOf u (r_asset req) w = None ->
     e = WalletNotFound) /\
    (forall x,
        hd false (faults w) = false ->
        walletOf u (r_asset req) w = Some x ->
        w_balance x < r_amount req ->
        e = InsufficientBalance) /\
    (forall x,
        hd false (faults w) = false ->
        walletOf u (r_asset req) w = Some x ->
        r_amount req <= w_balance x ->
        e = MinimumAmount (r_asset req) (minAmounts (r_asset req))).
Proof.
  intros Hty Hlt.
  assert (Hsame :
    validateTransaction u req
    = validateTransaction u
        (mkTransactionRequest EXCHANGE (r_asset req) (r_amount req)
           (r_fromAsset req) (r_toAsset req) (r_planId req))).
  { unfold validateTransaction. destruct Hty as [E|E]; rewrite E;
      reflexivity. }
  unfold createTransaction. rewrite Hsame.
  unfold validateTransaction, db.getUserWallets,
    try_catch, bind, roundTrip, gets, ret, throw, walletOf.
  simpl.
  apply Qltb_true in Hlt. rewrite Hlt.
  destruct (faults w) as [|[|] fs]; simpl.
  - destruct (findAsset _ _) as [x|]; [destruct (Qltb (w_balance x) _) eqn:E|];
      do 2 eexists; (split; [reflexivity|]); repeat split; auto.
    + intros [H|H]; discriminate H.
    + intros y _ Hy Hle. inversion Hy; subst y.
      apply Qltb_true in E. exfalso. apply (Qlt_not_le _ _ E Hle).
    + intros [H|H]; discriminate H.
    + intros y _ Hy Hshort. inversion Hy; subst y.
      apply Qltb_true in Hshort. congruence.
    + intros y _ Hy. discriminate Hy.
    + intros y _ Hy. discriminate Hy.
  - do 2 eexists; (split; [reflexivity|]); repeat split; auto;
      intros y H; discriminate H.
  - destruct (findAsset _ _) as [x|]; [destruct (Qltb (w_balance x) _) eqn:E|];
      do 2 eexists; (split; [reflexivity|]); repeat split; auto.
    + intros [H|H]; discriminate H.
    + intros y _ Hy Hle. inversion Hy; subst y.
      apply Qltb_true in E. exfalso. apply (Qlt_not_le _ _ E Hle).
    + intros [H|H]; discriminate H.
    + intros y _ Hy Hshort. inversion Hy; subst y.
      apply Qltb_true in Hshort. congruence.
    + intros y _ Hy. discriminate Hy.
    + intros y _ Hy. discriminate Hy.
Qed.

Lemma exchange_below_minimum_rejected_witness :
  (exists w',
      createTransaction atPar 9 exchange5 ledger0 = (Throw WalletNotFound, w')
      /\ wallets w' = wallets ledger0 /\
      transactions w' = transactions ledger0) /\
  (exists w',
      createTransaction atPar 8 exchange5 ledger0
      = (Throw InsufficientBalance, w') /\
      wallets w' = wallets ledger0 /\
      transactions w' = transactions ledger0) /\
  (exists w',
      createTransaction atPar 7 exchange5 ledger0
      = (Throw (MinimumAmount USDT 10), w') /\
      wallets w' = wallets ledger0 /\
      transactions w' = transactions ledger0).
Proof.
  split; [|split].
  - destruct (exchange_below_minimum_rejected atPar 9 exchange5 ledger0
                (or_introl eq_refl) eq_refl)
      as [e [w' [Hrun [Hw [Ht [_ [Hnone _]]]]]]].
    assert (E := Hnone (or_intror eq_refl)). subst e.
    exists w'. split; [exact Hrun|]. split; assumption.
  - destruct (exchange_below_minimum_rejected atPar 8 exchange5 ledger0
                (or_introl eq_refl) eq_refl)
      as [e [w' [Hrun [Hw [Ht [_ [_ [Hshort _]]]]]]]].
    assert (E := Hshort (mkWallet 3 8 USDT 3) eq_refl eq_refl eq_refl).
    subst e. exists w'. split; [exact Hrun|]. split; assumption.
  - destruct (exchange_below_minimum_rejected atPar 7 exchange5 ledger0
                (or_introl eq_refl) eq_refl)
      as [e [w' [Hrun [Hw [Ht [_ [_ [_ Hmin]]]]]]]].
    assert (Hle : 5 <= 100) by (vm_compute; discriminate).
    assert (E := Hmin (mkWallet 1 7 USDT 100) eq_refl eq_refl Hle).
    subst e. exists w'. split; [exact Hrun|]. split; assumption.
Defined.
